(** * resumedogs_backend: the conversion pipeline and its gates

    A shallow embedding of the Python service (FastAPI handlers in
    [main.py] and the modules they call) together with the properties
    of the repository's specification that concern it.

    Conventions.
    - A Python [str] is a list of Unicode code points, a [bytes] value a
      list of bytes, a Python [int] an integer of [Z].
    - Functions that touch the outside world (the token library, the
      usage store, the chat model, the TeX compiler, the bucket, the
      mail provider, the local file system) run in a state-and-exception
      monad over a [World]; what the outside world answers is given by
      an [Env] of oracles, so every statement holds for every behaviour
      of the collaborators.
    - Logging has no effect on results and is left out. *)

From Stdlib Require Import ZArith NArith QArith.QArith_base.
From Stdlib Require Import Strings.String Strings.Ascii Strings.Byte.
From Stdlib Require Import Numbers.DecimalString.
From stdpp Require Import base option list gmap.

Local Open Scope Z_scope.

(** ** Python values *)

Module Py.

(** A [str] is a sequence of code points; [lit] reads an ASCII literal. *)
Abbreviation codepoint := N (only parsing).
Abbreviation str := (list N) (only parsing).
Abbreviation bytes := (list byte) (only parsing).

Fixpoint lit (s : string) : str :=
  match s with
  | EmptyString => []
  | String a s' => N_of_ascii a :: lit s'
  end.

Definition LF : codepoint := 10%N.
Definition CR : codepoint := 13%N.
Definition DOT : codepoint := 46%N.
Definition SLASH : codepoint := 47%N.
Definition SPACE : codepoint := 32%N.
Definition QUOTE : codepoint := 39%N.

(** [len(x)] *)
Definition len {A} (l : list A) : Z := Z.of_nat (length l).

(** [l[start:]] and [l[:stop]], with Python's treatment of negative and
    out-of-range indices. *)
Definition clamp_index (n i : Z) : Z :=
  if i <? 0 then Z.max (n + i) 0 else Z.min i n.

Definition slice_from {A} (start : Z) (l : list A) : list A :=
  drop (Z.to_nat (clamp_index (len l) start)) l.

Definition slice_to {A} (stop : Z) (l : list A) : list A :=
  take (Z.to_nat (clamp_index (len l) stop)) l.

(** [s.startswith(p)], [s.endswith(p)], [p in s] *)
Definition startswith (s p : str) : bool :=
  bool_decide (take (length p) s = p).

Definition endswith (s p : str) : bool :=
  bool_decide (drop (length s - length p) s = p).

Fixpoint contains (s p : str) : bool :=
  startswith s p ||
  match s with
  | [] => false
  | _ :: s' => contains s' p
  end.

(** [s.endswith((p1, p2, ...))] *)
Definition endswith_any (s : str) (ps : list str) : bool :=
  existsb (endswith s) ps.

(** [sep.join(parts)] *)
Fixpoint join (sep : str) (parts : list str) : str :=
  match parts with
  | [] => []
  | [p] => p
  | p :: rest => p ++ sep ++ join sep rest
  end.

(** The characters [str.splitlines] breaks at: LF, VT, FF, CR, FS, GS,
    RS, NEL, LINE SEPARATOR and PARAGRAPH SEPARATOR. *)
Definition is_line_boundary (c : codepoint) : bool :=
  (c =? 10)%N || (c =? 11)%N || (c =? 12)%N || (c =? 13)%N ||
  (c =? 28)%N || (c =? 29)%N || (c =? 30)%N ||
  (c =? 133)%N || (c =? 8232)%N || (c =? 8233)%N.

(** [s.splitlines()]: [cur] is the line being read (reversed) and
    [after_cr] tells that the previous character was a CR, whose LF, if
    any, belongs to the same break. *)
Fixpoint splitlines_go (after_cr : bool) (cur : str) (s : str) : list str :=
  match s with
  | [] => match cur with [] => [] | _ => [reverse cur] end
  | c :: s' =>
      if (c =? LF)%N && after_cr then splitlines_go false cur s'
      else if (c =? CR)%N then reverse cur :: splitlines_go true [] s'
      else if is_line_boundary c then reverse cur :: splitlines_go false [] s'
      else splitlines_go false (c :: cur) s'
  end.

Definition splitlines (s : str) : list str := splitlines_go false [] s.

(** White space in the sense of [str.isspace], which [str.strip] removes. *)
Definition isspace (c : codepoint) : bool :=
  ((9 <=? c) && (c <=? 13))%N || ((28 <=? c) && (c <=? 32))%N ||
  (c =? 133)%N || (c =? 160)%N || (c =? 5760)%N ||
  ((8192 <=? c) && (c <=? 8202))%N || (c =? 8232)%N || (c =? 8233)%N ||
  (c =? 8239)%N || (c =? 8287)%N || (c =? 12288)%N.

Fixpoint lstrip (s : str) : str :=
  match s with
  | c :: s' => if isspace c then lstrip s' else s
  | [] => []
  end.

Definition rstrip (s : str) : str := reverse (lstrip (reverse s)).
Definition strip (s : str) : str := rstrip (lstrip s).

(** [str(n)] for an integer. *)
Definition str_of_int (z : Z) : str := lit (NilZero.string_of_int (Z.to_int z)).

(** [s.lower()]. ASCII text is lowered letter by letter; for text with
    other characters the result is that of the Unicode case tables,
    which are a parameter ([unicode_lower]). *)
Definition ascii_lower (c : codepoint) : codepoint :=
  if ((65 <=? c) && (c <=? 90))%N then (c + 32)%N else c.

Definition isascii (s : str) : bool := forallb (fun c => (c <? 128)%N) s.

Definition lower (unicode_lower : str -> str) (s : str) : str :=
  if isascii s then map ascii_lower s else unicode_lower s.

(** *** The UTF-8 and Latin-1 codecs *)

Definition is_cont (b : N) : bool := ((128 <=? b) && (b <=? 191))%N.
Definition in_range (lo hi b : N) : bool := ((lo <=? b) && (b <=? hi))%N.

(** Strict UTF-8 decoding of a sequence of byte values: [None] stands
    for [UnicodeDecodeError]. Overlong forms, surrogates and values
    above U+10FFFF are refused, as the codec does. *)
Fixpoint decode_utf8_N (bs : list N) : option str :=
  match bs with
  | [] => Some []
  | b0 :: r0 =>
      if (b0 <? 128)%N then cons b0 <$> decode_utf8_N r0
      else if in_range 194 223 b0 then
        match r0 with
        | b1 :: r1 =>
            if is_cont b1
            then cons ((b0 - 192) * 64 + (b1 - 128))%N <$> decode_utf8_N r1
            else None
        | _ => None
        end
      else if in_range 224 239 b0 then
        match r0 with
        | b1 :: b2 :: r2 =>
            if (if (b0 =? 224)%N then in_range 160 191 b1
                else if (b0 =? 237)%N then in_range 128 159 b1
                else is_cont b1) && is_cont b2
            then cons ((b0 - 224) * 4096 + (b1 - 128) * 64 + (b2 - 128))%N
                   <$> decode_utf8_N r2
            else None
        | _ => None
        end
      else if in_range 240 244 b0 then
        match r0 with
        | b1 :: b2 :: b3 :: r3 =>
            if (if (b0 =? 240)%N then in_range 144 191 b1
                else if (b0 =? 244)%N then in_range 128 143 b1
                else is_cont b1) && is_cont b2 && is_cont b3
            then cons ((b0 - 240) * 262144 + (b1 - 128) * 4096
                       + (b2 - 128) * 64 + (b3 - 128))%N
                   <$> decode_utf8_N r3
            else None
        | _ => None
        end
      else None
  end.

(** [b.decode('utf-8')] and [b.decode('latin-1')] *)
Definition decode_utf8 (b : bytes) : option str := decode_utf8_N (map Byte.to_N b).
Definition decode_latin1 (b : bytes) : str := map Byte.to_N b.

(** [s.encode('utf-8')]: [None] stands for [UnicodeEncodeError], raised
    for a surrogate code point. *)
Definition encode_codepoint (c : codepoint) : option (list N) :=
  if (c <? 128)%N then Some [c]
  else if (c <? 2048)%N then Some [192 + c / 64; 128 + c mod 64]%N
  else if (c <? 65536)%N then
    if in_range 55296 57343 c then None
    else Some [224 + c / 4096; 128 + (c / 64) mod 64; 128 + c mod 64]%N
  else if (c <? 1114112)%N then
    Some [240 + c / 262144; 128 + (c / 4096) mod 64;
          128 + (c / 64) mod 64; 128 + c mod 64]%N
  else None.

Definition encode_utf8 (s : str) : option bytes :=
  ns ← mapM encode_codepoint s; mapM Byte.of_N (concat ns).

End Py.
Import Py.

(** ** [os.path] on a POSIX host *)

Module posixpath.

(** [s.rfind(c)]: the last index of [c], or [-1]. *)
Fixpoint rfind_go (c : codepoint) (s : str) (i acc : Z) : Z :=
  match s with
  | [] => acc
  | x :: s' => rfind_go c s' (i + 1) (if (x =? c)%N then i else acc)
  end.

Definition rfind (c : codepoint) (s : str) : Z := rfind_go c s 0 (-1).

(** [os.path.join(a, b)] *)
Definition join2 (a b : str) : str :=
  if startswith b [SLASH] || bool_decide (a = []) then b
  else if endswith a [SLASH] then a ++ b
  else a ++ [SLASH] ++ b.

(** [os.path.join(a, *p)] *)
Definition join (a : str) (p : list str) : str := foldl join2 a p.

(** [os.path.basename(p)] *)
Definition basename (p : str) : str := slice_from (rfind SLASH p + 1) p.

(** [head.rstrip('/')] *)
Fixpoint lstrip_sep (s : str) : str :=
  match s with
  | c :: s' => if (c =? SLASH)%N then lstrip_sep s' else s
  | [] => []
  end.

Definition rstrip_sep (s : str) : str := reverse (lstrip_sep (reverse s)).

(** [os.path.dirname(p)] *)
Definition dirname (p : str) : str :=
  let head := slice_to (rfind SLASH p + 1) p in
  if negb (bool_decide (head = [])) && negb (forallb (N.eqb SLASH) head)
  then rstrip_sep head
  else head.

(** [os.path.splitext(p)]: the extension starts at the last dot of the
    last component, unless that component has only dots before it. *)
Definition splitext (p : str) : str * str :=
  let sepIndex := rfind SLASH p in
  let dotIndex := rfind DOT p in
  if (sepIndex <? dotIndex)
     && negb (forallb (N.eqb DOT)
                (take (Z.to_nat (dotIndex - (sepIndex + 1)))
                      (drop (Z.to_nat (sepIndex + 1)) p)))
  then (slice_to dotIndex p, slice_from dotIndex p)
  else (p, []).

End posixpath.

(** ** Exceptions *)

(** The exception classes the code raises, catches or can receive from
    a library. [UnicodeDecodeError], [UnicodeEncodeError] and
    [OutputParserException] are subclasses of [ValueError]. *)
Inductive exn_class :=
| ValueError
| UnicodeDecodeError
| UnicodeEncodeError
| OutputParserException
| RuntimeError
| ImportError
| FileNotFoundError
| AttributeError
| TypeError
| RequestValidationError
| OtherError.

Inductive exn :=
| HTTPException (status_code : Z) (detail : str)
| Error (cls : exn_class) (message : str).

Definition is_HTTPException (e : exn) : bool :=
  match e with HTTPException _ _ => true | _ => false end.

Definition isinstance (e : exn) (c : exn_class) : bool :=
  match e with
  | HTTPException _ _ => false
  | Error c' _ =>
      match c, c' with
      | ValueError, (ValueError | UnicodeDecodeError | UnicodeEncodeError
                     | OutputParserException) => true
      | UnicodeDecodeError, UnicodeDecodeError => true
      | UnicodeEncodeError, UnicodeEncodeError => true
      | OutputParserException, OutputParserException => true
      | RuntimeError, RuntimeError => true
      | ImportError, ImportError => true
      | FileNotFoundError, FileNotFoundError => true
      | AttributeError, AttributeError => true
      | TypeError, TypeError => true
      | RequestValidationError, RequestValidationError => true
      | OtherError, OtherError => true
      | _, _ => false
      end
  end.

(** [str(e)]; for an [HTTPException] it is the status code, a colon and
    the detail. *)
Definition str_of_exn (e : exn) : str :=
  match e with
  | HTTPException code detail => str_of_int code ++ lit ": " ++ detail
  | Error _ msg => msg
  end.

Inductive result (A : Type) :=
| Ok (a : A)
| Raise (e : exn).
Arguments Ok {A} a.
Arguments Raise {A} e.

Definition HTTP_400_BAD_REQUEST : Z := 400.
Definition HTTP_401_UNAUTHORIZED : Z := 401.
Definition HTTP_429_TOO_MANY_REQUESTS : Z := 429.
Definition HTTP_500_INTERNAL_SERVER_ERROR : Z := 500.
Definition HTTP_503_SERVICE_UNAVAILABLE : Z := 503.

(** ** The world outside the process *)

(** The chat-model chains built at start-up. *)
Inductive chain := ResumeChain | LatexChain.

Record CompletedProcess := {
  returncode : Z;
  stdout : str;
  stderr : str
}.

(** A row of [resume_table]. *)
Record ResumeRecord := {
  rec_id : str;
  rec_created_at : str;
  rec_resume_link : str;
  rec_user_id : str
}.

(** The [params] of a message handed to the mail provider. *)
Record EmailParams := {
  email_from : str;
  email_to : list str;
  email_subject : str;
  email_html : str
}.

(** Calls that leave the process, in the order they are made. *)
Inductive event :=
| UsageSelect (user_id : str)
| UsageUpdate (user_id : str) (daily monthly : Z)
| ChainInvoke (c : chain) (inputs : list (str * str))
| RunPdflatex (cmd : list str) (cwd : str)
| RunAntiword (cmd : list str)
| BucketUpload (dest : str) (data : bytes)
| TableInsert (row : ResumeRecord)
| EmailSend (params : EmailParams).

(** The local files (path to content) and the calls made so far. *)
Record World := {
  fs : gmap (list N) (list byte);
  trace : list event
}.

(** ** The monad of handlers: state over [World], with exceptions *)

Definition M (A : Type) : Type := World -> result A * World.

Definition ret {A} (a : A) : M A := fun w => (Ok a, w).

Definition bind {A B} (m : M A) (k : A -> M B) : M B :=
  fun w =>
    match m w with
    | (Ok a, w') => k a w'
    | (Raise e, w') => (Raise e, w')
    end.

Definition raise {A} (e : exn) : M A := fun w => (Raise e, w).

(** [try: m  except Exception as e: h e] *)
Definition try_except {A} (m : M A) (h : exn -> M A) : M A :=
  fun w =>
    match m w with
    | (Ok a, w') => (Ok a, w')
    | (Raise e, w') => h e w'
    end.

(** A library call whose outcome does not change the world. *)
Definition lift {A} (r : result A) : M A := fun w => (r, w).

(** A call that leaves the process: it is recorded, and its outcome is
    the one the oracle gives for the world at the time of the call. *)
Definition call {A} (ev : event) (oracle : World -> result A) : M A :=
  fun w => (oracle w, {| fs := fs w; trace := trace w ++ [ev] |}).

(** The run of a local program: it is recorded too, and the files it
    leaves are there whether [subprocess.run] returns or raises. *)
Definition call_process {A} (ev : event)
    (oracle : World -> result A * gmap (list N) (list byte)) : M A :=
  fun w =>
    let '(r, files) := oracle w in
    (r, {| fs := files; trace := trace w ++ [ev] |}).

#[global] Instance M_ret : MRet M := @ret.
#[global] Instance M_bind : MBind M := fun A B k m => bind m k.

(** *** Local files *)

(** The file system is a finite map from paths to contents; directories
    are not represented, so [os.makedirs(.., exist_ok=True)] has nothing
    to do. *)

Definition no_such_file (path : str) : exn :=
  Error FileNotFoundError
    (lit "[Errno 2] No such file or directory: " ++ [QUOTE] ++ path ++ [QUOTE]).

(** [os.path.exists(path)], [os.path.isfile(path)] *)
Definition path_exists (path : str) : M bool :=
  fun w => (Ok (bool_decide (is_Some (fs w !! path))), w).

(** [os.path.getsize(path)] *)
Definition getsize (path : str) : M Z :=
  fun w =>
    match fs w !! path with
    | Some data => (Ok (len data), w)
    | None => (Raise (no_such_file path), w)
    end.

(** [open(path, 'rb').read()] *)
Definition read_binary (path : str) : M bytes :=
  fun w =>
    match fs w !! path with
    | Some data => (Ok data, w)
    | None => (Raise (no_such_file path), w)
    end.

(** [open(path, 'wb').write(data)] *)
Definition write_binary (path : str) (data : bytes) : M unit :=
  fun w => (Ok tt, {| fs := <[path := data]> (fs w); trace := trace w |}).

(** [os.remove(path)]: a missing file is an error; for a file that is
    there the operating system decides ([unlink] gives the error it
    raises, if any: permission denied, a busy file, ...), and a refused
    deletion leaves the file where it is. *)
Definition remove (unlink : str -> World -> result unit) (path : str) : M unit :=
  fun w =>
    match fs w !! path with
    | Some _ =>
        match unlink path w with
        | Ok _ => (Ok tt, {| fs := delete path (fs w); trace := trace w |})
        | Raise e => (Raise e, w)
        end
    | None => (Raise (no_such_file path), w)
    end.

(** ** [models.py] *)

Record BasicInfo := {
  fullName : str;
  phone : str;
  email : str;
  linkedin : str;
  github : str;
  website : option str
}.

Record EducationItem := {
  edu_id : str;
  institution : str;
  edu_location : str;
  degree : str;
  minor : option str;
  edu_startDate : str;
  edu_endDate : option str;
  edu_isPresent : bool
}.

Record ExperienceItem := {
  exp_id : str;
  organization : str;
  jobTitle : str;
  exp_location : str;
  exp_startDate : str;
  exp_endDate : option str;
  exp_isPresent : bool;
  exp_description : list str
}.

Record ProjectItem := {
  proj_id : str;
  proj_name : str;
  technologies : str;
  proj_startDate : str;
  proj_endDate : option str;
  proj_isPresent : bool;
  proj_description : list str
}.

Record Skills := {
  languages : str;
  frameworks : str;
  developerTools : str;
  libraries : str
}.

Record ResumeData := {
  basicInfo : BasicInfo;
  education : list EducationItem;
  experience : list ExperienceItem;
  projects : list ProjectItem;
  skills : Skills
}.

(** The bodies of the three conversion responses. *)
Inductive Response :=
| TailoredResumeResponse (filename : str) (original_content_length : Z)
    (job_description_length : Z) (tailored_resume_text : str)
| ResumeLinkResponse (resume_link : str)
| JsonToLatexResponse (message : str) (resume_link : option str)
    (pdf_filename : option str).

(** An uploaded file: [file.filename], [file.content_type] and what
    [file.read()] gives. *)
Record UploadFile := {
  filename : option str;
  content_type : option str;
  content : bytes
}.

(** [HTTPAuthorizationCredentials] *)
Record HTTPAuthorizationCredentials := {
  scheme : str;
  credentials : str
}.

(** What the PDF library reports for a page: its text, its link
    annotations and its words with their boxes. Coordinates are
    rationals. *)
Record Rect := { x0 : Q; y0 : Q; x1 : Q; y1 : Q }.
Record Link := { uri : option str; from_rect : option Rect }.
Record PdfWord := { word_box : Rect; word_text : str }.
Record Page := { page_text : str; page_links : list Link; page_words : list PdfWord }.

(** ** The environment of a deployment *)

(** Constants that the source leaves to the deployment (each is [None]
    as shipped, with the comment "Set ... here"), the text of
    [prompts.py] and of the mail template's markup, the libraries the
    code calls, and the answers of the outside world. An oracle that
    takes a [World] may answer differently at every call. *)
Record Env := {
  (** [secret] of [auth_utils.get_user_id_from_jwt] *)
  jwks_secret : option (list N);
  (** [secret] of [email_service.get_email_from_jwt] *)
  email_jwks_secret : option (list N);
  (** the chain handles of [main.py], set at start-up *)
  resume_tailoring_chain : option chain;
  latex_conversion_chain : option chain;
  (** [prompts.LATEX_TEMPLATE] *)
  LATEX_TEMPLATE : list N;
  (** the markup of the mail body before and after the link *)
  email_html_head : list N;
  email_html_tail : list N;
  (** [os.getcwd()] *)
  getcwd : list N;
  (** Unicode lower-casing of text that is not ASCII *)
  unicode_lower : list N -> list N;
  (** the message of the [UnicodeEncodeError] for a text *)
  codec_error : list N -> list N;
  (** [b.decode('utf-8', errors='replace')] *)
  decode_utf8_replace : list byte -> list N;
  (** [jwt.decode(token, secret, algorithms=["HS256"], ...)]: the claims *)
  jwt_decode : list N -> list N -> result (gmap (list N) (list N));
  (** [fitz.open] and the page accessors *)
  fitz_open : list byte -> result (list Page);
  (** [docx.Document(..).paragraphs], the text of each *)
  docx_paragraphs : list byte -> result (list (list N));
  (** [import textract; textract.process(tmp.name)] on a copy of the bytes *)
  textract_process : list byte -> result (list byte);
  (** [resume_data.model_dump_json(indent=2)] *)
  model_dump_json : ResumeData -> list N;
  (** [str(uuid.uuid4())], [datetime.utcnow().isoformat()], the name of a
      fresh temporary file *)
  uuid4 : World -> list N;
  utcnow_isoformat : World -> list N;
  mktemp : World -> list N;
  (** the [user_usage] table: the answer to the select (no response, a
      response without data, or the selected columns, each an integer or
      null) and to the update *)
  usage_select : list N -> World -> result (option (option (gmap (list N) (option Z))));
  usage_update : list N -> Z -> Z -> World -> result unit;
  (** [chain.ainvoke(inputs)], the text the output parser returns *)
  chain_ainvoke : chain -> list (list N * list N) -> World -> result (list N);
  (** [subprocess.run] of the TeX compiler: the completed process, or
      the exception raised (program not found, output that cannot be
      decoded), and the files the run leaves *)
  pdflatex : list (list N) -> list N -> World ->
             result CompletedProcess * gmap (list N) (list byte);
  (** [subprocess.run(['antiword', ..], check=True)]: its standard output *)
  antiword : list byte -> World -> result (list byte);
  (** the bucket: upload, and the public URL of an object *)
  bucket_upload : list N -> list byte -> World -> result unit;
  get_public_url : list N -> World -> result (list N);
  (** insertion into [resume_table] *)
  table_insert : ResumeRecord -> World -> result unit;
  (** [resend.Emails.send(params)] *)
  emails_send : EmailParams -> World -> result unit;
  (** [os.remove(path)] on a file that is there: done, or the error of
      the operating system *)
  os_remove : list N -> World -> result unit
}.

(** Truth value of an optional text ([None] and [''] are false). *)
Definition truthy (s : option str) : bool :=
  match s with
  | Some (_ :: _) => true
  | _ => false
  end.

Section Service.

Context (env : Env).

(** ** [auth_utils.py] *)

Definition get_user_id_from_jwt (creds : HTTPAuthorizationCredentials) : result str :=
  match jwks_secret env with
  | Some ((_ :: _) as secret) =>
      let token := credentials creds in
      let attempt :=
        match jwt_decode env token secret with
        | Ok payload =>
            match payload !! lit "sub" with
            | Some ((_ :: _) as user_id) => Ok user_id
            | _ => Raise (HTTPException HTTP_401_UNAUTHORIZED
                            (lit "Invalid authentication credentials"))
            end
        | Raise e => Raise e
        end in
      match attempt with
      | Ok user_id => Ok user_id
      | Raise e =>
          Raise (HTTPException HTTP_401_UNAUTHORIZED
                   (lit "Invalid authentication credentials: " ++ str_of_exn e))
      end
  | _ => Raise (HTTPException 500 (lit "SUPABASE_JWKS_SECRET not set."))
  end.

(** ** [usage.py] *)

(** [data.get(key, 0)] compared with a limit: a null counter makes the
    comparison raise [TypeError]. *)
Definition counter (data : gmap (list N) (option Z)) (key : str) : result Z :=
  match data !! key with
  | None => Ok 0
  | Some (Some n) => Ok n
  | Some None =>
      Raise (Error TypeError
               (lit "'>=' not supported between instances of 'NoneType' and 'int'"))
  end.

(** [(usage_data.data if usage_data is not None else {}) or {}] *)
Definition usage_row (usage_data : option (option (gmap (list N) (option Z))))
  : gmap (list N) (option Z) :=
  match usage_data with
  | Some (Some data) => data
  | _ => ∅
  end.

Definition check_user_usage_limits (user_id : str) : M (Z * Z) :=
  try_except
    (usage_data ← call (UsageSelect user_id) (usage_select env user_id);
     let data := usage_row usage_data in
     daily ← lift (counter data (lit "daily_conversions"));
     if 3 <=? daily then
       raise (HTTPException HTTP_429_TOO_MANY_REQUESTS
                (lit "Daily conversion limit reached."))
     else
       monthly ← lift (counter data (lit "monthly_conversions"));
       if 30 <=? monthly then
         raise (HTTPException HTTP_429_TOO_MANY_REQUESTS
                  (lit "Monthly conversion limit reached."))
       else ret (daily, monthly))
    (fun e =>
       if is_HTTPException e then raise e
       else raise (HTTPException HTTP_500_INTERNAL_SERVER_ERROR
                     (lit "Usage check failed: " ++ str_of_exn e))).

Definition increment_user_usage (user_id : str) (daily monthly : Z) : M unit :=
  try_except
    (let new_daily := daily + 1 in
     let new_monthly := monthly + 1 in
     call (UsageUpdate user_id new_daily new_monthly)
          (usage_update env user_id new_daily new_monthly))
    (fun _ => ret tt).

(** ** [utils.py] *)

Definition MAX_FILE_SIZE : Z := 10 * 1024 * 1024.

(** [rect] as a truth value: the PDF library takes a rectangle with
    four zero coordinates for false. *)
Definition rect_truthy (r : Rect) : bool :=
  negb (Qeq_bool (x0 r) 0 && Qeq_bool (y0 r) 0 && Qeq_bool (x1 r) 0 && Qeq_bool (y1 r) 0).

(** [x0 >= rect.x0 and x1 <= rect.x1 and y0 >= rect.y0 and y1 <= rect.y1] *)
Definition word_inside (rect : Rect) (w : PdfWord) : bool :=
  Qle_bool (x0 rect) (x0 (word_box w)) && Qle_bool (x1 (word_box w)) (x1 rect)
  && Qle_bool (y0 rect) (y0 (word_box w)) && Qle_bool (y1 (word_box w)) (y1 rect).

Definition link_text (page : Page) (link : Link) : str :=
  match from_rect link with
  | Some rect =>
      if rect_truthy rect
      then strip (concat (map (fun w => word_text w ++ [SPACE])
                            (filter (fun w => word_inside rect w = true) (page_words page))))
      else []
  | None => []
  end.

(** The entries [f"Page {page_num + 1}: '{link_text}' -> {link['uri']}"]
    of one page. *)
Definition page_hyperlinks (page_num : Z) (page : Page) : list str :=
  omap (fun link =>
          match uri link with
          | Some ((_ :: _) as u) =>
              Some (lit "Page " ++ str_of_int (page_num + 1) ++ lit ": " ++ [QUOTE]
                    ++ link_text page link ++ [QUOTE] ++ lit " -> " ++ u)
          | _ => None
          end)
       (page_links page).

Definition pdf_text (doc : list Page) : str :=
  concat (map (fun page => page_text page ++ [LF]) doc).

Definition pdf_hyperlinks (doc : list Page) : list str :=
  concat (imap (fun i page => page_hyperlinks (Z.of_nat i) page) doc).

Definition extract_pdf (filename : str) (content : bytes) : M str :=
  match fitz_open env content with
  | Raise pdf_err =>
      raise (HTTPException 400 (lit "Could not parse PDF file: " ++ str_of_exn pdf_err))
  | Ok doc =>
      let text := pdf_text doc in
      let hyperlinks := pdf_hyperlinks doc in
      match hyperlinks with
      | [] => ret text
      | _ => ret (text ++ [LF; LF] ++ lit "Hyperlinks found in PDF:" ++ [LF]
                  ++ Py.join [LF] hyperlinks)
      end
  end.

Definition extract_word (filename : str) (content : bytes) : M str :=
  try_except
    (if endswith (lower (unicode_lower env) filename) (lit ".docx") then
       paragraphs ← lift (docx_paragraphs env content);
       ret (concat (map (fun para => para ++ [LF]) paragraphs))
     else
       tmp_name ← (fun w => (Ok (mktemp env w ++ lit ".doc"), w));
       try_except
         (extracted ← lift (textract_process env content);
          ret (decode_utf8_replace env extracted))
         (fun e =>
            if isinstance e ImportError then
              try_except
                (out ← call (RunAntiword [lit "antiword"; tmp_name]) (antiword env content);
                 ret (decode_utf8_replace env out))
                (fun antiword_err =>
                   raise (HTTPException 400
                            (lit "Could not parse DOC file: " ++ str_of_exn antiword_err)))
            else raise e))
    (fun doc_err =>
       raise (HTTPException 400 (lit "Could not parse Word file: " ++ str_of_exn doc_err))).

Definition extract_plain (filename : str) (content : bytes) : M str :=
  match decode_utf8 content with
  | Some text => ret text
  | None => ret (decode_latin1 content)
  end.

(** The type-specific parsers, in the order the source tries them. *)
Inductive file_kind := PdfFile | WordFile | TextFile | UnsupportedFile.

Definition is_type (content_type : option str) (name : string) : bool :=
  bool_decide (content_type = Some (lit name)).

Definition detect_kind (content_type : option str) (filename : str) : file_kind :=
  let lowered := lower (unicode_lower env) filename in
  if is_type content_type "application/pdf" || endswith lowered (lit ".pdf")
  then PdfFile
  else if is_type content_type
            "application/vnd.openxmlformats-officedocument.wordprocessingml.document"
          || is_type content_type "application/msword"
          || endswith_any lowered [lit ".docx"; lit ".doc"]
  then WordFile
  else if is_type content_type "text/markdown" || is_type content_type "text/plain"
          || endswith_any lowered [lit ".md"; lit ".txt"]
  then TextFile
  else UnsupportedFile.

(** [f"{content_type}"] *)
Definition show_option (s : option str) : str :=
  match s with Some s => s | None => lit "None" end.

(** [file.filename or "unknown_file"] *)
Definition filename_or_unknown (file : UploadFile) : str :=
  match filename file with
  | Some ((_ :: _) as f) => f
  | _ => lit "unknown_file"
  end.

(** The two [file.read()] and the [file.seek(0)] are taken to succeed:
    [content file] is what they give. An upload that cannot be read is
    not represented; in the source a read that raises inside the [try]
    ends in the last handler (500), which no input reaches here. *)
Definition extract_text_from_file (file : UploadFile) : M str :=
  let filename := filename_or_unknown file in
  let content_type := content_type file in
  let content := content file in
  let size := len content in
  if MAX_FILE_SIZE <? size then
    raise (HTTPException 413 (lit "File size exceeds limit (10.0 MB)."))
  else
    try_except
      (match content with
       | [] => raise (HTTPException 400 (lit "Uploaded file is empty."))
       | _ =>
           match detect_kind content_type filename with
           | PdfFile => extract_pdf filename content
           | WordFile => extract_word filename content
           | TextFile => extract_plain filename content
           | UnsupportedFile =>
               raise (HTTPException 415
                        (lit "Unsupported file type: " ++ [QUOTE] ++ show_option content_type
                         ++ [QUOTE] ++ lit ". Please upload PDF, DOCX, MD, or TXT."))
           end
       end)
      (fun e =>
         if is_HTTPException e then raise e
         else raise (HTTPException 500
                       (lit "Error processing file " ++ filename
                        ++ lit ". Please try again or contact support."))).

(** ** [latex_utils.py] *)

Definition write_latex_to_file (latex_content : str) (output_dir : str) : M str :=
  unique_id ← (fun w => (Ok (uuid4 env w), w));
  let tex_filename := unique_id ++ lit ".tex" in
  let tex_path := posixpath.join output_dir [tex_filename] in
  (* [open(tex_path, 'w')] creates the file before anything is written *)
  write_binary tex_path [];;
  match encode_utf8 latex_content with
  | Some data => write_binary tex_path data;; ret tex_path
  | None => raise (Error UnicodeEncodeError (codec_error env latex_content))
  end.

Definition build_pdflatex_command (tex_path : str) (output_dir : str) : list str :=
  [lit "pdflatex"; lit "-interaction=nonstopmode"; lit "-output-directory";
   output_dir; tex_path].

Definition run_pdflatex_command (pdflatex_cmd : list str) (output_dir : str)
  : M CompletedProcess :=
  call_process (RunPdflatex pdflatex_cmd output_dir)
               (pdflatex env pdflatex_cmd output_dir).

Definition read_pdf_file (pdf_path : str) : M bytes := read_binary pdf_path.

Definition get_pdf_and_tex_filenames (tex_path : str) : str * str :=
  let base := fst (posixpath.splitext (posixpath.basename tex_path)) in
  let pdf_filename := base ++ lit ".pdf" in
  let pdf_path := posixpath.join (posixpath.dirname tex_path) [pdf_filename] in
  (pdf_filename, pdf_path).

Definition format_pdflatex_error (stderr : str) (num_lines : Z) : str :=
  let lines := splitlines stderr in
  match lines with
  | [] => lit "No stderr output."
  | _ => Py.join [LF] (slice_from (- num_lines) lines)
  end.

(** ** [latex_converter.py] *)

Definition convert_latex_to_pdf (latex_content : str) : M (bytes * str) :=
  try_except
    (let output_dir := posixpath.join (getcwd env) [lit "latex_output"] in
     tex_path ← write_latex_to_file latex_content output_dir;
     let '(pdf_filename, pdf_path) := get_pdf_and_tex_filenames tex_path in
     let pdflatex_cmd := build_pdflatex_command tex_path output_dir in
     process ← run_pdflatex_command pdflatex_cmd output_dir;
     (* the return code is only logged *)
     present ← path_exists pdf_path;
     usable ← (if present : bool then size ← getsize pdf_path; ret (0 <? size)
               else ret false);
     if usable : bool then
       pdf_content ← read_pdf_file pdf_path;
       ret (pdf_content, pdf_filename)
     else
       let last_stderr := format_pdflatex_error (stderr process) 20 in
       raise (HTTPException HTTP_500_INTERNAL_SERVER_ERROR
                (lit "PDF generation failed - output file not found or empty. pdflatex stderr (last 20 lines):"
                 ++ [LF] ++ last_stderr)))
    (fun e =>
       if is_HTTPException e then raise e
       else raise (HTTPException HTTP_500_INTERNAL_SERVER_ERROR
                     (lit "Failed to convert LaTeX to PDF: " ++ str_of_exn e))).

(** ** [resume_processor.py] *)

(** The chains end in a plain-text output parser, so what [ainvoke]
    returns is a [str] and the [isinstance] tests of the source hold. *)

Definition refusal_patterns : list str :=
  [lit "provide the content"; lit "ready to help"; lit "cannot fulfill";
   lit "i need the resume"].

Definition generate_tailored_resume (resume_content job_description : str) (c : chain)
  : M str :=
  match resume_content, job_description with
  | _ :: _, _ :: _ =>
      try_except
        (tailored_resume ←
           call (ChainInvoke c [(lit "resume_content", resume_content);
                                (lit "job_description", job_description)])
                (chain_ainvoke env c [(lit "resume_content", resume_content);
                                      (lit "job_description", job_description)]);
         match strip tailored_resume with
         | [] => raise (Error RuntimeError (lit "Failed to generate valid resume text."))
         | _ =>
             if (len tailored_resume <? 100)
                && existsb (contains (lower (unicode_lower env) tailored_resume))
                     refusal_patterns
             then raise (Error RuntimeError
                           (lit "Failed to process the input resume/JD. Please check the input data."))
             else ret (strip tailored_resume)
         end)
        (fun e =>
           if isinstance e OutputParserException
           then raise (Error RuntimeError (lit "Failed to parse output: " ++ str_of_exn e))
           else raise (Error RuntimeError (lit "Processing failed: " ++ str_of_exn e)))
  | _, _ =>
      raise (Error ValueError (lit "Resume content and job description cannot be empty."))
  end.

(** The two fence tests of [generate_latex_resume]:
    [if s.startswith("```latex\n"): s = s[8:]] and then
    [if s.endswith("\n```"): s = s[:-4]]. *)
Definition strip_code_fences (latex_resume : str) : str :=
  let latex_resume :=
    if startswith latex_resume (lit "```latex" ++ [LF])
    then slice_from 8 latex_resume else latex_resume in
  let latex_resume :=
    if endswith latex_resume ([LF] ++ lit "```")
    then slice_to (-4) latex_resume else latex_resume in
  latex_resume.

Definition generate_latex_resume (resume_content : str) (c : option chain) : M str :=
  match resume_content with
  | [] => raise (Error ValueError (lit "Resume content cannot be empty"))
  | _ =>
      try_except
        (latex_resume ←
           match c with
           | Some c =>
               call (ChainInvoke c [(lit "resume_content", resume_content);
                                    (lit "latex_template", LATEX_TEMPLATE env)])
                    (chain_ainvoke env c [(lit "resume_content", resume_content);
                                          (lit "latex_template", LATEX_TEMPLATE env)])
           | None =>
               raise (Error AttributeError
                        (lit "'NoneType' object has no attribute 'ainvoke'"))
           end;
         ret (strip_code_fences latex_resume))
        (fun e =>
           raise (Error RuntimeError (lit "LaTeX conversion failed: " ++ str_of_exn e)))
  end.

(** ** [supabase_utils.py] *)

Definition upload_pdf_to_bucket (file_path : str) (dest_filename : str) : M str :=
  try_except
    (data ← read_binary file_path;
     call (BucketUpload dest_filename data) (bucket_upload env dest_filename data);;
     public_url ← (fun w => (get_public_url env dest_filename w, w));
     ret public_url)
    (fun e => raise e).

Definition insert_resume_record (resume_link : str) (user_id : str) : M unit :=
  new_id ← (fun w => (Ok (uuid4 env w), w));
  created_at ← (fun w => (Ok (utcnow_isoformat env w), w));
  let data := {| rec_id := new_id; rec_created_at := created_at;
                 rec_resume_link := resume_link; rec_user_id := user_id |} in
  try_except
    (call (TableInsert data) (table_insert env data))
    (fun e => raise e).

(** ** [email_templates.py] *)

Definition get_resume_conversion_email_template (resume_link : str)
    (conversion_type : str) : str * str :=
  let subject := lit "Your Resume PDF is Ready! " ++ [128196%N] in
  let html_content := email_html_head env ++ resume_link ++ email_html_tail env in
  (subject, html_content).

(** ** [email_service.py] *)

Definition get_email_from_jwt (creds : HTTPAuthorizationCredentials) : option str :=
  match email_jwks_secret env with
  | Some ((_ :: _) as secret) =>
      let token := credentials creds in
      match jwt_decode env token secret with
      | Ok payload =>
          match payload !! lit "email" with
          | Some ((_ :: _) as email) => Some email
          | _ => None
          end
      | Raise _ => None
      end
  | _ => None
  end.

Definition send_resume_conversion_email (user_email resume_link conversion_type : str)
  : M bool :=
  try_except
    (let '(subject, html_content) :=
       get_resume_conversion_email_template resume_link conversion_type in
     let params := {| email_from := lit "YourApp <noreply@yourdomain.com>";
                      email_to := [user_email];
                      email_subject := subject;
                      email_html := html_content |} in
     call (EmailSend params) (emails_send env params);;
     ret true)
    (fun _ => ret false).

Definition send_resume_conversion_notification (creds : HTTPAuthorizationCredentials)
    (resume_link conversion_type : str) : M bool :=
  try_except
    (match get_email_from_jwt creds with
     | Some user_email =>
         send_resume_conversion_email user_email resume_link conversion_type
     | None => ret false
     end)
    (fun _ => ret false).

(** ** [main.py] *)

(** [file.filename] as a truth value *)
Definition nonempty_filename (file : UploadFile) : option str :=
  match filename file with
  | Some ((_ :: _) as f) => Some f
  | _ => None
  end.

(** [try: await send_resume_conversion_notification(..)
     except Exception: ...]: the outcome is only logged. *)
Definition notify (creds : HTTPAuthorizationCredentials) (public_url : str)
    (conversion_type : string) : M unit :=
  try_except
    (send_resume_conversion_notification creds public_url (lit conversion_type);; ret tt)
    (fun _ => ret tt).

(** The clean-up loop over [".pdf", ".tex", ".aux", ".log", ".out"]. *)
Definition cleanup_one (latex_output_dir base_name : str) (ext : str) : M unit :=
  let file_path := posixpath.join latex_output_dir [base_name ++ ext] in
  try_except
    (isfile ← path_exists file_path;
     if isfile : bool then remove (os_remove env) file_path else ret tt)
    (fun _ => ret tt).

Fixpoint for_each {A} (f : A -> M unit) (l : list A) : M unit :=
  match l with
  | [] => ret tt
  | x :: l' => f x;; for_each f l'
  end.

Definition cleanup (latex_output_dir pdf_filename : str) : M unit :=
  let base_name := fst (posixpath.splitext pdf_filename) in
  for_each (cleanup_one latex_output_dir base_name)
    [lit ".pdf"; lit ".tex"; lit ".aux"; lit ".log"; lit ".out"].

Definition tailor_resume_endpoint (creds : HTTPAuthorizationCredentials)
    (job_description : str) (resume_file : UploadFile) : M Response :=
  user_id ← lift (get_user_id_from_jwt creds);
  '(daily, monthly) ← check_user_usage_limits user_id;
  match nonempty_filename resume_file with
  | None => raise (HTTPException HTTP_400_BAD_REQUEST (lit "Filename cannot be empty."))
  | Some name =>
      try_except
        (original_resume_text ← extract_text_from_file resume_file;
         match resume_tailoring_chain env with
         | None =>
             raise (HTTPException HTTP_503_SERVICE_UNAVAILABLE
                      (lit "Resume processing service temporarily unavailable."))
         | Some c =>
             modified_resume_text ←
               generate_tailored_resume original_resume_text job_description c;
             increment_user_usage user_id daily monthly;;
             ret (TailoredResumeResponse name (len original_resume_text)
                    (len job_description) modified_resume_text)
         end)
        (fun e =>
           if is_HTTPException e then raise e
           else if isinstance e ValueError
           then raise (HTTPException HTTP_400_BAD_REQUEST (str_of_exn e))
           else if isinstance e RuntimeError
           then raise (HTTPException HTTP_500_INTERNAL_SERVER_ERROR (str_of_exn e))
           else raise (HTTPException HTTP_500_INTERNAL_SERVER_ERROR
                         (lit "An unexpected error occurred.")))
  end.

Definition convert_to_latex_endpoint (creds : HTTPAuthorizationCredentials)
    (resume_file : UploadFile) : M Response :=
  user_id ← lift (get_user_id_from_jwt creds);
  '(daily, monthly) ← check_user_usage_limits user_id;
  public_url ←
    try_except
      (match nonempty_filename resume_file with
       | None =>
           raise (HTTPException HTTP_400_BAD_REQUEST (lit "Filename cannot be empty."))
       | Some name =>
           if negb (endswith_any (lower (unicode_lower env) name)
                      [lit ".pdf"; lit ".md"; lit ".docx"; lit ".doc"])
           then raise (HTTPException HTTP_400_BAD_REQUEST
                         (lit "Only PDF, Markdown (.md), DOCX, and DOC files are supported."))
           else
             original_resume_text ← extract_text_from_file resume_file;
             latex_resume_text ←
               generate_latex_resume original_resume_text (latex_conversion_chain env);
             '(pdf_content, pdf_filename) ← convert_latex_to_pdf latex_resume_text;
             let local_pdf_path :=
               posixpath.join (getcwd env) [lit "latex_output"; pdf_filename] in
             public_url ← upload_pdf_to_bucket local_pdf_path pdf_filename;
             insert_resume_record public_url user_id;;
             notify creds public_url "resume";;
             let latex_output_dir := posixpath.join (getcwd env) [lit "latex_output"] in
             cleanup latex_output_dir pdf_filename;;
             ret public_url
       end)
      (fun e =>
         if is_HTTPException e then raise e
         else raise (HTTPException HTTP_500_INTERNAL_SERVER_ERROR (str_of_exn e)));
  increment_user_usage user_id daily monthly;;
  ret (ResumeLinkResponse public_url).

Definition convert_json_to_latex_endpoint (resume_data : ResumeData)
    (creds : HTTPAuthorizationCredentials) : M Response :=
  user_id ← lift (get_user_id_from_jwt creds);
  '(daily, monthly) ← check_user_usage_limits user_id;
  match latex_conversion_chain env with
  | None =>
      raise (HTTPException HTTP_503_SERVICE_UNAVAILABLE
               (lit "Resume processing service temporarily unavailable."))
  | Some c =>
      try_except
        (let resume_content_json_string := model_dump_json env resume_data in
         latex_resume_text ← generate_latex_resume resume_content_json_string (Some c);
         '(pdf_content, pdf_filename) ← convert_latex_to_pdf latex_resume_text;
         let latex_output_dir := posixpath.join (getcwd env) [lit "latex_output"] in
         let local_pdf_path := posixpath.join latex_output_dir [pdf_filename] in
         present ← path_exists local_pdf_path;
         (if present : bool then ret tt else write_binary local_pdf_path pdf_content);;
         public_url ← upload_pdf_to_bucket local_pdf_path pdf_filename;
         insert_resume_record public_url user_id;;
         notify creds public_url "json";;
         cleanup latex_output_dir pdf_filename;;
         increment_user_usage user_id daily monthly;;
         ret (JsonToLatexResponse (lit "Resume converted successfully from JSON.")
                (Some public_url) (Some pdf_filename)))
        (fun e =>
           if is_HTTPException e then raise e
           else if isinstance e ValueError
           then raise (HTTPException HTTP_400_BAD_REQUEST (str_of_exn e))
           else if isinstance e RuntimeError
           then raise (HTTPException HTTP_500_INTERNAL_SERVER_ERROR (str_of_exn e))
           else raise (HTTPException HTTP_500_INTERNAL_SERVER_ERROR
                         (lit "An unexpected error occurred during JSON to LaTeX conversion.")))
  end.

(** ** The routes *)

(** [header.partition(' ')], without the separator *)
Fixpoint partition_space (s : str) : str * str :=
  match s with
  | [] => ([], [])
  | c :: s' =>
      if (c =? SPACE)%N then ([], s')
      else let '(a, b) := partition_space s' in (c :: a, b)
  end.

(** Modelled from the spec: the [HTTPBearer()] dependency that each
    conversion endpoint declares for its [credentials] argument is the
    web framework's code, not the repository's. Following the spec's
    interface section ("every endpoint requires Authorization: Bearer
    <token> ... invalid/missing/unverifiable token => 401"), a request
    without the header, or whose header is not a bearer scheme followed
    by a token, is refused with status 401; otherwise the scheme and
    the token are handed to the endpoint. *)
Definition HTTPBearer (authorization : option str) : result HTTPAuthorizationCredentials :=
  match authorization with
  | None => Raise (HTTPException HTTP_401_UNAUTHORIZED (lit "Not authenticated"))
  | Some header =>
      let '(scheme, param) := partition_space header in
      if bool_decide (scheme = []) || bool_decide (param = [])
         || negb (bool_decide (lower (unicode_lower env) scheme = lit "bearer"))
      then Raise (HTTPException HTTP_401_UNAUTHORIZED (lit "Not authenticated"))
      else Ok {| scheme := scheme; credentials := param |}
  end.

(** A request to one of the three conversion routes, with its body as
    the framework parsed it. *)
Inductive Body :=
| TailorForm (job_description : str) (resume_file : UploadFile)
| ConvertLatexForm (resume_file : UploadFile)
| ConvertJsonBody (resume_data : ResumeData).

Record Request := {
  authorization : option (list N);
  body : Body
}.

(** Modelled from the spec: the framework's handling of a request to
    [POST /tailor], [POST /convert-latex] or [POST /convert-json-to-latex]
    ("verify bearer token -> derive user id -> check quota -> ..."). The
    dependency of the [credentials] argument is resolved first, then the
    declared constraint on [job_description] ([min_length=50]) is
    checked, then the endpoint function of the source runs. *)
Definition app (req : Request) : M Response :=
  creds ← lift (HTTPBearer (authorization req));
  match body req with
  | TailorForm job_description resume_file =>
      if len job_description <? 50
      then raise (Error RequestValidationError
                    (lit "String should have at least 50 characters"))
      else tailor_resume_endpoint creds job_description resume_file
  | ConvertLatexForm resume_file => convert_to_latex_endpoint creds resume_file
  | ConvertJsonBody resume_data => convert_json_to_latex_endpoint resume_data creds
  end.

End Service.

(** ** [payments.py] *)

(** What [stripe.Webhook.construct_event] does with a payload, a
    signature header and the webhook secret: it returns the event, whose
    [type] the handler reads (a payload need not have one), or raises a
    [ValueError] for a payload that is not JSON, a
    [SignatureVerificationError], or something else. *)
Inductive construct_event_outcome :=
| StripeEvent (type : option (list N))
| StripeValueError (message : list N)
| SignatureVerificationError (message : list N)
| StripeOtherError (e : exn).

(** The handler, with the two module constants ([stripe.api_key] and
    [endpoint_secret], both [None] as shipped) and the library call as
    arguments. Reading [event['type']] for the log line happens inside
    the [try], so a missing type ends in the last [except] clause. *)
Definition handle_stripe_webhook (api_key endpoint_secret : option (list N))
    (construct_event : list byte -> option (list N) -> list N -> construct_event_outcome)
    (payload : list byte) (stripe_signature : option (list N))
  : result (list (list N * list N)) :=
  match api_key, endpoint_secret with
  | Some (_ :: _), Some ((_ :: _) as secret) =>
      match construct_event payload stripe_signature secret with
      | StripeEvent (Some _) =>
          Ok [(lit "message", lit "Webhook received successfully.")]
      | StripeValueError _ =>
          Raise (HTTPException HTTP_400_BAD_REQUEST (lit "Invalid payload"))
      | SignatureVerificationError _ =>
          Raise (HTTPException HTTP_400_BAD_REQUEST (lit "Invalid signature"))
      | StripeEvent None | StripeOtherError _ =>
          Raise (HTTPException HTTP_500_INTERNAL_SERVER_ERROR (lit "Webhook processing error"))
      end
  | _, _ =>
      Raise (HTTPException HTTP_503_SERVICE_UNAVAILABLE (lit "Payment system not configured."))
  end.

(** ** A sample deployment

    A concrete environment on which the statements below are exercised:
    the token [tok] belongs to user [u1] with address [u1@example.org],
    the model answers with a fenced document, and the compiler, the
    usage store and the mail provider behave as the arguments say. *)

Module Sample.

Definition empty_world : World := {| fs := ∅; trace := [] |}.

Definition claims : gmap (list N) (list N) :=
  <[lit "sub" := lit "u1"]> (<[lit "email" := lit "u1@example.org"]> ∅).

Definition usage (daily monthly : Z) : option (option (gmap (list N) (option Z))) :=
  Some (Some (<[lit "daily_conversions" := Some daily]>
                (<[lit "monthly_conversions" := Some monthly]> ∅))).

Definition pdf_magic : list byte := [x25; x50; x44; x46].

(** Where the compiler puts the PDF of a job: beside the source, with
    the four characters of the ending replaced. *)
Definition pdf_beside (tex_path : list N) : list N :=
  take (length tex_path - 4) tex_path ++ lit ".pdf".

(** A compiler run that complains (exit status 1) and still leaves the PDF. *)
Definition compiler_with_warnings (cmd : list (list N)) (cwd : list N) (w : World)
  : result CompletedProcess * gmap (list N) (list byte) :=
  let tex_path := List.last cmd [] in
  (Ok {| returncode := 1; stdout := lit "Output written"; stderr := lit "warning" |},
   <[pdf_beside tex_path := pdf_magic]> (fs w)).

(** A compiler run that leaves the PDF and prints bytes that are not
    UTF-8, so that [subprocess.run(.., text=True)] raises when it
    decodes the output. *)
Definition compiler_undecodable (cmd : list (list N)) (cwd : list N) (w : World)
  : result CompletedProcess * gmap (list N) (list byte) :=
  let tex_path := List.last cmd [] in
  (Raise (Error UnicodeDecodeError
            (lit "'utf-8' codec can't decode byte 0xe9 in position 12: invalid continuation byte")),
   <[pdf_beside tex_path := pdf_magic]> (fs w)).

(** A compiler run that fails and leaves nothing, with [n] lines of
    diagnostics. *)
Definition diagnostics (n : nat) : list N :=
  concat (map (fun i => lit "! error " ++ str_of_int (Z.of_nat i) ++ [LF]) (seq 1 n)).


Definition env
    (secret : option (list N))
    (select : result (option (option (gmap (list N) (option Z)))))
    (compiler : list (list N) -> list N -> World ->
                result CompletedProcess * gmap (list N) (list byte))
    (send : result unit) : Env :=
  {| jwks_secret := secret;
     email_jwks_secret := secret;
     resume_tailoring_chain := Some ResumeChain;
     latex_conversion_chain := Some LatexChain;
     LATEX_TEMPLATE := lit "\documentclass{article}";
     email_html_head := lit "<a href=";
     email_html_tail := lit ">Download PDF Resume</a>";
     getcwd := lit "/srv/app";
     unicode_lower := fun s => s;
     codec_error := fun _ => lit "surrogates not allowed";
     decode_utf8_replace := decode_latin1;
     jwt_decode := fun token _ =>
       if bool_decide (token = lit "tok") then Ok claims
       else Raise (Error OtherError (lit "Signature verification failed"));
     fitz_open := fun _ => Ok [];
     docx_paragraphs := fun _ => Ok [];
     textract_process := fun _ => Raise (Error ImportError (lit "No module named 'textract'"));
     model_dump_json := fun r => lit "{ name: " ++ fullName (basicInfo r) ++ lit " }";
     uuid4 := fun w => lit "7d1f0007-63e1-4e1a-b22b-" ++ str_of_int (len (trace w));
     utcnow_isoformat := fun _ => lit "2025-01-01T00:00:00";
     mktemp := fun _ => lit "/tmp/tmpab12cd";
     usage_select := fun _ _ => select;
     usage_update := fun _ _ _ _ => Ok tt;
     chain_ainvoke := fun c _ _ =>
       match c with
       | LatexChain => Ok (lit "```latex" ++ [LF] ++ lit "\documentclass{article}" ++ [LF] ++ lit "```")
       | ResumeChain => Ok (lit "John Doe, Software Engineer")
       end;
     pdflatex := compiler;
     antiword := fun _ _ => Ok [];
     bucket_upload := fun _ _ _ => Ok tt;
     get_public_url := fun dest _ => Ok (lit "https://bucket.example.org/" ++ dest);
     table_insert := fun _ _ => Ok tt;
     emails_send := fun _ _ => send;
     os_remove := fun _ _ => Ok tt |}.

Definition bearer : HTTPAuthorizationCredentials :=
  {| scheme := lit "Bearer"; credentials := lit "tok" |}.

Definition text_file (name : string) (data : list byte) : UploadFile :=
  {| filename := Some (lit name); content_type := Some (lit "text/markdown");
     content := data |}.

(** The deployment [e] with a generator that always gives [unique_id],
    and with the given answers of the fallback Word reader, of the
    update of the usage counters and of the deletion of a file. *)
Definition with_answers (e : Env) (unique_id : list N)
    (antiword_run : result (list byte)) (update removal : result unit) : Env :=
  {| jwks_secret := jwks_secret e;
     email_jwks_secret := email_jwks_secret e;
     resume_tailoring_chain := resume_tailoring_chain e;
     latex_conversion_chain := latex_conversion_chain e;
     LATEX_TEMPLATE := LATEX_TEMPLATE e;
     email_html_head := email_html_head e;
     email_html_tail := email_html_tail e;
     getcwd := getcwd e;
     unicode_lower := unicode_lower e;
     codec_error := codec_error e;
     decode_utf8_replace := decode_utf8_replace e;
     jwt_decode := jwt_decode e;
     fitz_open := fitz_open e;
     docx_paragraphs := docx_paragraphs e;
     textract_process := textract_process e;
     model_dump_json := model_dump_json e;
     uuid4 := fun _ => unique_id;
     utcnow_isoformat := utcnow_isoformat e;
     mktemp := mktemp e;
     usage_select := usage_select e;
     usage_update := fun _ _ _ _ => update;
     chain_ainvoke := chain_ainvoke e;
     pdflatex := pdflatex e;
     antiword := fun _ _ => antiword_run;
     bucket_upload := bucket_upload e;
     get_public_url := get_public_url e;
     table_insert := table_insert e;
     emails_send := emails_send e;
     os_remove := fun _ _ => removal |}.

Definition unique_id : list N := lit "7d1f0007-63e1-4e1a-b22b-54c4d836d628".

(** A deployment in which everything works, for a user with two
    conversions today and five this month. *)
Definition working : Env :=
  env (Some (lit "s3cret")) (Ok (usage 2 5)) compiler_with_warnings (Ok tt).

(** The same deployment with fixed identifiers, in which the mail
    provider, the fallback Word reader, the update of the counters and
    the deletion of files all fail. *)
Definition degraded : Env :=
  with_answers
    (env (Some (lit "s3cret")) (Ok (usage 2 5)) compiler_with_warnings
       (Raise (Error OtherError (lit "mail provider down"))))
    unique_id
    (Raise (Error OtherError (lit "antiword: not found")))
    (Raise (Error OtherError (lit "connection reset")))
    (Raise (Error OtherError (lit "[Errno 13] Permission denied"))).

(** The working deployment with fixed identifiers. *)
Definition tidy : Env := with_answers working unique_id (Ok []) (Ok tt) (Ok tt).

Definition cv : UploadFile := text_file "cv.md" [x52; xe9; x73; x75; x6d; xe9].

Definition job_description : list N :=
  lit "Senior backend engineer: Python, FastAPI, PostgreSQL, five years of experience.".

(** A PDF in which the parser finds no page. *)
Definition blank_pdf : UploadFile :=
  {| filename := Some (lit "cv.pdf"); content_type := Some (lit "application/pdf");
     content := pdf_magic |}.

Definition word_file : UploadFile :=
  {| filename := Some (lit "cv.doc"); content_type := Some (lit "application/msword");
     content := [xd0; xcf; x11; xe0] |}.

Definition resume : ResumeData :=
  {| basicInfo := {| fullName := lit "John Doe"; phone := lit "555-0100";
                     email := lit "u1@example.org"; linkedin := []; github := [];
                     website := None |};
     education := []; experience := []; projects := [];
     skills := {| languages := lit "Python"; frameworks := []; developerTools := [];
                  libraries := [] |} |}.

End Sample.

(** ** Vocabulary of the statements *)

(** The text/markdown branch is reached when the size test and the
    empty-content test pass and neither the PDF nor the Word test
    claims the file. *)
Definition dispatched_to_text (env : Env) (file : UploadFile) : Prop :=
  len (content file) <= MAX_FILE_SIZE /\
  content file <> [] /\
  detect_kind env (content_type file) (filename_or_unknown file) = TextFile.

(** What the comment in the source says of the first test ("Remove
    ```latex\n prefix"), and the specification after it: the opening
    marker goes with its newline, nine characters in all. *)
Definition strip_code_fences_as_documented (latex_resume : list N) : list N :=
  let latex_resume :=
    if startswith latex_resume (lit "```latex" ++ [LF])
    then slice_from 9 latex_resume else latex_resume in
  let latex_resume :=
    if endswith latex_resume ([LF] ++ lit "```")
    then slice_to (-4) latex_resume else latex_resume in
  latex_resume.

Definition is_storage_write (ev : event) : bool :=
  match ev with
  | BucketUpload _ _ | TableInsert _ => true
  | _ => false
  end.

Definition is_usage_update (ev : event) : bool :=
  match ev with
  | UsageUpdate _ _ _ => true
  | _ => false
  end.

(** Neither an upload, nor an insertion, nor a counter update. *)
Definition before_storage (ev : event) : bool :=
  negb (is_storage_write ev) && negb (is_usage_update ev).

Definition before_update (ev : event) : bool := negb (is_usage_update ev).

(** [w'] is [w] after some more calls, all of which satisfy [P]. *)
Definition appends (P : event -> bool) (w w' : World) : Prop :=
  exists evs, trace w' = trace w ++ evs /\ forallb P evs = true.

(** Every run of [m] makes only calls that satisfy [P]. *)
Definition emits {A} (P : event -> bool) (m : M A) : Prop :=
  forall w, appends P w (snd (m w)).

(** The calls made between two worlds of one run. *)
Definition events_between (w w' : World) : list event :=
  drop (length (trace w)) (trace w').

(** The steps of [/convert-latex] up to the compiled PDF have all
    succeeded, and [w4] is the world after the compilation. *)
Definition latex_compiled (env : Env) (creds : HTTPAuthorizationCredentials)
    (file : UploadFile) (w : World) (user_id : list N) (daily monthly : Z)
    (pdf : list byte) (pdf_filename : list N) (w4 : World) : Prop :=
  exists w1 text w2 latex w3,
    get_user_id_from_jwt env creds = Ok user_id /\
    check_user_usage_limits env user_id w = (Ok (daily, monthly), w1) /\
    extract_text_from_file env file w1 = (Ok text, w2) /\
    generate_latex_resume env text (latex_conversion_chain env) w2 = (Ok latex, w3) /\
    convert_latex_to_pdf env latex w3 = (Ok (pdf, pdf_filename), w4).

(** The same for [/convert-json-to-latex], which has no extraction. *)
Definition json_compiled (env : Env) (resume_data : ResumeData)
    (creds : HTTPAuthorizationCredentials) (w : World) (user_id : list N)
    (daily monthly : Z) (pdf : list byte) (pdf_filename : list N) (w4 : World) : Prop :=
  exists w1 c latex w3,
    get_user_id_from_jwt env creds = Ok user_id /\
    check_user_usage_limits env user_id w = (Ok (daily, monthly), w1) /\
    latex_conversion_chain env = Some c /\
    generate_latex_resume env (model_dump_json env resume_data) (Some c) w1
    = (Ok latex, w3) /\
    convert_latex_to_pdf env latex w3 = (Ok (pdf, pdf_filename), w4).

(** Starting in [w4], the upload of the PDF and the insertion of the
    audit record have both succeeded, and [w6] is the world after the
    insertion. *)
Definition stored (env : Env) (user_id : list N) (pdf_filename : list N) (w4 : World)
    (public_url : list N) (w6 : World) : Prop :=
  exists w5,
    upload_pdf_to_bucket env
      (posixpath.join (getcwd env) [lit "latex_output"; pdf_filename]) pdf_filename w4
    = (Ok public_url, w5) /\
    insert_resume_record env public_url user_id w5 = (Ok tt, w6).

(** The steps of [/tailor] have all succeeded, and [w3] is the world
    after the model's answer. *)
Definition tailoring_done (env : Env) (creds : HTTPAuthorizationCredentials)
    (job_description : list N) (file : UploadFile) (w : World)
    (user_id : list N) (daily monthly : Z) (name text tailored : list N)
    (w3 : World) : Prop :=
  exists w1 w2 c,
    get_user_id_from_jwt env creds = Ok user_id /\
    check_user_usage_limits env user_id w = (Ok (daily, monthly), w1) /\
    nonempty_filename file = Some name /\
    extract_text_from_file env file w1 = (Ok text, w2) /\
    resume_tailoring_chain env = Some c /\
    generate_tailored_resume env text job_description c w2 = (Ok tailored, w3).

(** What is left of a conversion handler once the PDF is compiled:
    upload, insertion, notification, clean-up, and the world [wb] in
    which the counters are then updated. *)
Definition conversion_completed (env : Env) (creds : HTTPAuthorizationCredentials)
    (conversion_type : string) (user_id pdf_filename : list N) (w4 : World)
    (public_url : list N) (wb : World) : Prop :=
  exists w6,
    stored env user_id pdf_filename w4 public_url w6 /\
    cleanup env (posixpath.join (getcwd env) [lit "latex_output"]) pdf_filename
      (snd (send_resume_conversion_notification env creds public_url
              (lit conversion_type) w6))
    = (Ok tt, wb).

(** The world in which [/convert-json-to-latex] uploads: the one after
    the compilation, with the PDF written at [path] if no file is there. *)
Definition with_pdf_at (path : list N) (pdf : list byte) (w4 : World) : World :=
  if bool_decide (is_Some (fs w4 !! path)) then w4
  else {| fs := <[path := pdf]> (fs w4); trace := trace w4 |}.

(** The row that [insert_resume_record] builds in world [w]. *)
Definition resume_record (env : Env) (resume_link user_id : list N) (w : World)
  : ResumeRecord :=
  {| rec_id := uuid4 env w; rec_created_at := utcnow_isoformat env w;
     rec_resume_link := resume_link; rec_user_id := user_id |}.

(** The message of a notification. *)
Definition notification_params (env : Env)
    (user_email resume_link conversion_type : list N) : EmailParams :=
  {| email_from := lit "YourApp <noreply@yourdomain.com>";
     email_to := [user_email];
     email_subject := fst (get_resume_conversion_email_template env resume_link conversion_type);
     email_html := snd (get_resume_conversion_email_template env resume_link conversion_type) |}.

(** The mail of a notification, if the token yields an address. *)
Definition notification_mails (env : Env) (creds : HTTPAuthorizationCredentials)
    (resume_link conversion_type : list N) : list event :=
  match get_email_from_jwt env creds with
  | Some user_email =>
      [EmailSend (notification_params env user_email resume_link conversion_type)]
  | None => []
  end.

(** The five files the clean-up loop looks for. *)
Definition cleanup_paths (latex_output_dir pdf_filename : list N) : list (list N) :=
  map (fun ext => posixpath.join latex_output_dir
                    [fst (posixpath.splitext pdf_filename) ++ ext])
      [lit ".pdf"; lit ".tex"; lit ".aux"; lit ".log"; lit ".out"].

(** Every run of [m] leaves the local files as they were. *)
Definition keeps_files {A} (m : M A) : Prop :=
  forall w, fs (snd (m w)) = fs w.

(** * Properties *)

(** Unfolds the monad operations in the goal. *)
Ltac unfold_monad :=
  cbv [mbind M_bind bind mret M_ret ret raise try_except lift call call_process].

Ltac unfold_monad_in H :=
  cbv [mbind M_bind bind mret M_ret ret raise try_except lift call call_process] in H.

(** ** The quota gate *)

Section UsageGate.

Context (env : Env).

Lemma usage_row_absent usage_data :
  usage_data = None \/ usage_data = Some None \/ usage_data = Some (Some ∅) ->
  counter (usage_row usage_data) (lit "daily_conversions") = Ok 0 /\
  counter (usage_row usage_data) (lit "monthly_conversions") = Ok 0.
Proof.
  intros [-> | [-> | ->]]; split; reflexivity.
Qed.

Lemma check_user_usage_limits_result user_id w usage_data daily monthly :
  usage_select env user_id w = Ok usage_data ->
  counter (usage_row usage_data) (lit "daily_conversions") = Ok daily ->
  counter (usage_row usage_data) (lit "monthly_conversions") = Ok monthly ->
  fst (check_user_usage_limits env user_id w) =
    if 3 <=? daily
    then Raise (HTTPException 429 (lit "Daily conversion limit reached."))
    else if 30 <=? monthly
         then Raise (HTTPException 429 (lit "Monthly conversion limit reached."))
         else Ok (daily, monthly).
Proof.
  intros Hsel Hd Hm.
  unfold check_user_usage_limits. unfold_monad.
  rewrite Hsel, Hd.
  destruct (3 <=? daily); [reflexivity |].
  rewrite Hm.
  destruct (30 <=? monthly); reflexivity.
Qed.

(** C3: provided the read of the usage store succeeds, an absent row
    counts as (0, 0); the gate raises the 429 error exactly when
    daily >= 3 or monthly >= 30, reporting the daily limit first, and
    otherwise returns the pair (daily, monthly). *)
Theorem check_user_usage_limits_gate user_id w usage_data daily monthly :
  usage_select env user_id w = Ok usage_data ->
  counter (usage_row usage_data) (lit "daily_conversions") = Ok daily ->
  counter (usage_row usage_data) (lit "monthly_conversions") = Ok monthly ->
  (usage_data = None \/ usage_data = Some None \/ usage_data = Some (Some ∅) ->
   daily = 0 /\ monthly = 0) /\
  (3 <= daily ->
   fst (check_user_usage_limits env user_id w) =
     Raise (HTTPException 429 (lit "Daily conversion limit reached."))) /\
  (daily < 3 -> 30 <= monthly ->
   fst (check_user_usage_limits env user_id w) =
     Raise (HTTPException 429 (lit "Monthly conversion limit reached."))) /\
  (daily < 3 -> monthly < 30 ->
   fst (check_user_usage_limits env user_id w) = Ok (daily, monthly)) /\
  ((exists detail,
      fst (check_user_usage_limits env user_id w) = Raise (HTTPException 429 detail))
   <-> 3 <= daily \/ 30 <= monthly).
Proof.
  intros Hsel Hd Hm.
  pose proof (check_user_usage_limits_result _ _ _ _ _ Hsel Hd Hm) as Hres.
  split.
  { intros Habs. destruct (usage_row_absent _ Habs) as [Hd0 Hm0].
    rewrite Hd0 in Hd. rewrite Hm0 in Hm. split; congruence. }
  destruct (Z.leb_spec 3 daily) as [Hdaily | Hdaily];
    [| destruct (Z.leb_spec 30 monthly) as [Hmonthly | Hmonthly]];
    rewrite Hres; repeat split; intros; try lia; try reflexivity.
  - eauto.
  - eauto.
  - destruct H as [detail Hdetail]. discriminate.
Qed.

End UsageGate.

Lemma check_user_usage_limits_gate_witness :
  let env := Sample.env (Some (lit "s3cret")) (Ok (Sample.usage 3 5))
               Sample.compiler_with_warnings (Ok tt) in
  usage_select env (lit "u1") Sample.empty_world = Ok (Sample.usage 3 5) /\
  counter (usage_row (Sample.usage 3 5)) (lit "daily_conversions") = Ok 3 /\
  counter (usage_row (Sample.usage 3 5)) (lit "monthly_conversions") = Ok 5 /\
  fst (check_user_usage_limits env (lit "u1") Sample.empty_world) =
    Raise (HTTPException 429 (lit "Daily conversion limit reached.")).
Proof.
  intros env.
  assert (H1 : usage_select env (lit "u1") Sample.empty_world = Ok (Sample.usage 3 5))
    by reflexivity.
  assert (H2 : counter (usage_row (Sample.usage 3 5)) (lit "daily_conversions") = Ok 3)
    by (vm_compute; reflexivity).
  assert (H3 : counter (usage_row (Sample.usage 3 5)) (lit "monthly_conversions") = Ok 5)
    by (vm_compute; reflexivity).
  split; [exact H1 | split; [exact H2 | split; [exact H3 |]]].
  destruct (check_user_usage_limits_gate env _ _ _ _ _ H1 H2 H3) as (_ & Hdaily & _).
  apply Hdaily. lia.
Defined.

(** ** The file text extractor *)

Section Extraction.

Context (env : Env).

(** C7: an upload of more than 10 MiB is refused with status 413
    whatever its declared type and name, before the empty-content test
    and before any parser runs; nothing else happens. *)
Theorem extract_text_from_file_size_limit (file : UploadFile) (w : World) :
  10 * 1024 * 1024 < len (content file) ->
  extract_text_from_file env file w =
    (Raise (HTTPException 413 (lit "File size exceeds limit (10.0 MB).")), w).
Proof.
  intros Hsize.
  unfold extract_text_from_file.
  change MAX_FILE_SIZE with (10 * 1024 * 1024).
  destruct (Z.ltb_spec (10 * 1024 * 1024) (len (content file))) as [_ | Hle]; [| lia].
  reflexivity.
Qed.

(** C8: in the text/markdown branch, content that is not valid UTF-8 is
    decoded as Latin-1 and returned. *)
Theorem extract_text_from_file_latin1_fallback (file : UploadFile) (w : World) :
  dispatched_to_text env file ->
  decode_utf8 (content file) = None ->
  extract_text_from_file env file w = (Ok (decode_latin1 (content file)), w).
Proof.
  intros (Hsize & Hne & Hkind) Hdec.
  unfold extract_text_from_file.
  destruct (Z.ltb_spec MAX_FILE_SIZE (len (content file))) as [Hgt | _]; [lia |].
  unfold_monad.
  destruct (content file) as [| b bs] eqn:Hc; [congruence |].
  rewrite Hkind. unfold extract_plain. rewrite Hdec. reflexivity.
Qed.

End Extraction.

Lemma extract_text_from_file_size_limit_witness :
  let env := Sample.env None (Ok None) Sample.compiler_with_warnings (Ok tt) in
  let file := {| filename := Some (lit "cv.pdf");
                 content_type := Some (lit "application/pdf");
                 content := replicate (Z.to_nat 10485761) x00 |} in
  10 * 1024 * 1024 < len (content file) /\
  extract_text_from_file env file Sample.empty_world =
    (Raise (HTTPException 413 (lit "File size exceeds limit (10.0 MB).")),
     Sample.empty_world).
Proof.
  intros env file.
  assert (H : 10 * 1024 * 1024 < len (content file)).
  { unfold len, file. cbn [content]. rewrite length_replicate, Z2Nat.id; lia. }
  split; [exact H |].
  exact (extract_text_from_file_size_limit env file Sample.empty_world H).
Defined.

Lemma extract_text_from_file_latin1_fallback_witness :
  let env := Sample.env None (Ok None) Sample.compiler_with_warnings (Ok tt) in
  let file := Sample.text_file "cv.md" [x52; xe9; x73; x75; x6d; xe9] in
  dispatched_to_text env file /\
  decode_utf8 (content file) = None /\
  extract_text_from_file env file Sample.empty_world =
    (Ok [82; 233; 115; 117; 109; 233]%N, Sample.empty_world).
Proof.
  intros env file.
  assert (H1 : dispatched_to_text env file).
  { split; [vm_compute; discriminate |].
    split; [discriminate | vm_compute; reflexivity]. }
  assert (H2 : decode_utf8 (content file) = None) by (vm_compute; reflexivity).
  split; [exact H1 | split; [exact H2 |]].
  exact (extract_text_from_file_latin1_fallback env file Sample.empty_world H1 H2).
Defined.

(** ** Authentication as a precondition *)

Section Authentication.

Context (env : Env).

(** C4: a request without an [Authorization] header to any of the three
    conversion routes is answered 401, and the world is left as it was:
    no read of the usage store, no call of the model, no write to the
    bucket or to a table (the trace is unchanged), and no local file is
    touched. *)
Theorem missing_authorization_rejected (req : Request) (w : World) :
  authorization req = None ->
  app env req w = (Raise (HTTPException 401 (lit "Not authenticated")), w).
Proof.
  intros Hnone. unfold app, HTTPBearer. rewrite Hnone. reflexivity.
Qed.

Lemma get_user_id_from_jwt_unset creds :
  jwks_secret env = None ->
  get_user_id_from_jwt env creds =
    Raise (HTTPException 500 (lit "SUPABASE_JWKS_SECRET not set.")).
Proof.
  intros Hsecret. unfold get_user_id_from_jwt. rewrite Hsecret. reflexivity.
Qed.

(** C10: with the verification secret unset, [get_user_id_from_jwt]
    raises the 500 error "SUPABASE_JWKS_SECRET not set." for every
    bearer token, so each of the three endpoints fails with that error
    on every request that reaches it, with the world left as it was (no
    quota check, no model call, no storage write). *)
Theorem unset_secret_fails_every_request :
  jwks_secret env = None ->
  let not_set := HTTPException 500 (lit "SUPABASE_JWKS_SECRET not set.") in
  (forall creds, get_user_id_from_jwt env creds = Raise not_set) /\
  (forall creds job_description resume_file w,
     tailor_resume_endpoint env creds job_description resume_file w = (Raise not_set, w)) /\
  (forall creds resume_file w,
     convert_to_latex_endpoint env creds resume_file w = (Raise not_set, w)) /\
  (forall resume_data creds w,
     convert_json_to_latex_endpoint env resume_data creds w = (Raise not_set, w)).
Proof.
  intros Hsecret not_set.
  assert (Hauth : forall creds, get_user_id_from_jwt env creds = Raise not_set)
    by (intros; now apply get_user_id_from_jwt_unset).
  assert (Htailor : forall creds job_description resume_file w,
             tailor_resume_endpoint env creds job_description resume_file w
             = (Raise not_set, w)).
  { intros. unfold tailor_resume_endpoint. unfold_monad. now rewrite Hauth. }
  assert (Hlatex : forall creds resume_file w,
             convert_to_latex_endpoint env creds resume_file w = (Raise not_set, w)).
  { intros. unfold convert_to_latex_endpoint. unfold_monad. now rewrite Hauth. }
  assert (Hjson : forall resume_data creds w,
             convert_json_to_latex_endpoint env resume_data creds w = (Raise not_set, w)).
  { intros. unfold convert_json_to_latex_endpoint. unfold_monad. now rewrite Hauth. }
  repeat split; assumption.
Qed.

End Authentication.

Lemma missing_authorization_rejected_witness :
  let env := Sample.env (Some (lit "s3cret")) (Ok (Sample.usage 0 0))
               Sample.compiler_with_warnings (Ok tt) in
  let req := {| authorization := None;
                body := ConvertLatexForm (Sample.text_file "cv.md" [x41]) |} in
  authorization req = None /\
  app env req Sample.empty_world =
    (Raise (HTTPException 401 (lit "Not authenticated")), Sample.empty_world).
Proof.
  intros env req.
  split; [reflexivity |].
  exact (missing_authorization_rejected env req Sample.empty_world eq_refl).
Defined.

Lemma unset_secret_fails_every_request_witness :
  let env := Sample.env None (Ok (Sample.usage 0 0))
               Sample.compiler_with_warnings (Ok tt) in
  jwks_secret env = None /\
  get_user_id_from_jwt env Sample.bearer =
    Raise (HTTPException 500 (lit "SUPABASE_JWKS_SECRET not set.")) /\
  convert_to_latex_endpoint env Sample.bearer (Sample.text_file "cv.md" [x41])
    Sample.empty_world =
    (Raise (HTTPException 500 (lit "SUPABASE_JWKS_SECRET not set.")), Sample.empty_world).
Proof.
  intros env.
  destruct (unset_secret_fails_every_request env eq_refl) as (Hauth & _ & Hlatex & _).
  split; [reflexivity |].
  split; [exact (Hauth Sample.bearer) |].
  exact (Hlatex Sample.bearer (Sample.text_file "cv.md" [x41]) Sample.empty_world).
Defined.

(** ** The notification layer *)

Section Notification.

Context (env : Env).

Lemma send_resume_conversion_email_returns user_email resume_link conversion_type w :
  exists sent : bool,
    fst (send_resume_conversion_email env user_email resume_link conversion_type w)
    = Ok sent /\
    ((forall params, exists e, emails_send env params w = Raise e) -> sent = false).
Proof.
  unfold send_resume_conversion_email. unfold_monad. cbn.
  match goal with |- context [emails_send env ?p w] =>
    destruct (emails_send env p w) as [[] | e] eqn:Hsend end; cbn.
  - exists true. split; [reflexivity |].
    intros Hfail.
    match type of Hsend with emails_send env ?p w = _ =>
      destruct (Hfail p) as [e He] end.
    congruence.
  - exists false. split; [reflexivity | trivial].
Qed.

Lemma get_email_from_jwt_none creds :
  truthy (email_jwks_secret env) = false \/
  (exists secret,
     email_jwks_secret env = Some secret /\
     match jwt_decode env (credentials creds) secret with
     | Ok payload => truthy (payload !! lit "email") = false
     | Raise _ => True
     end) ->
  get_email_from_jwt env creds = None.
Proof.
  unfold get_email_from_jwt.
  intros [Hsecret | (secret & Hsecret & Hpayload)].
  - destruct (email_jwks_secret env) as [[| c s] |]; [reflexivity | discriminate | reflexivity].
  - rewrite Hsecret. destruct secret as [| c s]; [reflexivity |].
    destruct (jwt_decode env (credentials creds) (c :: s)) as [payload | e]; [| reflexivity].
    destruct (payload !! lit "email") as [[| c' s'] |];
      [reflexivity | discriminate | reflexivity].
Qed.

(** C9: [send_resume_conversion_notification] always returns a boolean
    and never raises; it returns false when the signing secret is unset,
    when the token cannot be decoded or carries no email claim, and
    when the mail provider fails. *)
Theorem send_resume_conversion_notification_never_raises
    (creds : HTTPAuthorizationCredentials) (resume_link conversion_type : list N)
    (w : World) :
  let outcome :=
    fst (send_resume_conversion_notification env creds resume_link conversion_type w) in
  (exists sent : bool, outcome = Ok sent) /\
  (truthy (email_jwks_secret env) = false -> outcome = Ok false) /\
  (forall secret,
     email_jwks_secret env = Some secret ->
     match jwt_decode env (credentials creds) secret with
     | Ok payload => truthy (payload !! lit "email") = false
     | Raise _ => True
     end ->
     outcome = Ok false) /\
  ((forall params, exists e, emails_send env params w = Raise e) -> outcome = Ok false).
Proof.
  intros outcome. subst outcome.
  unfold send_resume_conversion_notification. unfold_monad.
  repeat split.
  - destruct (get_email_from_jwt env creds) as [user_email |]; [| eauto].
    destruct (send_resume_conversion_email_returns user_email resume_link conversion_type w)
      as (sent & Hsent & _).
    destruct (send_resume_conversion_email env user_email resume_link conversion_type w)
      as [[b | e] w']; cbn in Hsent; [eauto | discriminate].
  - intros Hsecret. rewrite get_email_from_jwt_none by (left; exact Hsecret). reflexivity.
  - intros secret Hsecret Hpayload.
    rewrite get_email_from_jwt_none by (right; eauto). reflexivity.
  - intros Hfail.
    destruct (get_email_from_jwt env creds) as [user_email |]; [| reflexivity].
    destruct (send_resume_conversion_email_returns user_email resume_link conversion_type w)
      as (sent & Hsent & Hfalse).
    rewrite (Hfalse Hfail) in Hsent.
    destruct (send_resume_conversion_email env user_email resume_link conversion_type w)
      as [[b | e] w']; cbn in Hsent; [| discriminate].
    cbn. congruence.
Qed.

End Notification.

Lemma send_resume_conversion_notification_never_raises_witness :
  let env := Sample.env (Some (lit "s3cret")) (Ok (Sample.usage 0 0))
               Sample.compiler_with_warnings
               (Raise (Error OtherError (lit "provider unavailable"))) in
  (forall params, exists e, emails_send env params Sample.empty_world = Raise e) /\
  get_email_from_jwt env Sample.bearer = Some (lit "u1@example.org") /\
  fst (send_resume_conversion_notification env Sample.bearer
         (lit "https://bucket.example.org/cv.pdf") (lit "resume") Sample.empty_world)
  = Ok false.
Proof.
  intros env.
  assert (Hfail : forall params, exists e, emails_send env params Sample.empty_world = Raise e)
    by (intros params; eexists; reflexivity).
  split; [exact Hfail |].
  split; [vm_compute; reflexivity |].
  destruct (send_resume_conversion_notification_never_raises env Sample.bearer
              (lit "https://bucket.example.org/cv.pdf") (lit "resume") Sample.empty_world)
    as (_ & _ & _ & Hprovider).
  exact (Hprovider Hfail).
Defined.

(** ** Paths of the working files *)

Lemma rfind_go_notin c s i acc : c ∉ s -> posixpath.rfind_go c s i acc = acc.
Proof.
  revert i acc. induction s as [| x s IH]; intros i acc Hnotin; [reflexivity |].
  cbn [posixpath.rfind_go]. apply not_elem_of_cons in Hnotin as [Hne Hnotin].
  destruct (N.eqb_spec x c); [congruence |]. now apply IH.
Qed.

Lemma rfind_go_app c s t i acc :
  posixpath.rfind_go c (s ++ t) i acc =
    posixpath.rfind_go c t (i + len s) (posixpath.rfind_go c s i acc).
Proof.
  revert i acc. induction s as [| x s IH]; intros i acc.
  - cbn. unfold len. cbn. now rewrite Z.add_0_r.
  - rewrite <- app_comm_cons. cbn [posixpath.rfind_go]. rewrite IH. f_equal.
    unfold len. cbn [length]. lia.
Qed.

Lemma rfind_notin c s : c ∉ s -> posixpath.rfind c s = -1.
Proof. apply rfind_go_notin. Qed.

Lemma rfind_last c s t : c ∉ t -> posixpath.rfind c (s ++ c :: t) = len s.
Proof.
  intros Hnotin. unfold posixpath.rfind. rewrite rfind_go_app.
  cbn [posixpath.rfind_go]. rewrite N.eqb_refl. now rewrite rfind_go_notin.
Qed.

Lemma slice_from_app {A} (s t : list A) : slice_from (len s) (s ++ t) = t.
Proof.
  unfold slice_from, clamp_index, len. rewrite length_app.
  destruct (Z.ltb_spec (Z.of_nat (length s)) 0); [lia |].
  rewrite Z.min_l by lia. rewrite Nat2Z.id. apply drop_app_length.
Qed.

Lemma slice_to_app {A} (s t : list A) : slice_to (len s) (s ++ t) = s.
Proof.
  unfold slice_to, clamp_index, len. rewrite length_app.
  destruct (Z.ltb_spec (Z.of_nat (length s)) 0); [lia |].
  rewrite Z.min_l by lia. rewrite Nat2Z.id. apply take_app_length.
Qed.

Lemma len_app {A} (s t : list A) : len (s ++ t) = len s + len t.
Proof. unfold len. rewrite length_app. lia. Qed.

Lemma endswith_last s x c : x <> c -> endswith (s ++ [x]) [c] = false.
Proof.
  intros Hne. unfold endswith. apply bool_decide_eq_false_2.
  rewrite length_app. cbn [length].
  replace (length s + 1 - 1)%nat with (length s) by lia.
  rewrite drop_app_length. congruence.
Qed.

Lemma startswith_notin s c : c ∉ s -> startswith s [c] = false.
Proof.
  intros Hnotin. unfold startswith. apply bool_decide_eq_false_2.
  destruct s as [| x s]; [discriminate |]. cbn. intros [= ->].
  apply Hnotin. left.
Qed.

(** [os.path.join(dir, name)] for a directory that does not end with a
    separator and a name without one. *)
Lemma join2_plain dir x name :
  x <> SLASH -> SLASH ∉ name ->
  posixpath.join2 (dir ++ [x]) name = (dir ++ [x]) ++ [SLASH] ++ name.
Proof.
  intros Hx Hname. unfold posixpath.join2.
  rewrite (startswith_notin _ _ Hname).
  rewrite bool_decide_eq_false_2 by (destruct dir; discriminate).
  now rewrite (endswith_last _ _ _ Hx).
Qed.

Lemma basename_join dir name :
  SLASH ∉ name -> posixpath.basename (dir ++ [SLASH] ++ name) = name.
Proof.
  intros Hname. unfold posixpath.basename. cbn [List.app].
  rewrite (rfind_last _ _ _ Hname).
  change (dir ++ SLASH :: name) with (dir ++ [SLASH] ++ name).
  rewrite app_assoc. rewrite <- (slice_from_app (dir ++ [SLASH]) name) at 2.
  f_equal. rewrite len_app. reflexivity.
Qed.

Lemma rstrip_sep_last dir x : x <> SLASH ->
  posixpath.rstrip_sep ((dir ++ [x]) ++ [SLASH]) = dir ++ [x].
Proof.
  intros Hx. unfold posixpath.rstrip_sep.
  rewrite !reverse_snoc. cbn [posixpath.lstrip_sep]. rewrite N.eqb_refl.
  destruct (N.eqb_spec x SLASH); [congruence |].
  now rewrite reverse_cons, reverse_involutive.
Qed.

Lemma dirname_join dir x name :
  x <> SLASH -> SLASH ∉ name ->
  posixpath.dirname ((dir ++ [x]) ++ [SLASH] ++ name) = dir ++ [x].
Proof.
  intros Hx Hname. unfold posixpath.dirname. cbn [List.app].
  rewrite (rfind_last _ _ _ Hname).
  change ((dir ++ [x]) ++ SLASH :: name) with ((dir ++ [x]) ++ [SLASH] ++ name).
  rewrite app_assoc.
  replace (len (dir ++ [x]) + 1) with (len ((dir ++ [x]) ++ [SLASH]))
    by (rewrite (len_app _ [SLASH]); reflexivity).
  rewrite slice_to_app.
  rewrite bool_decide_eq_false_2 by (destruct dir; discriminate).
  assert (Hnot : forallb (N.eqb SLASH) ((dir ++ [x]) ++ [SLASH]) = false).
  { rewrite !forallb_app. cbn [forallb].
    destruct (N.eqb_spec SLASH x); [congruence |].
    now rewrite andb_false_r. }
  rewrite Hnot. cbn [negb andb]. now apply rstrip_sep_last.
Qed.

Lemma latex_output_dir_shape cwd :
  exists dir, posixpath.join cwd [lit "latex_output"] = dir ++ [116%N].
Proof.
  unfold posixpath.join. cbn [foldl]. unfold posixpath.join2.
  change (startswith (lit "latex_output") [SLASH]) with false. cbn [orb].
  destruct (bool_decide (cwd = [])); [exists (lit "latex_outpu"); reflexivity |].
  destruct (endswith cwd [SLASH]).
  - exists (cwd ++ lit "latex_outpu"). now rewrite <- app_assoc.
  - exists (cwd ++ [SLASH] ++ lit "latex_outpu"). now rewrite <- !app_assoc.
Qed.

Lemma splitext_prefix p : exists k, fst (posixpath.splitext p) = take k p.
Proof.
  unfold posixpath.splitext.
  destruct (_ && _); cbn [fst].
  - unfold slice_to. eauto.
  - exists (length p). now rewrite firstn_all.
Qed.

Lemma splitext_plain name e :
  name <> [] -> DOT ∉ name -> SLASH ∉ name -> DOT ∉ e -> SLASH ∉ e ->
  posixpath.splitext (name ++ DOT :: e) = (name, DOT :: e).
Proof.
  intros Hne Hdot Hslash Hdot_e Hslash_e. unfold posixpath.splitext.
  rewrite (rfind_notin SLASH).
  2: { rewrite elem_of_app, elem_of_cons. intros [H | [H | H]]; [tauto | discriminate | tauto]. }
  rewrite (rfind_last DOT name e Hdot_e).
  assert (Hlen : 0 < len name) by (unfold len; destruct name; [congruence | cbn; lia]).
  destruct (Z.ltb_spec (-1) (len name)); [| lia]. cbn [andb].
  replace (Z.to_nat (len name - (-1 + 1))) with (length name) by (unfold len; lia).
  change (Z.to_nat (-1 + 1)) with 0%nat. rewrite drop_0, take_app_length.
  assert (Hall : forallb (N.eqb DOT) name = false).
  { destruct name as [| x name]; [congruence |]. cbn [forallb].
    apply not_elem_of_cons in Hdot as [Hx _].
    destruct (N.eqb_spec DOT x); [congruence | reflexivity]. }
  rewrite Hall. cbn [negb].
  now rewrite slice_to_app, slice_from_app.
Qed.

Lemma latex_output_file cwd name :
  SLASH ∉ name ->
  posixpath.join (posixpath.join cwd [lit "latex_output"]) [name] =
    posixpath.join cwd [lit "latex_output"] ++ [SLASH] ++ name.
Proof.
  intros Hname. destruct (latex_output_dir_shape cwd) as (dir & Hdir).
  rewrite Hdir. unfold posixpath.join at 1. cbn [foldl]. now apply join2_plain.
Qed.

Lemma not_elem_of_app_lit (c : N) (s : list N) (ext : string) :
  c ∉ s -> bool_decide (c ∈ lit ext) = false -> c ∉ s ++ lit ext.
Proof.
  intros Hs Hext. apply bool_decide_eq_false in Hext. rewrite elem_of_app. tauto.
Qed.

Section WorkingPaths.
Context (env : Env).

Local Abbreviation output_dir := (posixpath.join (getcwd env) [lit "latex_output"]).

Lemma tex_path_plain unique_id :
  SLASH ∉ unique_id ->
  posixpath.join output_dir [unique_id ++ lit ".tex"] =
    output_dir ++ [SLASH] ++ unique_id ++ lit ".tex".
Proof.
  intros Hslash. apply latex_output_file. now apply not_elem_of_app_lit.
Qed.

Lemma tex_path_parts unique_id :
  SLASH ∉ unique_id ->
  let tex_path := posixpath.join output_dir [unique_id ++ lit ".tex"] in
  posixpath.basename tex_path = unique_id ++ lit ".tex" /\
  posixpath.dirname tex_path = output_dir.
Proof.
  intros Hslash tex_path. subst tex_path. rewrite (tex_path_plain _ Hslash).
  assert (Hname : SLASH ∉ unique_id ++ lit ".tex") by now apply not_elem_of_app_lit.
  split; [now apply basename_join |].
  destruct (latex_output_dir_shape (getcwd env)) as (dir & Hdir).
  fold output_dir in Hdir. rewrite Hdir. now apply dirname_join.
Qed.

Lemma pdf_filename_no_separator unique_id :
  SLASH ∉ unique_id ->
  SLASH ∉ fst (get_pdf_and_tex_filenames
                 (posixpath.join output_dir [unique_id ++ lit ".tex"])).
Proof.
  intros Hslash. unfold get_pdf_and_tex_filenames. cbn [fst].
  rewrite (proj1 (tex_path_parts _ Hslash)).
  destruct (splitext_prefix (unique_id ++ lit ".tex")) as (k & ->).
  apply not_elem_of_app_lit; [| reflexivity].
  intros Hin. apply (not_elem_of_app_lit SLASH unique_id ".tex" Hslash eq_refl).
  rewrite <- (take_drop k (unique_id ++ lit ".tex")). apply elem_of_app. now left.
Qed.

Lemma pdf_path_plain unique_id :
  SLASH ∉ unique_id ->
  let names := get_pdf_and_tex_filenames
                 (posixpath.join output_dir [unique_id ++ lit ".tex"]) in
  snd names = output_dir ++ [SLASH] ++ fst names.
Proof.
  intros Hslash names.
  pose proof (pdf_filename_no_separator _ Hslash) as Hpdf. fold names in Hpdf.
  subst names. unfold get_pdf_and_tex_filenames in *. cbn [fst snd] in *.
  rewrite (proj2 (tex_path_parts _ Hslash)). now apply latex_output_file.
Qed.

Lemma pdf_filename_plain unique_id :
  unique_id <> [] -> SLASH ∉ unique_id -> DOT ∉ unique_id ->
  fst (get_pdf_and_tex_filenames (posixpath.join output_dir [unique_id ++ lit ".tex"]))
  = unique_id ++ lit ".pdf".
Proof.
  intros Hne Hslash Hdot. unfold get_pdf_and_tex_filenames. cbn [fst].
  rewrite (proj1 (tex_path_parts _ Hslash)).
  change (lit ".tex") with (DOT :: lit "tex").
  rewrite splitext_plain; auto;
    apply (proj1 (bool_decide_eq_false _)); vm_compute; reflexivity.
Qed.

(** X9: the paths of one conversion, when the fresh identifier has no
    separator in it (a UUID has none): the PDF path that the wrapper
    tests is the path the handlers upload from; and for an identifier
    without a dot the names are the identifier with [.pdf] appended. *)
Theorem working_file_paths (unique_id : list N) :
  let output_dir := posixpath.join (getcwd env) [lit "latex_output"] in
  let tex_path := posixpath.join output_dir [unique_id ++ lit ".tex"] in
  let pdf_filename := fst (get_pdf_and_tex_filenames tex_path) in
  let pdf_path := snd (get_pdf_and_tex_filenames tex_path) in
  SLASH ∉ unique_id ->
  tex_path = output_dir ++ [SLASH] ++ unique_id ++ lit ".tex" /\
  pdf_path = posixpath.join (getcwd env) [lit "latex_output"; pdf_filename] /\
  pdf_path = output_dir ++ [SLASH] ++ pdf_filename /\
  (unique_id <> [] -> DOT ∉ unique_id -> pdf_filename = unique_id ++ lit ".pdf").
Proof.
  intros dir tex_path pdf_filename pdf_path Hslash.
  subst dir tex_path pdf_filename pdf_path. fold output_dir.
  split; [now apply tex_path_plain |].
  split; [| split].
  - rewrite (pdf_path_plain _ Hslash). symmetry.
    apply (latex_output_file (getcwd env)). now apply pdf_filename_no_separator.
  - now apply pdf_path_plain.
  - intros Hne Hdot. now apply pdf_filename_plain.
Qed.

End WorkingPaths.

(** ** The LaTeX compiler wrapper *)

(** *** Lines of the diagnostic stream *)

Lemma splitlines_go_nonempty after_cr cur s :
  cur <> [] -> splitlines_go after_cr cur s <> [].
Proof.
  revert after_cr cur.
  induction s as [| c s IH]; intros after_cr cur Hcur; cbn.
  - destruct cur; [congruence | discriminate].
  - destruct ((c =? LF)%N && after_cr); [now apply IH |].
    destruct (c =? CR)%N; [discriminate |].
    destruct (is_line_boundary c); [discriminate |].
    now apply IH.
Qed.

Lemma splitlines_nil s : splitlines s = [] <-> s = [].
Proof.
  split; [| intros ->; reflexivity].
  destruct s as [| c s]; [reflexivity |].
  unfold splitlines. cbn. rewrite andb_false_r.
  destruct (c =? CR)%N; [discriminate |].
  destruct (is_line_boundary c); [discriminate |].
  intros H. now apply splitlines_go_nonempty in H.
Qed.

Lemma slice_from_last {A} (n : nat) (l : list A) :
  (0 < n)%nat ->
  slice_from (- Z.of_nat n) l = drop (length l - n) l.
Proof.
  intros Hn. unfold slice_from, clamp_index, len.
  destruct (Z.ltb_spec (- Z.of_nat n) 0) as [_ | Hge]; [| lia].
  f_equal. lia.
Qed.


Lemma len_cons_positive {A} (x : A) (l : list A) : (0 <? len (x :: l)) = true.
Proof. unfold len. apply Z.ltb_lt. cbn [length]. lia. Qed.

Section Compiler.

Context (env : Env).

Lemma write_latex_to_file_ok latex_content output_dir data w :
  encode_utf8 latex_content = Some data ->
  let tex_path := posixpath.join output_dir [uuid4 env w ++ lit ".tex"] in
  write_latex_to_file env latex_content output_dir w =
    (Ok tex_path,
     {| fs := <[tex_path := data]> (<[tex_path := []]> (fs w)); trace := trace w |}).
Proof.
  intros Henc tex_path. unfold write_latex_to_file. unfold_monad.
  fold tex_path. unfold write_binary. rewrite Henc. reflexivity.
Qed.

(** The wrapper on a run that returns: a non-empty file at the path
    that [get_pdf_and_tex_filenames] gives is read and returned. *)
Lemma convert_latex_to_pdf_returns_artifact
    (latex_content : list N) (w w1 : World) (tex_path : list N)
    (process : CompletedProcess) (files : gmap (list N) (list byte)) (pdf : list byte) :
  let output_dir := posixpath.join (getcwd env) [lit "latex_output"] in
  let pdflatex_cmd := build_pdflatex_command tex_path output_dir in
  write_latex_to_file env latex_content output_dir w = (Ok tex_path, w1) ->
  pdflatex env pdflatex_cmd output_dir w1 = (Ok process, files) ->
  files !! snd (get_pdf_and_tex_filenames tex_path) = Some pdf ->
  pdf <> [] ->
  convert_latex_to_pdf env latex_content w =
    (Ok (pdf, fst (get_pdf_and_tex_filenames tex_path)),
     {| fs := files; trace := trace w1 ++ [RunPdflatex pdflatex_cmd output_dir] |}).
Proof.
  intros output_dir pdflatex_cmd Hwrite Hrun Hfile Hne.
  unfold convert_latex_to_pdf. unfold_monad.
  fold output_dir. rewrite Hwrite.
  destruct (get_pdf_and_tex_filenames tex_path) as [pdf_filename pdf_path].
  cbn [fst snd] in *.
  unfold run_pdflatex_command. unfold_monad.
  fold pdflatex_cmd. rewrite Hrun.
  unfold path_exists, getsize, read_pdf_file, read_binary. cbn [fs trace].
  rewrite Hfile. rewrite bool_decide_eq_true_2 by eauto.
  cbn [fs trace]. rewrite Hfile.
  destruct pdf as [| b pdf]; [congruence |].
  rewrite len_cons_positive. cbn [fs trace]. rewrite Hfile. reflexivity.
Qed.

(** C1, amended: when the compiler run returns, that is, when
    [subprocess.run] hands back a completed process, and has left a
    non-empty PDF at the expected path, [<cwd>/latex_output/<id>.pdf]
    for the identifier [<id>] of the run, [convert_latex_to_pdf]
    returns its bytes and the name [<id>.pdf], whatever exit status
    the process reports. The identifier is a UUID: it is not empty and
    holds neither a separator nor a dot. *)
Theorem convert_latex_to_pdf_trusts_artifact
    (latex_content : list N) (w : World) (data : list byte)
    (process : CompletedProcess) (files : gmap (list N) (list byte)) (pdf : list byte) :
  let output_dir := posixpath.join (getcwd env) [lit "latex_output"] in
  let unique_id := uuid4 env w in
  let tex_path := output_dir ++ [SLASH] ++ unique_id ++ lit ".tex" in
  let pdf_path := output_dir ++ [SLASH] ++ unique_id ++ lit ".pdf" in
  let pdflatex_cmd :=
    [lit "pdflatex"; lit "-interaction=nonstopmode"; lit "-output-directory";
     output_dir; tex_path] in
  let w1 := {| fs := <[tex_path := data]> (fs w); trace := trace w |} in
  unique_id <> [] -> SLASH ∉ unique_id -> DOT ∉ unique_id ->
  encode_utf8 latex_content = Some data ->
  pdflatex env pdflatex_cmd output_dir w1 = (Ok process, files) ->
  files !! pdf_path = Some pdf ->
  pdf <> [] ->
  convert_latex_to_pdf env latex_content w =
    (Ok (pdf, unique_id ++ lit ".pdf"),
     {| fs := files; trace := trace w ++ [RunPdflatex pdflatex_cmd output_dir] |}).
Proof.
  cbv zeta. intros Hne Hslash Hdot Hdata Hrun Hfile Hpdf.
  pose proof (tex_path_plain env (uuid4 env w) Hslash) as Htex.
  pose proof (pdf_path_plain env (uuid4 env w) Hslash) as Hpath.
  pose proof (pdf_filename_plain env (uuid4 env w) Hne Hslash Hdot) as Hname.
  cbv zeta in Hpath. rewrite Hname in Hpath.
  pose proof (write_latex_to_file_ok latex_content
                (posixpath.join (getcwd env) [lit "latex_output"]) data w Hdata) as Hwrite.
  cbv zeta in Hwrite. rewrite insert_insert_eq in Hwrite.
  pose proof (convert_latex_to_pdf_returns_artifact latex_content w _ _ process files pdf
                Hwrite) as Hreturns.
  cbv zeta in Hreturns. unfold build_pdflatex_command in Hreturns.
  rewrite Hname, Hpath in Hreturns. rewrite Htex in Hreturns.
  exact (Hreturns Hrun Hfile Hpdf).
Qed.

(** When [subprocess.run] itself raises, the wrapper answers with its
    generic 500 error, whatever the run has left on disk. *)
Remark convert_latex_to_pdf_run_raises
    (latex_content : list N) (w w1 : World) (tex_path : list N)
    (e : exn) (files : gmap (list N) (list byte)) :
  let output_dir := posixpath.join (getcwd env) [lit "latex_output"] in
  let pdflatex_cmd := build_pdflatex_command tex_path output_dir in
  write_latex_to_file env latex_content output_dir w = (Ok tex_path, w1) ->
  pdflatex env pdflatex_cmd output_dir w1 = (Raise e, files) ->
  is_HTTPException e = false ->
  fst (convert_latex_to_pdf env latex_content w) =
    Raise (HTTPException 500 (lit "Failed to convert LaTeX to PDF: " ++ str_of_exn e)).
Proof.
  intros output_dir pdflatex_cmd Hwrite Hrun He.
  unfold convert_latex_to_pdf. unfold_monad.
  fold output_dir. rewrite Hwrite.
  destruct (get_pdf_and_tex_filenames tex_path) as [pdf_filename pdf_path].
  unfold run_pdflatex_command. unfold_monad.
  fold pdflatex_cmd. rewrite Hrun, He. reflexivity.
Qed.


End Compiler.

Lemma convert_latex_to_pdf_trusts_artifact_witness :
  let env := Sample.env None (Ok None) Sample.compiler_with_warnings (Ok tt) in
  let output_dir := posixpath.join (getcwd env) [lit "latex_output"] in
  let unique_id := uuid4 env Sample.empty_world in
  let tex_path := output_dir ++ [SLASH] ++ unique_id ++ lit ".tex" in
  let pdf_path := output_dir ++ [SLASH] ++ unique_id ++ lit ".pdf" in
  let pdflatex_cmd :=
    [lit "pdflatex"; lit "-interaction=nonstopmode"; lit "-output-directory";
     output_dir; tex_path] in
  let w1 := {| fs := <[tex_path := [x61; x62; x63]]> (fs Sample.empty_world);
               trace := trace Sample.empty_world |} in
  let process := {| returncode := 1; stdout := lit "Output written";
                    stderr := lit "warning" |} in
  let files := <[pdf_path := Sample.pdf_magic]> (fs w1) in
  pdf_path = lit "/srv/app/latex_output/7d1f0007-63e1-4e1a-b22b-0.pdf" /\
  pdflatex env pdflatex_cmd output_dir w1 = (Ok process, files) /\
  returncode process <> 0 /\
  files !! pdf_path = Some Sample.pdf_magic /\
  Sample.pdf_magic <> [] /\
  convert_latex_to_pdf env (lit "abc") Sample.empty_world =
    (Ok (Sample.pdf_magic, unique_id ++ lit ".pdf"),
     {| fs := files;
        trace := trace Sample.empty_world ++ [RunPdflatex pdflatex_cmd output_dir] |}).
Proof.
  intros env output_dir unique_id tex_path pdf_path pdflatex_cmd w1 process files.
  assert (H0 : unique_id <> []) by (vm_compute; discriminate).
  assert (H1 : SLASH ∉ unique_id)
    by (apply (proj1 (bool_decide_eq_false _)); vm_compute; reflexivity).
  assert (H2 : DOT ∉ unique_id)
    by (apply (proj1 (bool_decide_eq_false _)); vm_compute; reflexivity).
  assert (H3 : pdflatex env pdflatex_cmd output_dir w1 = (Ok process, files))
    by reflexivity.
  assert (H4 : files !! pdf_path = Some Sample.pdf_magic) by apply lookup_insert_eq.
  assert (H5 : Sample.pdf_magic <> []) by discriminate.
  split; [vm_compute; reflexivity |].
  split; [exact H3 | split; [discriminate |]].
  split; [exact H4 | split; [exact H5 |]].
  exact (convert_latex_to_pdf_trusts_artifact env (lit "abc") Sample.empty_world
           [x61; x62; x63] process files Sample.pdf_magic H0 H1 H2 eq_refl H3 H4 H5).
Defined.

(** A run that leaves a non-empty PDF at the path that
    [get_pdf_and_tex_filenames] gives and then fails in
    [subprocess.run]: the wrapper answers 500 with the PDF on disk. *)
Lemma convert_latex_to_pdf_trusts_artifact_counterexample :
  let env := Sample.env None (Ok None) Sample.compiler_undecodable (Ok tt) in
  let output_dir := posixpath.join (getcwd env) [lit "latex_output"] in
  let tex_path := posixpath.join output_dir [uuid4 env Sample.empty_world ++ lit ".tex"] in
  let pdf_path := snd (get_pdf_and_tex_filenames tex_path) in
  let w1 := {| fs := <[tex_path := [x61; x62; x63]]> (<[tex_path := []]> ∅);
               trace := [] |} in
  let run := convert_latex_to_pdf env (lit "abc") Sample.empty_world in
  write_latex_to_file env (lit "abc") output_dir Sample.empty_world = (Ok tex_path, w1) /\
  pdf_path = lit "/srv/app/latex_output/7d1f0007-63e1-4e1a-b22b-0.pdf" /\
  snd (pdflatex env (build_pdflatex_command tex_path output_dir) output_dir w1) !! pdf_path
  = Some Sample.pdf_magic /\
  fs (snd run) !! pdf_path = Some Sample.pdf_magic /\
  Sample.pdf_magic <> [] /\
  fst run =
    Raise (HTTPException 500
             (lit "Failed to convert LaTeX to PDF: 'utf-8' codec can't decode byte 0xe9 in position 12: invalid continuation byte")) /\
  ~ (exists pdf pdf_filename, fst run = Ok (pdf, pdf_filename)).
Proof.
  intros env output_dir tex_path pdf_path w1 run.
  assert (Hraise : fst run =
            Raise (HTTPException 500
                     (lit "Failed to convert LaTeX to PDF: 'utf-8' codec can't decode byte 0xe9 in position 12: invalid continuation byte")))
    by (vm_compute; reflexivity).
  split; [exact (write_latex_to_file_ok env (lit "abc") output_dir [x61; x62; x63]
                   Sample.empty_world eq_refl) |].
  split; [vm_compute; reflexivity |].
  split; [vm_compute; reflexivity |].
  split; [vm_compute; reflexivity |].
  split; [discriminate |].
  split; [exact Hraise |].
  intros (pdf & pdf_filename & Hok). rewrite Hraise in Hok. discriminate.
Qed.


(** ** The LaTeX conversion chain *)

Lemma generate_latex_resume_returns env resume_content c w output :
  resume_content <> [] ->
  chain_ainvoke env c [(lit "resume_content", resume_content);
                       (lit "latex_template", LATEX_TEMPLATE env)] w = Ok output ->
  fst (generate_latex_resume env resume_content (Some c) w) =
    Ok (strip_code_fences output).
Proof.
  intros Hne Hout. unfold generate_latex_resume.
  destruct resume_content as [| ch rest]; [congruence |].
  unfold_monad. rewrite Hout. reflexivity.
Qed.

(** C5, at the model output "```latex\n\documentclass{article}\n```":
    [generate_latex_resume] returns the document with the newline of
    the opening marker still in front, where removing the whole marker
    leaves the document alone. The slice [[8:]] is one character short
    of the nine-character prefix that was tested. *)
Theorem generate_latex_resume_keeps_marker_newline :
  let env := Sample.env None (Ok None) Sample.compiler_with_warnings (Ok tt) in
  let output := lit "```latex" ++ [LF] ++ lit "\documentclass{article}" ++ [LF] ++ lit "```" in
  chain_ainvoke env LatexChain
    [(lit "resume_content", lit "John Doe"); (lit "latex_template", LATEX_TEMPLATE env)]
    Sample.empty_world = Ok output /\
  fst (generate_latex_resume env (lit "John Doe") (Some LatexChain) Sample.empty_world)
    = Ok ([LF] ++ lit "\documentclass{article}") /\
  strip_code_fences_as_documented output = lit "\documentclass{article}".
Proof.
  intros env output.
  split; [reflexivity |].
  split; [| vm_compute; reflexivity].
  rewrite (generate_latex_resume_returns env (lit "John Doe") LatexChain
             Sample.empty_world output); [| discriminate | reflexivity].
  vm_compute. reflexivity.
Qed.

(** ** Order of the calls in the conversion handlers *)

Lemma appends_refl P w : appends P w w.
Proof. exists []. split; [now rewrite app_nil_r | reflexivity]. Qed.

Lemma appends_same P w w' : trace w' = trace w -> appends P w w'.
Proof. intros H. exists []. split; [now rewrite app_nil_r | reflexivity]. Qed.

Lemma appends_trans P w1 w2 w3 :
  appends P w1 w2 -> appends P w2 w3 -> appends P w1 w3.
Proof.
  intros (e1 & H1 & F1) (e2 & H2 & F2). exists (e1 ++ e2). split.
  - now rewrite H2, H1, app_assoc.
  - now rewrite forallb_app, F1, F2.
Qed.

Lemma appends_weaken (P Q : event -> bool) w w' :
  (forall ev, P ev = true -> Q ev = true) -> appends P w w' -> appends Q w w'.
Proof.
  intros HPQ (evs & Htrace & Hall). exists evs. split; [exact Htrace |].
  rewrite forallb_forall in *. auto.
Qed.

Lemma appends_events_between P w w' :
  appends P w w' -> forallb P (events_between w w') = true.
Proof.
  intros (evs & Htrace & Hall). unfold events_between.
  now rewrite Htrace, drop_app_length.
Qed.

Lemma appends_no_event P Q w w' :
  (forall ev, P ev = true -> Q ev = false) ->
  appends P w w' -> existsb Q (events_between w w') = false.
Proof.
  intros HPQ Happ. apply appends_events_between in Happ.
  apply not_true_is_false. intros Hex.
  apply existsb_exists in Hex as (ev & Hin & HQ).
  rewrite forallb_forall in Happ. specialize (Happ ev Hin).
  rewrite (HPQ ev Happ) in HQ. discriminate.
Qed.

Lemma appends_prefix P w w' : appends P w w' -> exists rest, trace w' = trace w ++ rest.
Proof. intros (evs & Htrace & _). eauto. Qed.

(** *** Which calls each function can make *)

Lemma emits_weaken {A} (P Q : event -> bool) (m : M A) :
  (forall ev, P ev = true -> Q ev = true) -> emits P m -> emits Q m.
Proof. intros HPQ Hm w. eapply appends_weaken; eauto. Qed.

Lemma emits_pure {A} (P : event -> bool) (m : M A) :
  (forall w, trace (snd (m w)) = trace w) -> emits P m.
Proof. intros H w. apply appends_same, H. Qed.

Lemma emits_ret {A} P (a : A) : emits P (mret a).
Proof. now apply emits_pure. Qed.

Lemma emits_raise {A} P e : emits P (@raise A e).
Proof. now apply emits_pure. Qed.

Lemma emits_lift {A} P (r : result A) : emits P (lift r).
Proof. now apply emits_pure. Qed.

Lemma emits_call {A} (P : event -> bool) ev (oracle : World -> result A) :
  P ev = true -> emits P (call ev oracle).
Proof.
  intros HP w. exists [ev]. split; [reflexivity |]. cbn. now rewrite HP.
Qed.

Lemma emits_call_process {A} (P : event -> bool) (ev : event)
    (oracle : World -> result A * gmap (list N) (list byte)) :
  P ev = true -> emits P (call_process ev oracle).
Proof.
  intros HP w. exists [ev]. unfold call_process.
  destruct (oracle w) as [r files]. split; [reflexivity |]. cbn. now rewrite HP.
Qed.

Lemma emits_bind {A B} P (m : M A) (k : A -> M B) :
  emits P m -> (forall a, emits P (k a)) -> emits P (m ≫= k).
Proof.
  intros Hm Hk w. specialize (Hm w). unfold_monad.
  destruct (m w) as [[a | e] w1]; cbn [snd] in *; [| exact Hm].
  eapply appends_trans; [exact Hm | apply Hk].
Qed.

Lemma emits_try_except {A} P (m : M A) (h : exn -> M A) :
  emits P m -> (forall e, emits P (h e)) -> emits P (try_except m h).
Proof.
  intros Hm Hh w. specialize (Hm w). unfold try_except.
  destruct (m w) as [[a | e] w1]; cbn [snd] in *; [exact Hm |].
  eapply appends_trans; [exact Hm | apply Hh].
Qed.

Lemma emits_for_each {A} P (f : A -> M unit) (l : list A) :
  (forall a, emits P (f a)) -> emits P (for_each f l).
Proof.
  intros Hf. induction l as [| a l IH]; cbn [for_each].
  - apply emits_ret.
  - apply emits_bind; auto.
Qed.

(** Decomposes a monadic program into its calls. *)
Ltac emits_step :=
  lazymatch goal with
  | |- emits _ (mret _) => apply emits_ret
  | |- emits _ (ret _) => apply emits_ret
  | |- emits _ (raise _) => apply emits_raise
  | |- emits _ (lift _) => apply emits_lift
  | |- emits _ (call _ _) => apply emits_call; reflexivity
  | |- emits _ (call_process _ _) => apply emits_call_process; reflexivity
  | |- emits _ (_ ≫= _) => apply emits_bind; [| intros ?]
  | |- emits _ (try_except _ _) => apply emits_try_except; [| intros ?]
  | |- emits _ (for_each _ _) => apply emits_for_each; intros ?
  | |- emits _ (path_exists _) => now apply emits_pure
  | |- emits _ (write_binary _ _) => now apply emits_pure
  | |- emits _ (fun w => (_, w)) => now apply emits_pure
  | |- emits _ (getsize _) =>
      apply emits_pure; intros w; unfold getsize; now destruct (fs w !! _)
  | |- emits _ (read_binary _) =>
      apply emits_pure; intros w; unfold read_binary; now destruct (fs w !! _)
  | |- emits _ (read_pdf_file _) =>
      apply emits_pure; intros w; unfold read_pdf_file, read_binary;
      now destruct (fs w !! _)
  | |- emits _ (remove _ _) =>
      apply emits_pure; intros w; unfold remove;
      destruct (fs w !! _); [| reflexivity];
      match goal with |- context [match ?r with Ok _ => _ | Raise _ => _ end] =>
        now destruct r end
  | |- emits _ (if ?b then _ else _) => destruct b
  | |- emits _ (match ?x with _ => _ end) => destruct x
  | |- emits _ (let '(_, _) := ?x in _) => destruct x
  end.

Ltac emits_auto := repeat emits_step.

Section Footprints.

Context (env : Env).

Lemma emits_check_user_usage_limits user_id :
  emits before_storage (check_user_usage_limits env user_id).
Proof. unfold check_user_usage_limits. emits_auto. Qed.

Lemma emits_extract_text_from_file file :
  emits before_storage (extract_text_from_file env file).
Proof.
  unfold extract_text_from_file, extract_pdf, extract_word, extract_plain.
  emits_auto.
Qed.

Lemma emits_generate_latex_resume resume_content c :
  emits before_storage (generate_latex_resume env resume_content c).
Proof. unfold generate_latex_resume. emits_auto. Qed.

Lemma emits_convert_latex_to_pdf latex_content :
  emits before_storage (convert_latex_to_pdf env latex_content).
Proof.
  unfold convert_latex_to_pdf, write_latex_to_file, run_pdflatex_command.
  emits_auto.
Qed.

Lemma emits_upload_pdf_to_bucket file_path dest_filename :
  emits before_update (upload_pdf_to_bucket env file_path dest_filename).
Proof. unfold upload_pdf_to_bucket. emits_auto. Qed.

Lemma emits_insert_resume_record resume_link user_id :
  emits before_update (insert_resume_record env resume_link user_id).
Proof. unfold insert_resume_record. emits_auto. Qed.

Lemma emits_notify creds public_url conversion_type :
  emits before_storage (notify env creds public_url conversion_type).
Proof.
  unfold notify, send_resume_conversion_notification, send_resume_conversion_email.
  emits_auto.
Qed.

Lemma emits_cleanup latex_output_dir pdf_filename :
  emits before_storage (cleanup env latex_output_dir pdf_filename).
Proof. unfold cleanup, cleanup_one. emits_auto. Qed.

End Footprints.

(** *** The runs of the two handlers *)

Section Pipeline.

Context (env : Env).

Lemma latex_compiled_appends creds file w user_id daily monthly pdf pdf_filename w4 :
  latex_compiled env creds file w user_id daily monthly pdf pdf_filename w4 ->
  appends before_storage w w4.
Proof.
  intros (w1 & text & w2 & latex & w3 & _ & H1 & H2 & H3 & H4).
  pose proof (emits_check_user_usage_limits env user_id w) as E1. rewrite H1 in E1.
  pose proof (emits_extract_text_from_file env file w1) as E2. rewrite H2 in E2.
  pose proof (emits_generate_latex_resume env text (latex_conversion_chain env) w2) as E3.
  rewrite H3 in E3.
  pose proof (emits_convert_latex_to_pdf env latex w3) as E4. rewrite H4 in E4.
  cbn [snd] in *.
  eauto using appends_trans.
Qed.

Lemma json_compiled_appends data creds w user_id daily monthly pdf pdf_filename w4 :
  json_compiled env data creds w user_id daily monthly pdf pdf_filename w4 ->
  appends before_storage w w4.
Proof.
  intros (w1 & c & latex & w3 & _ & H1 & _ & H3 & H4).
  pose proof (emits_check_user_usage_limits env user_id w) as E1. rewrite H1 in E1.
  pose proof (emits_generate_latex_resume env (model_dump_json env data) (Some c) w1) as E3.
  rewrite H3 in E3.
  pose proof (emits_convert_latex_to_pdf env latex w3) as E4. rewrite H4 in E4.
  cbn [snd] in *.
  eauto using appends_trans.
Qed.

Lemma stored_appends user_id pdf_filename w4 public_url w6 :
  stored env user_id pdf_filename w4 public_url w6 -> appends before_update w4 w6.
Proof.
  intros (w5 & H5 & H6).
  pose proof (emits_upload_pdf_to_bucket env
                (posixpath.join (getcwd env) [lit "latex_output"; pdf_filename])
                pdf_filename w4) as E5.
  rewrite H5 in E5.
  pose proof (emits_insert_resume_record env public_url user_id w5) as E6.
  rewrite H6 in E6. cbn [snd] in *.
  eauto using appends_trans.
Qed.

Lemma emits_increment_user_usage user_id daily monthly :
  emits (fun _ => true) (increment_user_usage env user_id daily monthly).
Proof. unfold increment_user_usage. emits_auto. Qed.

Lemma appends_any P w w' : appends P w w' -> appends (fun _ => true) w w'.
Proof. now apply appends_weaken. Qed.

Ltac step_in H := cbv beta iota zeta in H.

Ltac failed_handler H :=
  repeat match type of H with
         | context [if ?b then _ else _] => destruct b
         end;
  step_in H; injection H as <- <-.

Lemma convert_to_latex_run creds file w r w' :
  convert_to_latex_endpoint env creds file w = (r, w') ->
  appends before_storage w w' \/
  exists user_id daily monthly pdf pdf_filename w4,
    latex_compiled env creds file w user_id daily monthly pdf pdf_filename w4 /\
    (appends before_update w4 w' \/
     exists public_url w6,
       stored env user_id pdf_filename w4 public_url w6 /\
       exists rest, trace w' = trace w6 ++ rest).
Proof.
  intros H.
  unfold convert_to_latex_endpoint in H. unfold_monad_in H.
  destruct (get_user_id_from_jwt env creds) as [user_id | e] eqn:Hauth;
    [| injection H as <- <-; left; apply appends_refl].
  pose proof (emits_check_user_usage_limits env user_id w) as E1.
  destruct (check_user_usage_limits env user_id w) as [[[daily monthly] | e] w1] eqn:Hquota;
    cbn [snd] in E1; [| injection H as <- <-; left; exact E1].
  step_in H.
  destruct (nonempty_filename file) as [name |];
    [| failed_handler H; left; exact E1].
  destruct (negb _); [failed_handler H; left; exact E1 |].
  pose proof (emits_extract_text_from_file env file w1) as E2.
  destruct (extract_text_from_file env file w1) as [[text | e] w2] eqn:Hextract;
    cbn [snd] in E2;
    [| failed_handler H; left; eauto using appends_trans].
  pose proof (emits_generate_latex_resume env text (latex_conversion_chain env) w2) as E3.
  destruct (generate_latex_resume env text (latex_conversion_chain env) w2)
    as [[latex | e] w3] eqn:Hgenerate;
    cbn [snd] in E3;
    [| failed_handler H; left; eauto using appends_trans].
  pose proof (emits_convert_latex_to_pdf env latex w3) as E4.
  destruct (convert_latex_to_pdf env latex w3) as [[[pdf pdf_filename] | e] w4] eqn:Hcompile;
    cbn [snd] in E4;
    [| failed_handler H; left; eauto using appends_trans].
  right. exists user_id, daily, monthly, pdf, pdf_filename, w4.
  split; [unfold latex_compiled; eauto 10 |].
  pose proof (emits_upload_pdf_to_bucket env
                (posixpath.join (getcwd env) [lit "latex_output"; pdf_filename])
                pdf_filename w4) as E5.
  destruct (upload_pdf_to_bucket env _ pdf_filename w4) as [[public_url | e] w5] eqn:Hupload;
    cbn [snd] in E5;
    [| failed_handler H; left; exact E5].
  pose proof (emits_insert_resume_record env public_url user_id w5) as E6.
  destruct (insert_resume_record env public_url user_id w5) as [[[] | e] w6] eqn:Hinsert;
    cbn [snd] in E6;
    [| failed_handler H; left; eauto using appends_trans].
  right. exists public_url, w6.
  split; [unfold stored; eauto |].
  pose proof (appends_any _ _ _ (emits_notify env creds public_url "resume" w6)) as E7.
  destruct (notify env creds public_url "resume" w6) as [[[] | e] wa];
    cbn [snd] in E7;
    [| failed_handler H; eauto using appends_prefix].
  pose proof (appends_any _ _ _
                (emits_cleanup env (posixpath.join (getcwd env) [lit "latex_output"])
                   pdf_filename wa)) as E8.
  destruct (cleanup env _ pdf_filename wa) as [[[] | e] wb];
    cbn [snd] in E8;
    [| failed_handler H; eauto using appends_prefix, appends_trans].
  step_in H.
  pose proof (emits_increment_user_usage user_id daily monthly wb) as E9.
  destruct (increment_user_usage env user_id daily monthly wb) as [[[] | e] wc];
    cbn [snd] in E9; injection H as <- <-;
    eauto using appends_prefix, appends_trans.
Qed.

Lemma convert_json_to_latex_run resume_data creds w r w' :
  convert_json_to_latex_endpoint env resume_data creds w = (r, w') ->
  appends before_storage w w' \/
  exists user_id daily monthly pdf pdf_filename w4,
    json_compiled env resume_data creds w user_id daily monthly pdf pdf_filename w4 /\
    (appends before_update w4 w' \/
     exists w4' public_url w6,
       trace w4' = trace w4 /\
       stored env user_id pdf_filename w4' public_url w6 /\
       exists rest, trace w' = trace w6 ++ rest).
Proof.
  intros H.
  unfold convert_json_to_latex_endpoint in H. unfold_monad_in H.
  destruct (get_user_id_from_jwt env creds) as [user_id | e] eqn:Hauth;
    [| injection H as <- <-; left; apply appends_refl].
  pose proof (emits_check_user_usage_limits env user_id w) as E1.
  destruct (check_user_usage_limits env user_id w) as [[[daily monthly] | e] w1] eqn:Hquota;
    cbn [snd] in E1; [| injection H as <- <-; left; exact E1].
  step_in H.
  destruct (latex_conversion_chain env) as [c |] eqn:Hchain;
    [| injection H as <- <-; left; exact E1].
  pose proof (emits_generate_latex_resume env (model_dump_json env resume_data)
                (Some c) w1) as E3.
  destruct (generate_latex_resume env (model_dump_json env resume_data) (Some c) w1)
    as [[latex | e] w3] eqn:Hgenerate;
    cbn [snd] in E3;
    [| failed_handler H; left; eauto using appends_trans].
  pose proof (emits_convert_latex_to_pdf env latex w3) as E4.
  destruct (convert_latex_to_pdf env latex w3) as [[[pdf pdf_filename] | e] w4] eqn:Hcompile;
    cbn [snd] in E4;
    [| failed_handler H; left; eauto using appends_trans].
  right. exists user_id, daily, monthly, pdf, pdf_filename, w4.
  split; [unfold json_compiled; eauto 10 |].
  step_in H. unfold path_exists in H. step_in H.
  destruct (bool_decide _); unfold write_binary in H; step_in H.
  all: match type of H with
       | context [upload_pdf_to_bucket env _ _ ?x] =>
           set (w4' := x) in H;
           assert (Htrace : trace w4' = trace w4) by reflexivity;
           clearbody w4'
       end.
  all: pose proof (appends_same before_update _ _ Htrace) as E4'.
  all: pose proof (emits_upload_pdf_to_bucket env
                  (posixpath.join (getcwd env) [lit "latex_output"; pdf_filename])
                  pdf_filename w4') as E5.
  all: change (posixpath.join (getcwd env) [lit "latex_output"; pdf_filename])
      with (posixpath.join (posixpath.join (getcwd env) [lit "latex_output"]) [pdf_filename])
      in E5.
  all: destruct (upload_pdf_to_bucket env _ pdf_filename w4') as [[public_url | e] w5] eqn:Hupload;
      cbn [snd] in E5;
      [| failed_handler H; left; eauto using appends_trans].
  all: pose proof (emits_insert_resume_record env public_url user_id w5) as E6.
  all: destruct (insert_resume_record env public_url user_id w5) as [[[] | e] w6] eqn:Hinsert;
      cbn [snd] in E6;
      [| failed_handler H; left; eauto using appends_trans].
  all: right; exists w4', public_url, w6.
  all: split; [exact Htrace |].
  all: split; [unfold stored; eauto |].
  all: pose proof (appends_any _ _ _ (emits_notify env creds public_url "json" w6)) as E7.
  all: destruct (notify env creds public_url "json" w6) as [[[] | e] wa];
      cbn [snd] in E7;
      [| failed_handler H; eauto using appends_prefix].
  all: pose proof (appends_any _ _ _
                  (emits_cleanup env (posixpath.join (getcwd env) [lit "latex_output"])
                     pdf_filename wa)) as E8.
  all: destruct (cleanup env _ pdf_filename wa) as [[[] | e] wb];
      cbn [snd] in E8;
      [| failed_handler H; eauto using appends_prefix, appends_trans].
  all: pose proof (emits_increment_user_usage user_id daily monthly wb) as E9.
  all: destruct (increment_user_usage env user_id daily monthly wb) as [[[] | e] wc];
      cbn [snd] in E9;
      [step_in H; injection H as <- <- | failed_handler H];
      eauto using appends_prefix, appends_trans.
Qed.

Ltac failed_raise H :=
  repeat match type of H with
         | context [if ?b then _ else _] => destruct b
         end;
  step_in H; discriminate.

Lemma convert_latex_to_pdf_ok_inv latex_content w pdf pdf_filename w' :
  convert_latex_to_pdf env latex_content w = (Ok (pdf, pdf_filename), w') ->
  pdf <> [] /\ exists pdf_path, fs w' !! pdf_path = Some pdf.
Proof.
  intros H. unfold convert_latex_to_pdf in H. unfold_monad_in H.
  destruct (write_latex_to_file env latex_content _ w) as [[tex_path | e] w1];
    [| failed_raise H].
  step_in H.
  destruct (get_pdf_and_tex_filenames tex_path) as [name pdf_path].
  unfold run_pdflatex_command in H. unfold_monad_in H.
  destruct (pdflatex env _ _ w1) as [[process | e] files]; [| failed_raise H].
  step_in H. unfold path_exists, getsize, read_pdf_file, read_binary in H.
  cbn [fs trace] in H.
  destruct (files !! pdf_path) as [data |] eqn:Hfile.
  - rewrite bool_decide_eq_true_2 in H by eauto. step_in H.
    cbn [fs trace] in H. rewrite Hfile in H. step_in H.
    destruct data as [| b data].
    + change (0 <? len []) with false in H. step_in H. discriminate.
    + rewrite len_cons_positive in H. step_in H.
      cbn [fs trace] in H. rewrite Hfile in H.
      step_in H. injection H as <- <- <-. cbn [fs]. split; [discriminate | eauto].
  - rewrite bool_decide_eq_false_2 in H by (intros [x Hx]; discriminate).
    step_in H. discriminate.
Qed.

Lemma appends_prefix_trans P w1 w2 w3 :
  appends P w1 w2 -> (exists rest, trace w3 = trace w2 ++ rest) ->
  exists rest, trace w3 = trace w1 ++ rest.
Proof.
  intros (evs & H12 & _) (rest & H23). exists (evs ++ rest).
  now rewrite H23, H12, app_assoc.
Qed.

Lemma before_storage_update ev : before_storage ev = true -> before_update ev = true.
Proof. unfold before_storage, before_update. now intros [_ ?]%andb_prop. Qed.

Lemma before_storage_no_write ev : before_storage ev = true -> is_storage_write ev = false.
Proof. unfold before_storage. intros [H _]%andb_prop. now apply negb_true_iff. Qed.

Lemma before_update_no_update ev : before_update ev = true -> is_usage_update ev = false.
Proof. unfold before_update. now intros H%negb_true_iff. Qed.

Lemma before_storage_no_update ev : before_storage ev = true -> is_usage_update ev = false.
Proof. intros H. now apply before_update_no_update, before_storage_update. Qed.

Lemma conversion_handlers_runs :
  (forall creds file w,
     let w' := snd (convert_to_latex_endpoint env creds file w) in
     (existsb is_storage_write (events_between w w') = true ->
      exists user_id daily monthly pdf pdf_filename w4,
        latex_compiled env creds file w user_id daily monthly pdf pdf_filename w4 /\
        pdf <> [] /\ (exists pdf_path, fs w4 !! pdf_path = Some pdf) /\
        existsb is_storage_write (events_between w w4) = false /\
        exists rest, trace w' = trace w4 ++ rest) /\
     (existsb is_usage_update (events_between w w') = true ->
      exists user_id daily monthly pdf pdf_filename w4 public_url w6,
        latex_compiled env creds file w user_id daily monthly pdf pdf_filename w4 /\
        stored env user_id pdf_filename w4 public_url w6 /\
        existsb is_usage_update (events_between w w6) = false /\
        exists rest, trace w' = trace w6 ++ rest)) /\
  (forall resume_data creds w,
     let w' := snd (convert_json_to_latex_endpoint env resume_data creds w) in
     (existsb is_storage_write (events_between w w') = true ->
      exists user_id daily monthly pdf pdf_filename w4,
        json_compiled env resume_data creds w user_id daily monthly pdf pdf_filename w4 /\
        pdf <> [] /\ (exists pdf_path, fs w4 !! pdf_path = Some pdf) /\
        existsb is_storage_write (events_between w w4) = false /\
        exists rest, trace w' = trace w4 ++ rest) /\
     (existsb is_usage_update (events_between w w') = true ->
      exists user_id daily monthly pdf pdf_filename w4 w4' public_url w6,
        json_compiled env resume_data creds w user_id daily monthly pdf pdf_filename w4 /\
        trace w4' = trace w4 /\
        stored env user_id pdf_filename w4' public_url w6 /\
        existsb is_usage_update (events_between w w6) = false /\
        exists rest, trace w' = trace w6 ++ rest)).
Proof.
  split.
  - intros creds file w w'.
    destruct (convert_to_latex_endpoint env creds file w) as [r w0] eqn:Hrun.
    subst w'. cbn [snd].
    apply convert_to_latex_run in Hrun
      as [Hquiet | (user_id & daily & monthly & pdf & pdf_filename & w4 & Hcompiled & Hrest)].
    { split; intros Hex.
      - rewrite (appends_no_event _ _ _ _ before_storage_no_write Hquiet) in Hex.
        discriminate.
      - rewrite (appends_no_event _ _ _ _ before_storage_no_update Hquiet) in Hex.
        discriminate. }
    pose proof (latex_compiled_appends _ _ _ _ _ _ _ _ _ Hcompiled) as Hbefore.
    assert (Hpdf : pdf <> [] /\ exists pdf_path, fs w4 !! pdf_path = Some pdf).
    { destruct Hcompiled as (? & ? & ? & ? & ? & _ & _ & _ & _ & Hc).
      eapply convert_latex_to_pdf_ok_inv; eauto. }
    destruct Hpdf as [Hne Hfile].
    split; intros Hex.
    + exists user_id, daily, monthly, pdf, pdf_filename, w4.
      repeat (split; [first [assumption
                            | exact (appends_no_event _ _ _ _ before_storage_no_write Hbefore)]
                     |]).
      destruct Hrest as [Hfail | (public_url & w6 & Hstored & Hprefix)].
      * eauto using appends_prefix.
      * eauto using appends_prefix_trans, stored_appends.
    + destruct Hrest as [Hfail | (public_url & w6 & Hstored & Hprefix)].
      * assert (Hall : appends before_update w w0)
          by (eapply appends_trans; [eapply appends_weaken;
                [exact before_storage_update | exact Hbefore] | exact Hfail]).
        rewrite (appends_no_event _ _ _ _ before_update_no_update Hall) in Hex.
        discriminate.
      * exists user_id, daily, monthly, pdf, pdf_filename, w4, public_url, w6.
        repeat (split; [assumption |]). split; [| exact Hprefix].
        apply (appends_no_event before_update); [exact before_update_no_update |].
        eapply appends_trans; [eapply appends_weaken;
                [exact before_storage_update | exact Hbefore] |].
        eauto using stored_appends.
  - intros resume_data creds w w'.
    destruct (convert_json_to_latex_endpoint env resume_data creds w) as [r w0] eqn:Hrun.
    subst w'. cbn [snd].
    apply convert_json_to_latex_run in Hrun
      as [Hquiet | (user_id & daily & monthly & pdf & pdf_filename & w4 & Hcompiled & Hrest)].
    { split; intros Hex.
      - rewrite (appends_no_event _ _ _ _ before_storage_no_write Hquiet) in Hex.
        discriminate.
      - rewrite (appends_no_event _ _ _ _ before_storage_no_update Hquiet) in Hex.
        discriminate. }
    pose proof (json_compiled_appends _ _ _ _ _ _ _ _ _ Hcompiled) as Hbefore.
    assert (Hpdf : pdf <> [] /\ exists pdf_path, fs w4 !! pdf_path = Some pdf).
    { destruct Hcompiled as (? & ? & ? & ? & _ & _ & _ & _ & Hc).
      eapply convert_latex_to_pdf_ok_inv; eauto. }
    destruct Hpdf as [Hne Hfile].
    assert (Hstore : forall w4' public_url w6,
               trace w4' = trace w4 -> stored env user_id pdf_filename w4' public_url w6 ->
               appends before_update w4 w6).
    { intros w4' public_url w6 Htrace Hstored.
      destruct (stored_appends _ _ _ _ _ Hstored) as (evs & Hevs & Hall).
      exists evs. split; [congruence | exact Hall]. }
    split; intros Hex.
    + exists user_id, daily, monthly, pdf, pdf_filename, w4.
      repeat (split; [first [assumption
                            | exact (appends_no_event _ _ _ _ before_storage_no_write Hbefore)]
                     |]).
      destruct Hrest as [Hfail | (w4' & public_url & w6 & Htrace & Hstored & Hprefix)].
      * eauto using appends_prefix.
      * eauto using appends_prefix_trans.
    + destruct Hrest as [Hfail | (w4' & public_url & w6 & Htrace & Hstored & Hprefix)].
      * assert (Hall : appends before_update w w0)
          by (eapply appends_trans; [eapply appends_weaken;
                [exact before_storage_update | exact Hbefore] | exact Hfail]).
        rewrite (appends_no_event _ _ _ _ before_update_no_update Hall) in Hex.
        discriminate.
      * exists user_id, daily, monthly, pdf, pdf_filename, w4, w4', public_url, w6.
        repeat (split; [assumption |]). split; [| exact Hprefix].
        apply (appends_no_event before_update); [exact before_update_no_update |].
        eapply appends_trans; [eapply appends_weaken;
                [exact before_storage_update | exact Hbefore] |].
        eauto.
Qed.

(** C2: in [/convert-latex] and in [/convert-json-to-latex], an upload
    or an insertion of the audit record is made only once
    [convert_latex_to_pdf] has returned a PDF, which is then a non-empty
    file, and none is made before; the usage counters are updated only
    once authentication, the quota check, extraction (for the file
    route), generation, compilation, upload and insertion have each
    succeeded, in that order, and not before the insertion; so if one
    of these steps fails, the run contains no update of the counters. *)
Theorem usage_counted_only_after_full_pipeline :
  (forall creds file w,
     let w' := snd (convert_to_latex_endpoint env creds file w) in
     (existsb is_storage_write (events_between w w') = true ->
      exists user_id daily monthly pdf pdf_filename w4,
        latex_compiled env creds file w user_id daily monthly pdf pdf_filename w4 /\
        pdf <> [] /\ (exists pdf_path, fs w4 !! pdf_path = Some pdf) /\
        existsb is_storage_write (events_between w w4) = false /\
        exists rest, trace w' = trace w4 ++ rest) /\
     (existsb is_usage_update (events_between w w') = true ->
      exists user_id daily monthly pdf pdf_filename w4 public_url w6,
        latex_compiled env creds file w user_id daily monthly pdf pdf_filename w4 /\
        stored env user_id pdf_filename w4 public_url w6 /\
        existsb is_usage_update (events_between w w6) = false /\
        exists rest, trace w' = trace w6 ++ rest) /\
     (~ (exists user_id daily monthly pdf pdf_filename w4 public_url w6,
           latex_compiled env creds file w user_id daily monthly pdf pdf_filename w4 /\
           stored env user_id pdf_filename w4 public_url w6) ->
      existsb is_usage_update (events_between w w') = false)) /\
  (forall resume_data creds w,
     let w' := snd (convert_json_to_latex_endpoint env resume_data creds w) in
     (existsb is_storage_write (events_between w w') = true ->
      exists user_id daily monthly pdf pdf_filename w4,
        json_compiled env resume_data creds w user_id daily monthly pdf pdf_filename w4 /\
        pdf <> [] /\ (exists pdf_path, fs w4 !! pdf_path = Some pdf) /\
        existsb is_storage_write (events_between w w4) = false /\
        exists rest, trace w' = trace w4 ++ rest) /\
     (existsb is_usage_update (events_between w w') = true ->
      exists user_id daily monthly pdf pdf_filename w4 w4' public_url w6,
        json_compiled env resume_data creds w user_id daily monthly pdf pdf_filename w4 /\
        trace w4' = trace w4 /\
        stored env user_id pdf_filename w4' public_url w6 /\
        existsb is_usage_update (events_between w w6) = false /\
        exists rest, trace w' = trace w6 ++ rest) /\
     (~ (exists user_id daily monthly pdf pdf_filename w4 w4' public_url w6,
           json_compiled env resume_data creds w user_id daily monthly pdf pdf_filename w4 /\
           trace w4' = trace w4 /\
           stored env user_id pdf_filename w4' public_url w6) ->
      existsb is_usage_update (events_between w w') = false)).
Proof.
  destruct conversion_handlers_runs as [Hlatex Hjson].
  split.
  - intros creds file w w'.
    destruct (Hlatex creds file w) as [Hwrite Hupdate]. fold w' in Hwrite, Hupdate.
    split; [exact Hwrite | split; [exact Hupdate |]].
    intros Hnot. apply not_true_is_false. intros Hex.
    destruct (Hupdate Hex) as (? & ? & ? & ? & ? & ? & ? & ? & ? & ? & _).
    apply Hnot. eauto 10.
  - intros resume_data creds w w'.
    destruct (Hjson resume_data creds w) as [Hwrite Hupdate]. fold w' in Hwrite, Hupdate.
    split; [exact Hwrite | split; [exact Hupdate |]].
    intros Hnot. apply not_true_is_false. intros Hex.
    destruct (Hupdate Hex) as (? & ? & ? & ? & ? & ? & ? & ? & ? & ? & ? & ? & _).
    apply Hnot. eauto 12.
Qed.

End Pipeline.

Lemma usage_counted_only_after_full_pipeline_witness :
  let env := Sample.env (Some (lit "s3cret")) (Ok (Sample.usage 2 5))
               Sample.compiler_with_warnings (Ok tt) in
  let file := Sample.text_file "cv.md" [x52; xe9; x73; x75; x6d; xe9] in
  let w' := snd (convert_to_latex_endpoint env Sample.bearer file Sample.empty_world) in
  existsb is_storage_write (events_between Sample.empty_world w') = true /\
  existsb is_usage_update (events_between Sample.empty_world w') = true /\
  exists user_id daily monthly pdf pdf_filename w4 public_url w6,
    latex_compiled env Sample.bearer file Sample.empty_world
      user_id daily monthly pdf pdf_filename w4 /\
    stored env user_id pdf_filename w4 public_url w6 /\
    existsb is_usage_update (events_between Sample.empty_world w6) = false /\
    exists rest, trace w' = trace w6 ++ rest.
Proof.
  intros env file w'.
  assert (Hwrite : existsb is_storage_write (events_between Sample.empty_world w') = true)
    by (vm_compute; reflexivity).
  assert (Hupdate : existsb is_usage_update (events_between Sample.empty_world w') = true)
    by (vm_compute; reflexivity).
  split; [exact Hwrite | split; [exact Hupdate |]].
  destruct (usage_counted_only_after_full_pipeline env) as [Hlatex _].
  destruct (Hlatex Sample.bearer file Sample.empty_world) as (_ & Hcounted & _).
  exact (Hcounted Hupdate).
Defined.

(** * Further properties

    What the code shows beyond the statements above: the outcomes of
    each function, the calls of a successful request, and what the
    handlers leave behind. *)

Ltac mstep := cbv beta iota zeta; cbn [fst snd is_HTTPException].
Ltac mstep_in H := cbv beta iota zeta in H; cbn [fst snd is_HTTPException] in H.

(** Closes a branch in which the run [H] has raised. *)
Ltac raised H :=
  repeat match type of H with
         | context [if ?b then _ else _] => destruct b
         end;
  mstep_in H; discriminate.

(** ** More on the quota gate *)

Section UsageGateMore.
Context (env : Env).

Lemma check_user_usage_limits_world user_id w :
  snd (check_user_usage_limits env user_id w) =
    {| fs := fs w; trace := trace w ++ [UsageSelect user_id] |}.
Proof.
  unfold check_user_usage_limits, counter. unfold_monad.
  destruct (usage_select env user_id w) as [usage_data | e]; mstep.
  - destruct (usage_row usage_data !! lit "daily_conversions") as [[daily |] |]; mstep;
      try reflexivity.
    + destruct (3 <=? daily); [reflexivity |].
      destruct (usage_row usage_data !! lit "monthly_conversions") as [[monthly |] |];
        mstep; try reflexivity.
      destruct (30 <=? monthly); reflexivity.
    + destruct (usage_row usage_data !! lit "monthly_conversions") as [[monthly |] |];
        mstep; try reflexivity.
      destruct (30 <=? monthly); reflexivity.
  - destruct (is_HTTPException e); reflexivity.
Qed.

(** X1: the gate lets a request through only with both counters under
    their limits, and these are the counters of the row it has read. *)
Theorem check_user_usage_limits_admits_under_limits user_id w daily monthly w' :
  check_user_usage_limits env user_id w = (Ok (daily, monthly), w') ->
  daily < 3 /\ monthly < 30 /\
  (exists usage_data,
     usage_select env user_id w = Ok usage_data /\
     counter (usage_row usage_data) (lit "daily_conversions") = Ok daily /\
     counter (usage_row usage_data) (lit "monthly_conversions") = Ok monthly) /\
  w' = {| fs := fs w; trace := trace w ++ [UsageSelect user_id] |}.
Proof.
  intros H.
  pose proof (check_user_usage_limits_world user_id w) as Hw. rewrite H in Hw.
  cbn [snd] in Hw.
  unfold check_user_usage_limits in H. unfold_monad_in H.
  destruct (usage_select env user_id w) as [usage_data | e] eqn:Hsel; mstep_in H.
  2: { raised H. }
  destruct (counter _ (lit "daily_conversions")) as [d | e] eqn:Hd; mstep_in H;
    [| raised H].
  destruct (Z.leb_spec 3 d); mstep_in H; [discriminate |].
  destruct (counter _ (lit "monthly_conversions")) as [m | e] eqn:Hm; mstep_in H;
    [| raised H].
  destruct (Z.leb_spec 30 m); mstep_in H; [discriminate |].
  injection H as <- <- _. repeat split; eauto.
Qed.

(** X2: a failure of the read, or a null counter, never escapes as it is:
    the gate answers 500 "Usage check failed: ...". *)
Theorem check_user_usage_limits_wraps_failures user_id w :
  (forall e, usage_select env user_id w = Raise e -> is_HTTPException e = false ->
     fst (check_user_usage_limits env user_id w) =
       Raise (HTTPException 500 (lit "Usage check failed: " ++ str_of_exn e))) /\
  (forall usage_data,
     usage_select env user_id w = Ok usage_data ->
     usage_row usage_data !! lit "daily_conversions" = Some None ->
     exists detail,
       fst (check_user_usage_limits env user_id w) = Raise (HTTPException 500 detail)).
Proof.
  split.
  - intros e Hsel He. unfold check_user_usage_limits. unfold_monad.
    rewrite Hsel. mstep. now rewrite He.
  - intros usage_data Hsel Hnull. unfold check_user_usage_limits, counter. unfold_monad.
    rewrite Hsel. mstep. rewrite Hnull. mstep. eauto.
Qed.

End UsageGateMore.

(** ** More on authentication *)

Section AuthenticationMore.
Context (env : Env).

(** X3: with a secret configured, the user id is the non-empty [sub] claim
    of a token the library accepts, and every refusal is a 401. The
    refusal of a token without that claim is raised inside the [try]
    and caught by its own handler, so its detail holds the message
    twice, with the inner status between. *)
Theorem get_user_id_from_jwt_configured creds secret :
  jwks_secret env = Some secret -> secret <> [] ->
  (forall user_id,
     get_user_id_from_jwt env creds = Ok user_id <->
     user_id <> [] /\
     exists payload,
       jwt_decode env (credentials creds) secret = Ok payload /\
       payload !! lit "sub" = Some user_id) /\
  (forall e,
     get_user_id_from_jwt env creds = Raise e ->
     exists detail, e = HTTPException 401 detail) /\
  (forall payload,
     jwt_decode env (credentials creds) secret = Ok payload ->
     truthy (payload !! lit "sub") = false ->
     get_user_id_from_jwt env creds =
       Raise (HTTPException 401
                (lit "Invalid authentication credentials: 401: Invalid authentication credentials"))).
Proof.
  intros Hsecret Hne. unfold get_user_id_from_jwt. rewrite Hsecret.
  destruct secret as [| c s]; [congruence |].
  destruct (jwt_decode env (credentials creds) (c :: s)) as [payload | e0].
  - destruct (payload !! lit "sub") as [[| c' s'] |] eqn:Hsub; split; [| split | | split | | split].
    + intros user_id. split; [discriminate |].
      intros (Hu & payload' & Heq & Hsub'). injection Heq as <-. congruence.
    + intros e He. eexists. symmetry. injection He as He. exact He.
    + intros payload' [= <-] _. reflexivity.
    + intros user_id. split.
      * intros [= <-]. split; [discriminate | eauto].
      * intros (_ & payload' & Heq & Hsub'). injection Heq as <-. congruence.
    + discriminate.
    + intros payload' [= <-]. rewrite Hsub. discriminate.
    + intros user_id. split; [discriminate |].
      intros (Hu & payload' & Heq & Hsub'). injection Heq as <-. congruence.
    + intros e He. eexists. symmetry. injection He as He. exact He.
    + intros payload' [= <-] _. reflexivity.
  - split; [| split].
    + intros user_id. split; [discriminate |].
      intros (_ & payload' & Heq & _). discriminate.
    + intros e He. eexists. symmetry. injection He as He. exact He.
    + discriminate.
Qed.

End AuthenticationMore.

(** ** More on the notification layer *)

Section NotificationMore.
Context (env : Env).

(** X4: a notification is reported sent exactly when the token yields an
    address and the provider accepts the message; at most one message
    is handed over, addressed to that address and carrying the link. *)
Theorem send_resume_conversion_notification_sent creds resume_link conversion_type w :
  let run := send_resume_conversion_notification env creds resume_link conversion_type w in
  (fst run = Ok true <->
   exists user_email,
     get_email_from_jwt env creds = Some user_email /\
     emails_send env (notification_params env user_email resume_link conversion_type) w = Ok tt) /\
  fs (snd run) = fs w /\
  trace (snd run) =
    trace w ++
    match get_email_from_jwt env creds with
    | Some user_email =>
        [EmailSend (notification_params env user_email resume_link conversion_type)]
    | None => []
    end /\
  (forall user_email,
     get_email_from_jwt env creds = Some user_email ->
     email_html (notification_params env user_email resume_link conversion_type)
     = email_html_head env ++ resume_link ++ email_html_tail env).
Proof.
  intros run. subst run.
  unfold send_resume_conversion_notification, send_resume_conversion_email,
    notification_params. unfold_monad.
  destruct (get_email_from_jwt env creds) as [user_email |]; mstep.
  - cbn [get_resume_conversion_email_template fst snd].
    match goal with |- context [emails_send env ?p w] =>
      destruct (emails_send env p w) as [[] | e] eqn:Hsend end; mstep.
    + repeat split; eauto.
    + repeat split; try discriminate; eauto.
      intros (user_email' & [= <-] & Hsend'). congruence.
  - rewrite app_nil_r. repeat split; try discriminate.
    intros (user_email & Hnone & _). discriminate.
Qed.

End NotificationMore.

(** ** More on the compiler's diagnostics *)

(** X5: [format_pdflatex_error] for any line count: a positive count keeps
    that many last lines; zero keeps every line, since [lines[-0:]] is
    the whole list; an empty stream gives the fixed text for any count. *)
Theorem format_pdflatex_error_counts (stderr : list N) (num_lines : Z) :
  let lines := splitlines stderr in
  (stderr = [] -> format_pdflatex_error stderr num_lines = lit "No stderr output.") /\
  (stderr <> [] -> 0 < num_lines ->
   format_pdflatex_error stderr num_lines =
     Py.join [LF] (drop (length lines - Z.to_nat num_lines) lines)) /\
  (stderr <> [] -> num_lines = 0 ->
   format_pdflatex_error stderr num_lines = Py.join [LF] lines).
Proof.
  intros lines. unfold format_pdflatex_error. fold lines.
  split; [intros ->; reflexivity |].
  assert (Hlines : stderr <> [] -> lines <> [])
    by (intros Hne Hnil; now apply splitlines_nil in Hnil).
  split.
  - intros Hne Hpos. specialize (Hlines Hne).
    destruct lines as [| l ls] eqn:El; [congruence |].
    f_equal. rewrite <- (Z2Nat.id num_lines) at 1 by lia.
    apply slice_from_last. lia.
  - intros Hne ->. specialize (Hlines Hne).
    destruct lines as [| l ls] eqn:El; [congruence |]. reflexivity.
Qed.

(** ** More on the LaTeX conversion chain *)

(** X6: the two tests only shorten the output at its ends: what is returned
    is the output without at most its first 8 and its last 4
    characters, so nothing inside is touched. *)
Theorem strip_code_fences_trims_ends (output : list N) :
  exists front back,
    output = front ++ strip_code_fences output ++ back /\
    (front = [] \/ front = lit "```latex") /\
    (back = [] \/ back = [LF] ++ lit "```").
Proof.
  unfold strip_code_fences.
  destruct (startswith output (lit "```latex" ++ [LF])) eqn:Hstart.
  - apply bool_decide_eq_true in Hstart.
    assert (Hout : output = lit "```latex" ++ slice_from 8 output).
    { change (length (lit "```latex" ++ [LF])) with 9%nat in Hstart.
      assert (Hlen : (9 <= length output)%nat).
      { apply (f_equal length) in Hstart. rewrite length_take in Hstart.
        change (length (lit "```latex" ++ [LF])) with 9%nat in Hstart. lia. }
      unfold slice_from, clamp_index, len.
      destruct (Z.ltb_spec 8 0); [lia |].
      replace (Z.to_nat (Z.min 8 (Z.of_nat (length output)))) with 8%nat by lia.
      rewrite <- (take_drop 8 output) at 1. f_equal.
      change 8%nat with (min 8 9) at 1. rewrite <- take_take. now rewrite Hstart. }
    set (rest := slice_from 8 output) in *.
    destruct (endswith rest ([LF] ++ lit "```")) eqn:Hend.
    + apply bool_decide_eq_true in Hend.
      exists (lit "```latex"), ([LF] ++ lit "```"). split; [| auto].
      rewrite Hout at 1. f_equal.
      unfold slice_to, clamp_index, len.
      change (length ([LF] ++ lit "```")) with 4%nat in Hend.
      rewrite <- Hend.
      assert (4 <= length rest)%nat.
      { apply (f_equal length) in Hend. rewrite length_drop in Hend.
        change (length ([LF] ++ lit "```")) with 4%nat in Hend. lia. }
      destruct (Z.ltb_spec (-4) 0); [| lia].
      replace (Z.to_nat (Z.max (Z.of_nat (length rest) + -4) 0)) with (length rest - 4)%nat
        by lia.
      now rewrite take_drop.
    + exists (lit "```latex"), []. rewrite app_nil_r. auto.
  - destruct (endswith output ([LF] ++ lit "```")) eqn:Hend.
    + apply bool_decide_eq_true in Hend.
      exists [], ([LF] ++ lit "```"). split; [| auto].
      unfold slice_to, clamp_index, len.
      change (length ([LF] ++ lit "```")) with 4%nat in Hend.
      rewrite <- Hend.
      assert (4 <= length output)%nat.
      { apply (f_equal length) in Hend. rewrite length_drop in Hend.
        change (length ([LF] ++ lit "```")) with 4%nat in Hend. lia. }
      destruct (Z.ltb_spec (-4) 0); [| lia].
      replace (Z.to_nat (Z.max (Z.of_nat (length output) + -4) 0))
        with (length output - 4)%nat by lia.
      cbn [List.app]. now rewrite take_drop.
    + exists [], []. rewrite app_nil_r. auto.
Qed.

Section ChainsMore.
Context (env : Env).

(** X7: empty content is refused before the model is called; any other
    failure, of the model or of a missing chain, comes back as a
    [RuntimeError] "LaTeX conversion failed: ..."; and a result is the
    model's answer with its fences cut, after exactly one call. *)
Theorem generate_latex_resume_outcomes resume_content c w :
  let run := generate_latex_resume env resume_content c w in
  (resume_content = [] ->
   run = (Raise (Error ValueError (lit "Resume content cannot be empty")), w)) /\
  (resume_content <> [] ->
   forall e, fst run = Raise e ->
     exists cause,
       e = Error RuntimeError (lit "LaTeX conversion failed: " ++ str_of_exn cause)) /\
  (forall latex_resume, fst run = Ok latex_resume ->
     exists c0 output,
       c = Some c0 /\
       chain_ainvoke env c0 [(lit "resume_content", resume_content);
                             (lit "latex_template", LATEX_TEMPLATE env)] w = Ok output /\
       latex_resume = strip_code_fences output /\
       snd run = {| fs := fs w;
                    trace := trace w ++
                      [ChainInvoke c0 [(lit "resume_content", resume_content);
                                       (lit "latex_template", LATEX_TEMPLATE env)]] |}).
Proof.
  intros run. subst run. unfold generate_latex_resume.
  destruct resume_content as [| ch rest].
  - split; [reflexivity |]. split; [congruence | intros ? [=]].
  - split; [intros [=] |]. unfold_monad.
    destruct c as [c0 |]; mstep.
    + destruct (chain_ainvoke env c0 _ w) as [output | e0] eqn:Hcall; mstep.
      * split; [intros _ e [=] |]. intros latex [= <-].
        exists c0, output. repeat split. exact Hcall.
      * split; [| intros ? [=]]. intros _ e He. exists e0. now injection He as <-.
    + split; [| intros ? [=]]. intros _ e He.
      exists (Error AttributeError (lit "'NoneType' object has no attribute 'ainvoke'")).
      now injection He as <-.
Qed.

End ChainsMore.

(** *** [str.strip] *)

Lemma lstrip_split s :
  exists ws, s = ws ++ lstrip s /\ forallb isspace ws = true.
Proof.
  induction s as [| c s (ws & Hs & Hws)]; [exists []; auto |].
  cbn [lstrip]. destruct (isspace c) eqn:Hc.
  - exists (c :: ws). cbn. rewrite Hc, Hws. split; [now f_equal | reflexivity].
  - exists []. auto.
Qed.

Lemma lstrip_head c s t : lstrip s = c :: t -> isspace c = false.
Proof.
  induction s as [| c' s IH]; [discriminate |].
  cbn [lstrip]. destruct (isspace c') eqn:Hc; [exact IH |].
  now intros [= <- <-].
Qed.

Lemma rstrip_split s :
  exists ws, s = rstrip s ++ ws /\ forallb isspace ws = true.
Proof.
  unfold rstrip. destruct (lstrip_split (reverse s)) as (ws & Hs & Hws).
  exists (reverse ws). split.
  - apply (f_equal reverse) in Hs. now rewrite reverse_involutive, reverse_app in Hs.
  - rewrite forallb_forall in *. intros x Hx. apply Hws.
    apply list_elem_of_In. apply list_elem_of_In in Hx. rewrite elem_of_reverse in Hx. exact Hx.
Qed.

Lemma rstrip_last s c t : rstrip s = t ++ [c] -> isspace c = false.
Proof.
  unfold rstrip. intros H. apply (f_equal reverse) in H.
  rewrite reverse_involutive, reverse_app in H. cbn in H.
  now apply lstrip_head in H.
Qed.

(** What [strip] returns neither begins nor ends with white space, and
    is the text without a white prefix and a white suffix. *)
Lemma strip_spec s :
  (exists front back,
     s = front ++ strip s ++ back /\
     forallb isspace front = true /\ forallb isspace back = true) /\
  (forall c t, strip s = c :: t -> isspace c = false) /\
  (forall c t, strip s = t ++ [c] -> isspace c = false).
Proof.
  unfold strip. split; [| split].
  - destruct (lstrip_split s) as (front & Hs & Hfront).
    destruct (rstrip_split (lstrip s)) as (back & Hl & Hback).
    exists front, back. split; [| auto]. rewrite Hs at 1. now rewrite Hl at 1.
  - intros c t H.
    destruct (rstrip_split (lstrip s)) as (back & Hl & _).
    rewrite H in Hl. cbn in Hl. now apply lstrip_head in Hl.
  - intros c t. apply rstrip_last.
Qed.

Section TailoringMore.
Context (env : Env).

(** X8: the tailoring chain (read with the log line at the head of the
    function aligned with its body): empty input is refused before the
    model is called; every other failure comes out of the function's
    own handlers as a [RuntimeError] "Failed to parse output: ..." or
    "Processing failed: ...", also the two that the function raises
    itself inside the [try]; a result is the model's answer stripped,
    is not empty, has no white space at either end, and, when the
    answer is shorter than 100 characters, holds none of the refusal
    phrases. *)
Theorem generate_tailored_resume_outcomes resume_content job_description c w :
  let inputs := [(lit "resume_content", resume_content);
                 (lit "job_description", job_description)] in
  let run := generate_tailored_resume env resume_content job_description c w in
  (resume_content = [] \/ job_description = [] ->
   run = (Raise (Error ValueError
                   (lit "Resume content and job description cannot be empty.")), w)) /\
  (resume_content <> [] -> job_description <> [] ->
   forall e, fst run = Raise e ->
     exists cause,
       e = Error RuntimeError (lit "Failed to parse output: " ++ str_of_exn cause) \/
       e = Error RuntimeError (lit "Processing failed: " ++ str_of_exn cause)) /\
  (resume_content <> [] -> job_description <> [] ->
   forall output, chain_ainvoke env c inputs w = Ok output -> strip output = [] ->
     fst run =
       Raise (Error RuntimeError
                (lit "Processing failed: Failed to generate valid resume text."))) /\
  (forall tailored, fst run = Ok tailored ->
     exists output,
       chain_ainvoke env c inputs w = Ok output /\
       tailored = strip output /\
       tailored <> [] /\
       (forall ch t, tailored = ch :: t -> isspace ch = false) /\
       (forall ch t, tailored = t ++ [ch] -> isspace ch = false) /\
       (len output < 100 ->
        existsb (contains (lower (unicode_lower env) output)) refusal_patterns = false)).
Proof.
  intros inputs run. subst run. unfold generate_tailored_resume. unfold_monad.
  destruct resume_content as [| ch rest].
  { split; [reflexivity |]. split; [congruence |]. split; [congruence | intros ? [=]]. }
  destruct job_description as [| ch' rest'].
  { split; [reflexivity |]. split; [intros ? ?; congruence |].
    split; [intros ? ?; congruence | intros ? [=]]. }
  split; [intros [[=] | [=]] |].
  fold inputs.
  destruct (chain_ainvoke env c inputs w) as [output | e0] eqn:Hcall; mstep.
  2: { destruct (isinstance e0 OutputParserException); mstep;
         (split; [| split; [intros _ _ ? [=] | intros ? [=]]]); intros _ _ e He;
         exists e0; [left | right]; congruence. }
  destruct (strip output) as [| s0 ss] eqn:Hstrip; mstep.
  { cbn [isinstance]. mstep.
    split; [| split; [intros _ _ ? [= <-] _; reflexivity | intros ? [=]]].
    intros _ _ e He.
    exists (Error RuntimeError (lit "Failed to generate valid resume text.")).
    right. congruence. }
  destruct (len output <? 100) eqn:Hshort; cbn [andb].
  - destruct (existsb _ refusal_patterns) eqn:Hrefusal; mstep.
    + cbn [isinstance]. mstep.
      split; [| split; [intros _ _ ? [= <-]; congruence | intros ? [=]]].
      intros _ _ e He.
      exists (Error RuntimeError
                (lit "Failed to process the input resume/JD. Please check the input data.")).
      right. congruence.
    + split; [intros _ _ e [=] |].
      split; [intros _ _ ? [= <-]; congruence |].
      intros tailored [= <-].
      exists output. rewrite <- Hstrip.
      destruct (strip_spec output) as (_ & Hhead & Hlast).
      repeat split; eauto. rewrite Hstrip. discriminate.
  - split; [intros _ _ e [=] |].
    split; [intros _ _ ? [= <-]; congruence |].
    intros tailored [= <-].
    exists output. rewrite <- Hstrip.
    destruct (strip_spec output) as (_ & Hhead & Hlast).
    repeat split; eauto; [rewrite Hstrip; discriminate |].
    intros Hlt. apply Z.ltb_lt in Hlt. congruence.
Qed.

End TailoringMore.

(** ** Clean-up of the working files *)

Section CleanUp.
Context (env : Env).

(** One round of the loop: the file is deleted, or it stays because it
    is not there or because the deletion is refused; the round itself
    never fails. *)
Lemma cleanup_one_world latex_output_dir base_name ext w :
  exists w',
    cleanup_one env latex_output_dir base_name ext w = (Ok tt, w') /\
    trace w' = trace w /\
    (fs w' = fs w \/
     fs w' = delete (posixpath.join latex_output_dir [base_name ++ ext]) (fs w)) /\
    (os_remove env (posixpath.join latex_output_dir [base_name ++ ext]) w = Ok tt ->
     fs w' = delete (posixpath.join latex_output_dir [base_name ++ ext]) (fs w)).
Proof.
  unfold cleanup_one, path_exists, remove. unfold_monad.
  set (path := posixpath.join latex_output_dir [base_name ++ ext]).
  destruct (fs w !! path) as [data |] eqn:Hpath.
  - rewrite bool_decide_eq_true_2 by eauto. mstep. rewrite Hpath.
    destruct (os_remove env path w) as [[] | e]; eexists; (split; [reflexivity |]);
      cbn [fs trace]; (split; [reflexivity |]); split; auto; discriminate.
  - rewrite bool_decide_eq_false_2 by (intros [x Hx]; discriminate). mstep.
    exists w. rewrite delete_id by exact Hpath. auto.
Qed.

Lemma for_each_cleanup latex_output_dir base_name exts w :
  let path ext := posixpath.join latex_output_dir [base_name ++ ext] in
  exists w',
    for_each (cleanup_one env latex_output_dir base_name) exts w = (Ok tt, w') /\
    trace w' = trace w /\
    (forall p, fs w' !! p = fs w !! p \/ (p ∈ map path exts /\ fs w' !! p = None)) /\
    ((forall p w0, p ∈ map path exts -> os_remove env p w0 = Ok tt) ->
     forall p, p ∈ map path exts -> fs w' !! p = None).
Proof.
  intros path. revert w.
  induction exts as [| ext exts IH]; intros w; cbn [for_each map].
  - exists w. split; [reflexivity |]. split; [reflexivity |].
    split; [auto |]. intros _ p Hp. now apply elem_of_nil in Hp.
  - destruct (cleanup_one_world latex_output_dir base_name ext w)
      as (w1 & Hrun1 & Htrace1 & Hfs1 & Hok1).
    destruct (IH w1) as (w' & Hrun & Htrace & Hfs & Hok).
    exists w'. unfold_monad. rewrite Hrun1. mstep.
    split; [exact Hrun |]. split; [congruence |]. fold (path ext) in Hfs1, Hok1.
    split.
    + intros p. destruct (Hfs p) as [Hsame | [Hin Hnone]].
      2: { right. split; [now right | exact Hnone]. }
      destruct Hfs1 as [Hfs1 | Hfs1]; rewrite Hsame, Hfs1; [now left |].
      destruct (decide (p = path ext)) as [-> | Hne].
      * right. split; [now left | apply lookup_delete_eq].
      * left. now apply lookup_delete_ne.
    + intros Hall p Hp. apply elem_of_cons in Hp as [-> | Hp].
      * destruct (Hfs (path ext)) as [Hsame | [_ Hnone]]; [| exact Hnone].
        rewrite Hsame, (Hok1 (Hall _ _ ltac:(left))). apply lookup_delete_eq.
      * apply Hok; [| exact Hp]. intros q w0 Hq. apply Hall. now right.
Qed.

Lemma cleanup_world latex_output_dir pdf_filename w :
  exists w',
    cleanup env latex_output_dir pdf_filename w = (Ok tt, w') /\
    trace w' = trace w /\
    (forall p, fs w' !! p = fs w !! p \/
               (p ∈ cleanup_paths latex_output_dir pdf_filename /\ fs w' !! p = None)) /\
    ((forall p w0, p ∈ cleanup_paths latex_output_dir pdf_filename ->
                   os_remove env p w0 = Ok tt) ->
     forall p, p ∈ cleanup_paths latex_output_dir pdf_filename -> fs w' !! p = None).
Proof.
  unfold cleanup, cleanup_paths.
  exact (for_each_cleanup latex_output_dir (fst (posixpath.splitext pdf_filename))
           [lit ".pdf"; lit ".tex"; lit ".aux"; lit ".log"; lit ".out"] w).
Qed.

(** X10: the clean-up never fails and makes no outside call, whatever
    the deletions do: a refused deletion is caught in its round. Every
    file other than the five is as it was; each of the five is gone
    or, when it could not be deleted, left as it was; and when no
    deletion is refused, none of the five is there afterwards. *)
Theorem cleanup_removes_working_files latex_output_dir pdf_filename w :
  exists w',
    cleanup env latex_output_dir pdf_filename w = (Ok tt, w') /\
    trace w' = trace w /\
    (forall p, p ∉ cleanup_paths latex_output_dir pdf_filename -> fs w' !! p = fs w !! p) /\
    (forall p, p ∈ cleanup_paths latex_output_dir pdf_filename ->
               fs w' !! p = None \/ fs w' !! p = fs w !! p) /\
    ((forall p w0, p ∈ cleanup_paths latex_output_dir pdf_filename ->
                   os_remove env p w0 = Ok tt) ->
     forall p, p ∈ cleanup_paths latex_output_dir pdf_filename -> fs w' !! p = None).
Proof.
  destruct (cleanup_world latex_output_dir pdf_filename w)
    as (w' & Hrun & Htrace & Hfs & Hgone).
  exists w'. split; [exact Hrun |]. split; [exact Htrace |].
  split; [| split; [| exact Hgone]].
  - intros p Hp. destruct (Hfs p) as [Hsame | [Hin _]]; [exact Hsame | contradiction].
  - intros p _. destruct (Hfs p) as [Hsame | [_ Hnone]]; auto.
Qed.

End CleanUp.

(** ** Outcomes of the handlers *)

Ltac failed_http H :=
  repeat match type of H with
         | context [if is_HTTPException ?e then _ else _] =>
             destruct (is_HTTPException e) eqn:?
         | context [if ?b then _ else _] => destruct b
         end;
  mstep_in H; injection H as <- <-.

Section Outcomes.
Context (env : Env).

Lemma get_user_id_from_jwt_raises creds e :
  get_user_id_from_jwt env creds = Raise e -> is_HTTPException e = true.
Proof.
  unfold get_user_id_from_jwt.
  destruct (jwks_secret env) as [[| c s] |]; try (intros [= <-]; reflexivity).
  destruct (jwt_decode env _ _) as [payload | e0]; [| intros [= <-]; reflexivity].
  destruct (payload !! lit "sub") as [[| c' s'] |]; intros [= <-]; reflexivity.
Qed.

Lemma check_user_usage_limits_raises user_id w e w' :
  check_user_usage_limits env user_id w = (Raise e, w') -> is_HTTPException e = true.
Proof.
  intros H. unfold check_user_usage_limits in H. unfold_monad_in H.
  destruct (usage_select env user_id w) as [usage_data | e0]; mstep_in H.
  2: { destruct (is_HTTPException e0) eqn:He0; mstep_in H; injection H as <- _;
       [exact He0 | reflexivity]. }
  unfold counter in H.
  destruct (usage_row usage_data !! lit "daily_conversions") as [[daily |] |]; mstep_in H.
  2: { cbn [is_HTTPException] in H. mstep_in H. injection H as <- _. reflexivity. }
  all: match type of H with context [3 <=? ?d] => destruct (3 <=? d) end; mstep_in H.
  all: try (cbn [is_HTTPException] in H; mstep_in H; injection H as <- _; reflexivity).
  all: destruct (usage_row usage_data !! lit "monthly_conversions") as [[monthly |] |];
    mstep_in H.
  all: try match type of H with context [30 <=? ?m] => destruct (30 <=? m) end; mstep_in H.
  all: try discriminate.
  all: cbn [is_HTTPException] in H; mstep_in H; injection H as <- _; reflexivity.
Qed.

Lemma notify_world creds public_url conversion_type w :
  notify env creds public_url conversion_type w =
    (Ok tt, snd (send_resume_conversion_notification env creds public_url
                   (lit conversion_type) w)).
Proof.
  unfold notify, send_resume_conversion_notification, send_resume_conversion_email.
  unfold_monad.
  destruct (get_email_from_jwt env creds) as [user_email |]; mstep; [| reflexivity].
  destruct (get_resume_conversion_email_template env public_url (lit conversion_type))
    as [subject html]. mstep.
  destruct (emails_send env _ w) as [[] | e]; reflexivity.
Qed.

Lemma increment_user_usage_world user_id daily monthly w :
  increment_user_usage env user_id daily monthly w =
    (Ok tt, {| fs := fs w;
               trace := trace w ++ [UsageUpdate user_id (daily + 1) (monthly + 1)] |}).
Proof.
  unfold increment_user_usage. unfold_monad.
  destruct (usage_update env user_id (daily + 1) (monthly + 1) w) as [[] | e]; reflexivity.
Qed.

Lemma convert_to_latex_outcome creds file w r w' :
  convert_to_latex_endpoint env creds file w = (r, w') ->
  (exists e, r = Raise e /\ is_HTTPException e = true /\ appends before_update w w') \/
  (exists user_id daily monthly pdf pdf_filename w4 public_url wb,
     latex_compiled env creds file w user_id daily monthly pdf pdf_filename w4 /\
     conversion_completed env creds "resume" user_id pdf_filename w4 public_url wb /\
     r = Ok (ResumeLinkResponse public_url) /\
     w' = {| fs := fs wb;
             trace := trace wb ++ [UsageUpdate user_id (daily + 1) (monthly + 1)] |}).
Proof.
  intros H.
  unfold convert_to_latex_endpoint in H. unfold_monad_in H.
  destruct (get_user_id_from_jwt env creds) as [user_id | e] eqn:Hauth.
  2: { injection H as <- <-. left. exists e.
       eauto using get_user_id_from_jwt_raises, appends_refl. }
  pose proof (appends_weaken _ _ _ _ before_storage_update
                (emits_check_user_usage_limits env user_id w)) as E1.
  destruct (check_user_usage_limits env user_id w) as [[[daily monthly] | e] w1] eqn:Hquota;
    cbn [snd] in E1.
  2: { injection H as <- <-. left. exists e.
       eauto using check_user_usage_limits_raises. }
  mstep_in H.
  destruct (nonempty_filename file) as [name |];
    [| failed_http H; left; eexists; eauto].
  destruct (negb _); [failed_http H; left; eexists; eauto |].
  pose proof (appends_weaken _ _ _ _ before_storage_update
                (emits_extract_text_from_file env file w1)) as E2.
  destruct (extract_text_from_file env file w1) as [[text | e] w2] eqn:Hextract;
    cbn [snd] in E2;
    [| failed_http H; left; eexists; eauto 6 using appends_trans].
  pose proof (appends_weaken _ _ _ _ before_storage_update
                (emits_generate_latex_resume env text (latex_conversion_chain env) w2))
    as E3.
  destruct (generate_latex_resume env text (latex_conversion_chain env) w2)
    as [[latex | e] w3] eqn:Hgenerate;
    cbn [snd] in E3;
    [| failed_http H; left; eexists; eauto 6 using appends_trans].
  pose proof (appends_weaken _ _ _ _ before_storage_update
                (emits_convert_latex_to_pdf env latex w3)) as E4.
  destruct (convert_latex_to_pdf env latex w3) as [[[pdf pdf_filename] | e] w4] eqn:Hcompile;
    cbn [snd] in E4;
    [| failed_http H; left; eexists; eauto 7 using appends_trans].
  pose proof (emits_upload_pdf_to_bucket env
                (posixpath.join (getcwd env) [lit "latex_output"; pdf_filename])
                pdf_filename w4) as E5.
  destruct (upload_pdf_to_bucket env _ pdf_filename w4) as [[public_url | e] w5] eqn:Hupload;
    cbn [snd] in E5;
    [| failed_http H; left; eexists; eauto 8 using appends_trans].
  pose proof (emits_insert_resume_record env public_url user_id w5) as E6.
  destruct (insert_resume_record env public_url user_id w5) as [[[] | e] w6] eqn:Hinsert;
    cbn [snd] in E6;
    [| failed_http H; left; eexists; eauto 9 using appends_trans].
  rewrite notify_world in H. mstep_in H.
  destruct (cleanup_world env
              (posixpath.join (getcwd env) [lit "latex_output"]) pdf_filename
              (snd (send_resume_conversion_notification env creds public_url
                      (lit "resume") w6))) as (wb & Hcleanup & _).
  rewrite Hcleanup in H. mstep_in H.
  rewrite increment_user_usage_world in H. mstep_in H. injection H as <- <-.
  right. exists user_id, daily, monthly, pdf, pdf_filename, w4, public_url, wb.
  split; [unfold latex_compiled; eauto 10 |].
  split; [exists w6; split; [exists w5; auto | exact Hcleanup] |].
  auto.
Qed.

Lemma with_pdf_at_trace path pdf w4 : trace (with_pdf_at path pdf w4) = trace w4.
Proof. unfold with_pdf_at. now destruct (bool_decide _). Qed.

Lemma convert_json_to_latex_outcome resume_data creds w r w' :
  convert_json_to_latex_endpoint env resume_data creds w = (r, w') ->
  (exists e, r = Raise e /\ is_HTTPException e = true /\ appends before_update w w') \/
  (exists user_id daily monthly pdf pdf_filename w4 public_url wb,
     json_compiled env resume_data creds w user_id daily monthly pdf pdf_filename w4 /\
     conversion_completed env creds "json" user_id pdf_filename
       (with_pdf_at (posixpath.join (getcwd env) [lit "latex_output"; pdf_filename])
          pdf w4)
       public_url wb /\
     r = Ok (JsonToLatexResponse (lit "Resume converted successfully from JSON.")
               (Some public_url) (Some pdf_filename)) /\
     w' = {| fs := fs wb;
             trace := trace wb ++ [UsageUpdate user_id (daily + 1) (monthly + 1)] |}).
Proof.
  intros H.
  unfold convert_json_to_latex_endpoint in H. unfold_monad_in H.
  destruct (get_user_id_from_jwt env creds) as [user_id | e] eqn:Hauth.
  2: { injection H as <- <-. left. exists e.
       eauto using get_user_id_from_jwt_raises, appends_refl. }
  pose proof (appends_weaken _ _ _ _ before_storage_update
                (emits_check_user_usage_limits env user_id w)) as E1.
  destruct (check_user_usage_limits env user_id w) as [[[daily monthly] | e] w1] eqn:Hquota;
    cbn [snd] in E1.
  2: { injection H as <- <-. left. exists e.
       eauto using check_user_usage_limits_raises. }
  mstep_in H.
  destruct (latex_conversion_chain env) as [c |] eqn:Hchain;
    [| injection H as <- <-; left; eexists; eauto].
  pose proof (appends_weaken _ _ _ _ before_storage_update
                (emits_generate_latex_resume env (model_dump_json env resume_data)
                   (Some c) w1)) as E3.
  destruct (generate_latex_resume env (model_dump_json env resume_data) (Some c) w1)
    as [[latex | e] w3] eqn:Hgenerate;
    cbn [snd] in E3;
    [| failed_http H; left; eexists; eauto 6 using appends_trans].
  pose proof (appends_weaken _ _ _ _ before_storage_update
                (emits_convert_latex_to_pdf env latex w3)) as E4.
  destruct (convert_latex_to_pdf env latex w3) as [[[pdf pdf_filename] | e] w4] eqn:Hcompile;
    cbn [snd] in E4;
    [| failed_http H; left; eexists; eauto 7 using appends_trans].
  mstep_in H. unfold path_exists in H. mstep_in H.
  set (local := posixpath.join (posixpath.join (getcwd env) [lit "latex_output"])
                  [pdf_filename]) in H.
  assert (Hfallback :
            (if bool_decide (is_Some (fs w4 !! local))
             then mret tt else write_binary local pdf) w4
            = (Ok tt, with_pdf_at local pdf w4)).
  { unfold with_pdf_at. destruct (bool_decide _); reflexivity. }
  unfold mret, M_ret, ret in Hfallback. rewrite Hfallback in H. mstep_in H.
  pose proof (with_pdf_at_trace local pdf w4) as Htrace.
  set (w4' := with_pdf_at local pdf w4) in *.
  pose proof (appends_same before_update _ _ Htrace) as E4'.
  pose proof (emits_upload_pdf_to_bucket env local pdf_filename w4') as E5.
  destruct (upload_pdf_to_bucket env local pdf_filename w4') as [[public_url | e] w5]
    eqn:Hupload;
    cbn [snd] in E5;
    [| failed_http H; left; eexists; eauto 9 using appends_trans].
  pose proof (emits_insert_resume_record env public_url user_id w5) as E6.
  destruct (insert_resume_record env public_url user_id w5) as [[[] | e] w6] eqn:Hinsert;
    cbn [snd] in E6;
    [| failed_http H; left; eexists; eauto 10 using appends_trans].
  rewrite notify_world in H. mstep_in H.
  destruct (cleanup_world env
              (posixpath.join (getcwd env) [lit "latex_output"]) pdf_filename
              (snd (send_resume_conversion_notification env creds public_url
                      (lit "json") w6))) as (wb & Hcleanup & _).
  rewrite Hcleanup in H. mstep_in H.
  rewrite increment_user_usage_world in H. mstep_in H. injection H as <- <-.
  right. exists user_id, daily, monthly, pdf, pdf_filename, w4, public_url, wb.
  split; [unfold json_compiled; eauto 10 |].
  split; [| auto].
  exists w6. split; [exists w5; split; [exact Hupload | exact Hinsert] | exact Hcleanup].
Qed.

Lemma emits_generate_tailored_resume resume_content job_description c :
  emits before_storage (generate_tailored_resume env resume_content job_description c).
Proof. unfold generate_tailored_resume. emits_auto. Qed.

Lemma tailor_resume_outcome creds job_description file w r w' :
  tailor_resume_endpoint env creds job_description file w = (r, w') ->
  (exists e, r = Raise e /\ is_HTTPException e = true /\ appends before_storage w w') \/
  (exists user_id daily monthly name text tailored w3,
     tailoring_done env creds job_description file w user_id daily monthly name text tailored w3 /\
     appends before_storage w w3 /\
     r = Ok (TailoredResumeResponse name (len text) (len job_description) tailored) /\
     w' = {| fs := fs w3;
             trace := trace w3 ++ [UsageUpdate user_id (daily + 1) (monthly + 1)] |}).
Proof.
  intros H.
  unfold tailor_resume_endpoint in H. unfold_monad_in H.
  destruct (get_user_id_from_jwt env creds) as [user_id | e] eqn:Hauth.
  2: { injection H as <- <-. left. exists e.
       eauto using get_user_id_from_jwt_raises, appends_refl. }
  pose proof (emits_check_user_usage_limits env user_id w) as E1.
  destruct (check_user_usage_limits env user_id w) as [[[daily monthly] | e] w1] eqn:Hquota;
    cbn [snd] in E1.
  2: { injection H as <- <-. left. exists e.
       eauto using check_user_usage_limits_raises. }
  mstep_in H.
  destruct (nonempty_filename file) as [name |] eqn:Hname;
    [| injection H as <- <-; left; eexists; eauto].
  pose proof (emits_extract_text_from_file env file w1) as E2.
  destruct (extract_text_from_file env file w1) as [[text | e] w2] eqn:Hextract;
    cbn [snd] in E2;
    [| failed_http H; left; eexists; eauto 6 using appends_trans].
  destruct (resume_tailoring_chain env) as [c |] eqn:Hchain;
    [| failed_http H; left; eexists; eauto 6 using appends_trans].
  pose proof (emits_generate_tailored_resume text job_description c w2) as E3.
  destruct (generate_tailored_resume env text job_description c w2)
    as [[tailored | e] w3] eqn:Hgenerate;
    cbn [snd] in E3;
    [| failed_http H; left; eexists; eauto 7 using appends_trans].
  rewrite increment_user_usage_world in H. mstep_in H. injection H as <- <-.
  right. exists user_id, daily, monthly, name, text, tailored, w3.
  split; [unfold tailoring_done; eauto 10 |].
  eauto 6 using appends_trans.
Qed.

(** *** The calls of a completed conversion *)

Lemma upload_pdf_to_bucket_ok_inv file_path dest_filename w public_url w' :
  upload_pdf_to_bucket env file_path dest_filename w = (Ok public_url, w') ->
  exists data,
    fs w !! file_path = Some data /\
    w' = {| fs := fs w; trace := trace w ++ [BucketUpload dest_filename data] |} /\
    bucket_upload env dest_filename data w = Ok tt /\
    get_public_url env dest_filename w' = Ok public_url.
Proof.
  intros H. unfold upload_pdf_to_bucket, read_binary in H. unfold_monad_in H.
  destruct (fs w !! file_path) as [data |] eqn:Hfile; mstep_in H; [| discriminate].
  destruct (bucket_upload env dest_filename data w) as [[] | e] eqn:Hup; mstep_in H;
    [| discriminate].
  destruct (get_public_url env dest_filename _) as [url | e] eqn:Hurl; mstep_in H;
    [| discriminate].
  injection H as <- <-. exists data. auto.
Qed.

Lemma insert_resume_record_ok_inv resume_link user_id w w' :
  insert_resume_record env resume_link user_id w = (Ok tt, w') ->
  w' = {| fs := fs w;
          trace := trace w ++ [TableInsert (resume_record env resume_link user_id w)] |}.
Proof.
  intros H. unfold insert_resume_record in H. unfold_monad_in H.
  destruct (table_insert env _ w) as [[] | e]; mstep_in H; [| discriminate].
  now injection H as <-.
Qed.

Lemma send_resume_conversion_notification_world creds resume_link conversion_type w :
  snd (send_resume_conversion_notification env creds resume_link conversion_type w) =
    {| fs := fs w;
       trace := trace w ++ notification_mails env creds resume_link conversion_type |}.
Proof.
  unfold send_resume_conversion_notification, send_resume_conversion_email,
    notification_mails, notification_params. unfold_monad.
  destruct (get_email_from_jwt env creds) as [user_email |]; mstep.
  - cbn [get_resume_conversion_email_template fst snd].
    match goal with |- context [emails_send env ?p w] =>
      destruct (emails_send env p w) as [[] | e] end; reflexivity.
  - rewrite app_nil_r. now destruct w.
Qed.

Lemma conversion_completed_inv creds conversion_type user_id pdf_filename w4
    public_url wb :
  conversion_completed env creds conversion_type user_id pdf_filename w4 public_url wb ->
  let local := posixpath.join (getcwd env) [lit "latex_output"; pdf_filename] in
  let latex_output_dir := posixpath.join (getcwd env) [lit "latex_output"] in
  exists data,
    fs w4 !! local = Some data /\
    get_public_url env pdf_filename
      {| fs := fs w4; trace := trace w4 ++ [BucketUpload pdf_filename data] |}
    = Ok public_url /\
    trace wb = trace w4 ++
      [BucketUpload pdf_filename data;
       TableInsert (resume_record env public_url user_id
                      {| fs := fs w4;
                         trace := trace w4 ++ [BucketUpload pdf_filename data] |})]
      ++ notification_mails env creds public_url (lit conversion_type) /\
    ((forall p w0, p ∈ cleanup_paths latex_output_dir pdf_filename ->
                   os_remove env p w0 = Ok tt) ->
     forall p, p ∈ cleanup_paths latex_output_dir pdf_filename -> fs wb !! p = None).
Proof.
  intros (w6 & (w5 & Hupload & Hinsert) & Hcleanup) local latex_output_dir.
  apply upload_pdf_to_bucket_ok_inv in Hupload as (data & Hfile & -> & _ & Hurl).
  apply insert_resume_record_ok_inv in Hinsert as ->.
  rewrite send_resume_conversion_notification_world in Hcleanup.
  fold latex_output_dir in Hcleanup.
  match type of Hcleanup with
  | cleanup _ _ _ ?wa = _ =>
      destruct (cleanup_world env latex_output_dir pdf_filename wa)
        as (wb' & Hcleanup' & Htrace & _ & Hgone)
  end.
  rewrite Hcleanup' in Hcleanup.
  injection Hcleanup as <-. cbn [fs trace] in *.
  exists data. split; [exact Hfile |]. split; [exact Hurl |].
  split; [rewrite Htrace; now rewrite <- !app_assoc | exact Hgone].
Qed.

Lemma convert_latex_to_pdf_ok_paths latex_content w pdf pdf_filename w' :
  convert_latex_to_pdf env latex_content w = (Ok (pdf, pdf_filename), w') ->
  let output_dir := posixpath.join (getcwd env) [lit "latex_output"] in
  let tex_path := posixpath.join output_dir [uuid4 env w ++ lit ".tex"] in
  pdf_filename = fst (get_pdf_and_tex_filenames tex_path) /\
  fs w' !! snd (get_pdf_and_tex_filenames tex_path) = Some pdf /\
  pdf <> [] /\
  trace w' = trace w ++ [RunPdflatex (build_pdflatex_command tex_path output_dir) output_dir].
Proof.
  intros H output_dir tex_path.
  unfold convert_latex_to_pdf, write_latex_to_file, write_binary in H.
  unfold_monad_in H. fold output_dir in H. fold tex_path in H.
  destruct (encode_utf8 latex_content) as [data |]; mstep_in H; [| discriminate].
  destruct (get_pdf_and_tex_filenames tex_path) as [name pdf_path].
  unfold run_pdflatex_command in H. unfold_monad_in H.
  destruct (pdflatex env _ _ _) as [[process | e] files]; [| raised H].
  mstep_in H. unfold path_exists, getsize, read_pdf_file, read_binary in H.
  cbn [fs trace] in H.
  destruct (files !! pdf_path) as [content |] eqn:Hfile.
  - rewrite bool_decide_eq_true_2 in H by eauto. mstep_in H.
    cbn [fs trace] in H. rewrite Hfile in H. mstep_in H.
    destruct content as [| b content].
    + change (0 <? len []) with false in H. mstep_in H. discriminate.
    + rewrite len_cons_positive in H. mstep_in H.
      cbn [fs trace] in H. rewrite Hfile in H.
      mstep_in H. injection H as <- <- <-. cbn [fst snd fs trace].
      repeat split; [exact Hfile | discriminate].
  - rewrite bool_decide_eq_false_2 in H by (intros [x Hx]; discriminate).
    mstep_in H. discriminate.
Qed.

Lemma events_between_app w w' evs :
  trace w' = trace w ++ evs -> events_between w w' = evs.
Proof. intros H. unfold events_between. now rewrite H, drop_app_length. Qed.

Lemma check_user_usage_limits_ok_bounds user_id w daily monthly w' :
  check_user_usage_limits env user_id w = (Ok (daily, monthly), w') ->
  daily < 3 /\ monthly < 30.
Proof.
  intros H. unfold check_user_usage_limits in H. unfold_monad_in H.
  destruct (usage_select env user_id w) as [usage_data | e]; mstep_in H; [| raised H].
  destruct (counter _ (lit "daily_conversions")) as [d | e]; mstep_in H; [| raised H].
  destruct (Z.leb_spec 3 d); mstep_in H; [discriminate |].
  destruct (counter _ (lit "monthly_conversions")) as [m | e]; mstep_in H; [| raised H].
  destruct (Z.leb_spec 30 m); mstep_in H; [discriminate |].
  injection H as <- <- _. auto.
Qed.

(** X11: a request that fails is answered with an [HTTPException], whatever
    went wrong and in whichever collaborator, and is not counted: its
    run holds no update of the usage counters. *)
Theorem failed_requests_raise_http_and_are_not_counted :
  (forall creds job_description file w e,
     let run := tailor_resume_endpoint env creds job_description file w in
     fst run = Raise e ->
     is_HTTPException e = true /\
     existsb is_usage_update (events_between w (snd run)) = false) /\
  (forall creds file w e,
     let run := convert_to_latex_endpoint env creds file w in
     fst run = Raise e ->
     is_HTTPException e = true /\
     existsb is_usage_update (events_between w (snd run)) = false) /\
  (forall resume_data creds w e,
     let run := convert_json_to_latex_endpoint env resume_data creds w in
     fst run = Raise e ->
     is_HTTPException e = true /\
     existsb is_usage_update (events_between w (snd run)) = false).
Proof.
  split; [| split].
  - intros creds job_description file w e run Hraise. subst run.
    destruct (tailor_resume_endpoint env creds job_description file w) as [r w'] eqn:Hrun.
    cbn [fst snd] in *. subst r.
    apply tailor_resume_outcome in Hrun
      as [(e' & [= <-] & Hhttp & Happ) | (? & ? & ? & ? & ? & ? & ? & _ & _ & [=] & _)].
    split; [exact Hhttp |].
    exact (appends_no_event _ _ _ _ before_storage_no_update Happ).
  - intros creds file w e run Hraise. subst run.
    destruct (convert_to_latex_endpoint env creds file w) as [r w'] eqn:Hrun.
    cbn [fst snd] in *. subst r.
    apply convert_to_latex_outcome in Hrun
      as [(e' & [= <-] & Hhttp & Happ) | (? & ? & ? & ? & ? & ? & ? & ? & _ & _ & [=] & _)].
    split; [exact Hhttp |].
    exact (appends_no_event _ _ _ _ before_update_no_update Happ).
  - intros resume_data creds w e run Hraise. subst run.
    destruct (convert_json_to_latex_endpoint env resume_data creds w) as [r w'] eqn:Hrun.
    cbn [fst snd] in *. subst r.
    apply convert_json_to_latex_outcome in Hrun
      as [(e' & [= <-] & Hhttp & Happ) | (? & ? & ? & ? & ? & ? & ? & ? & _ & _ & [=] & _)].
    split; [exact Hhttp |].
    exact (appends_no_event _ _ _ _ before_update_no_update Happ).
Qed.

(** X12: the calls of a successful [/convert-latex] request, in order:
    calls that store nothing, then one upload, one insertion of the
    record with the link and the caller's id, the mail if any, and last
    one update of the counters to the values that the gate has read,
    plus one, which do not exceed the limits. The link of the response
    is the one the bucket gives for the uploaded name. *)
Theorem convert_to_latex_success_calls creds file w resp :
  let run := convert_to_latex_endpoint env creds file w in
  fst run = Ok resp ->
  exists user_id daily monthly pdf pdf_filename w4 public_url data before,
    let w5 := {| fs := fs w4; trace := trace w4 ++ [BucketUpload pdf_filename data] |} in
    get_user_id_from_jwt env creds = Ok user_id /\
    fst (check_user_usage_limits env user_id w) = Ok (daily, monthly) /\
    latex_compiled env creds file w user_id daily monthly pdf pdf_filename w4 /\
    get_public_url env pdf_filename w5 = Ok public_url /\
    resp = ResumeLinkResponse public_url /\
    daily + 1 <= 3 /\ monthly + 1 <= 30 /\
    forallb before_storage before = true /\
    events_between w (snd run) =
      before
      ++ [BucketUpload pdf_filename data;
          TableInsert (resume_record env public_url user_id w5)]
      ++ notification_mails env creds public_url (lit "resume")
      ++ [UsageUpdate user_id (daily + 1) (monthly + 1)].
Proof.
  intros run Hok. subst run.
  destruct (convert_to_latex_endpoint env creds file w) as [r w'] eqn:Hrun.
  cbn [fst snd] in *. subst r.
  apply convert_to_latex_outcome in Hrun
    as [(e & [=] & _) |
        (user_id & daily & monthly & pdf & pdf_filename & w4 & public_url & wb
         & Hcompiled & Hcompleted & [= ->] & ->)].
  destruct (latex_compiled_appends env _ _ _ _ _ _ _ _ _ Hcompiled)
    as (before & Hbefore & Hquiet).
  destruct (conversion_completed_inv _ _ _ _ _ _ _ Hcompleted)
    as (data & _ & Hurl & Htrace & _).
  pose proof Hcompiled as (w1 & ? & ? & ? & ? & Hauth & Hquota & _).
  pose proof (check_user_usage_limits_ok_bounds _ _ _ _ _ Hquota) as [Hd Hm].
  exists user_id, daily, monthly, pdf, pdf_filename, w4, public_url, data, before.
  cbv zeta. rewrite Hquota.
  repeat split; [exact Hauth | exact Hcompiled | exact Hurl | lia | lia | exact Hquiet |].
  apply events_between_app. cbn [trace].
  rewrite Htrace, Hbefore. now rewrite <- !app_assoc.
Qed.

(** X13: the calls of a successful [/convert-json-to-latex] request, in
    the same order, with the counters updated to the values read plus
    one; the file name in the response is the name of the uploaded
    object, and the link the one the bucket gives for it. *)
Theorem convert_json_to_latex_success_calls resume_data creds w resp :
  let run := convert_json_to_latex_endpoint env resume_data creds w in
  fst run = Ok resp ->
  exists user_id daily monthly pdf pdf_filename w4 public_url data before,
    let w5 := {| fs := fs w4; trace := trace w4 ++ [BucketUpload pdf_filename data] |} in
    get_user_id_from_jwt env creds = Ok user_id /\
    fst (check_user_usage_limits env user_id w) = Ok (daily, monthly) /\
    json_compiled env resume_data creds w user_id daily monthly pdf pdf_filename w4 /\
    get_public_url env pdf_filename
      {| fs := fs (with_pdf_at
                     (posixpath.join (getcwd env) [lit "latex_output"; pdf_filename])
                     pdf w4);
         trace := trace w5 |} = Ok public_url /\
    resp = JsonToLatexResponse (lit "Resume converted successfully from JSON.")
             (Some public_url) (Some pdf_filename) /\
    daily + 1 <= 3 /\ monthly + 1 <= 30 /\
    forallb before_storage before = true /\
    events_between w (snd run) =
      before
      ++ [BucketUpload pdf_filename data;
          TableInsert
            (resume_record env public_url user_id
               {| fs := fs (with_pdf_at
                              (posixpath.join (getcwd env) [lit "latex_output"; pdf_filename])
                              pdf w4);
                  trace := trace w5 |})]
      ++ notification_mails env creds public_url (lit "json")
      ++ [UsageUpdate user_id (daily + 1) (monthly + 1)].
Proof.
  intros run Hok. subst run.
  destruct (convert_json_to_latex_endpoint env resume_data creds w) as [r w'] eqn:Hrun.
  cbn [fst snd] in *. subst r.
  apply convert_json_to_latex_outcome in Hrun
    as [(e & [=] & _) |
        (user_id & daily & monthly & pdf & pdf_filename & w4 & public_url & wb
         & Hcompiled & Hcompleted & [= ->] & ->)].
  destruct (json_compiled_appends env _ _ _ _ _ _ _ _ _ Hcompiled)
    as (before & Hbefore & Hquiet).
  destruct (conversion_completed_inv _ _ _ _ _ _ _ Hcompleted)
    as (data & _ & Hurl & Htrace & _).
  rewrite with_pdf_at_trace in Hurl, Htrace.
  pose proof Hcompiled as (w1 & ? & ? & ? & Hauth & Hquota & _).
  pose proof (check_user_usage_limits_ok_bounds _ _ _ _ _ Hquota) as [Hd Hm].
  exists user_id, daily, monthly, pdf, pdf_filename, w4, public_url, data, before.
  cbv zeta. cbn [trace]. rewrite Hquota.
  repeat split; [exact Hauth | exact Hcompiled | exact Hurl | lia | lia | exact Hquiet |].
  apply events_between_app. cbn [trace].
  rewrite Htrace, Hbefore. now rewrite <- !app_assoc.
Qed.

(** *** Handlers that leave the local files alone *)

Lemma keeps_files_bind {A B} (m : M A) (k : A -> M B) :
  keeps_files m -> (forall a, keeps_files (k a)) -> keeps_files (m ≫= k).
Proof.
  intros Hm Hk w. specialize (Hm w). unfold_monad.
  destruct (m w) as [[a | e] w1]; cbn [snd] in *; [| exact Hm].
  now rewrite Hk.
Qed.

Lemma keeps_files_try_except {A} (m : M A) (h : exn -> M A) :
  keeps_files m -> (forall e, keeps_files (h e)) -> keeps_files (try_except m h).
Proof.
  intros Hm Hh w. specialize (Hm w). unfold try_except.
  destruct (m w) as [[a | e] w1]; cbn [snd] in *; [exact Hm |].
  now rewrite Hh.
Qed.

Ltac keeps_files_step :=
  lazymatch goal with
  | |- keeps_files (mret _) => now intros ?
  | |- keeps_files (ret _) => now intros ?
  | |- keeps_files (raise _) => now intros ?
  | |- keeps_files (lift _) => now intros ?
  | |- keeps_files (call _ _) => now intros ?
  | |- keeps_files (fun w => (_, w)) => now intros ?
  | |- keeps_files (_ ≫= _) => apply keeps_files_bind; [| intros ?]
  | |- keeps_files (try_except _ _) => apply keeps_files_try_except; [| intros ?]
  | |- keeps_files (if ?b then _ else _) => destruct b
  | |- keeps_files (match ?x with _ => _ end) => destruct x
  end.

Lemma keeps_files_extract_text_from_file file :
  keeps_files (extract_text_from_file env file).
Proof.
  unfold extract_text_from_file, extract_pdf, extract_word, extract_plain.
  repeat keeps_files_step.
Qed.





(** *** What is uploaded, and what is left on the disk *)

Lemma cleanup_paths_plain cwd unique_id :
  unique_id <> [] -> SLASH ∉ unique_id -> DOT ∉ unique_id ->
  let output_dir := posixpath.join cwd [lit "latex_output"] in
  cleanup_paths output_dir (unique_id ++ lit ".pdf") =
    map (fun ext => output_dir ++ [SLASH] ++ unique_id ++ ext)
        [lit ".pdf"; lit ".tex"; lit ".aux"; lit ".log"; lit ".out"].
Proof.
  intros Hne Hslash Hdot output_dir. unfold cleanup_paths.
  change (lit ".pdf") with (DOT :: lit "pdf") at 1.
  rewrite splitext_plain; [| assumption | assumption | assumption | |];
    [| apply (proj1 (bool_decide_eq_false _)); vm_compute; reflexivity ..].
  cbn [fst map]. subst output_dir.
  assert (Hext : forall ext : string,
             bool_decide (SLASH ∈ lit ext) = false -> SLASH ∉ unique_id ++ lit ext)
    by (intros ext; now apply not_elem_of_app_lit).
  rewrite !latex_output_file by (apply Hext; vm_compute; reflexivity).
  reflexivity.
Qed.

(** The PDF path of a conversion that has compiled, in the deployment's
    working directory. *)
Lemma compiled_pdf_is_local latex w3 pdf pdf_filename w4 :
  SLASH ∉ uuid4 env w3 ->
  convert_latex_to_pdf env latex w3 = (Ok (pdf, pdf_filename), w4) ->
  fs w4 !! posixpath.join (getcwd env) [lit "latex_output"; pdf_filename] = Some pdf /\
  pdf <> [] /\
  (uuid4 env w3 <> [] -> DOT ∉ uuid4 env w3 ->
   pdf_filename = uuid4 env w3 ++ lit ".pdf").
Proof.
  intros Hslash Hcompile.
  destruct (convert_latex_to_pdf_ok_paths _ _ _ _ _ Hcompile)
    as (Hname & Hfile & Hpdf & _).
  pose proof (pdf_path_plain env _ Hslash) as Hpath. cbv zeta in Hpath.
  rewrite <- Hname in Hpath.
  assert (Hsep : SLASH ∉ pdf_filename)
    by (rewrite Hname; now apply pdf_filename_no_separator).
  change (posixpath.join (getcwd env) [lit "latex_output"; pdf_filename])
    with (posixpath.join (posixpath.join (getcwd env) [lit "latex_output"]) [pdf_filename]).
  rewrite (latex_output_file _ _ Hsep), <- Hpath.
  split; [exact Hfile |]. split; [exact Hpdf |].
  intros Hne Hdot. rewrite Hname. now apply pdf_filename_plain.
Qed.

(** X15: with identifiers that hold no separator, what a successful
    conversion uploads under the returned name is the PDF that the
    compiler left, byte for byte; and in [/convert-json-to-latex] the
    file is always there, so the fallback never writes. *)
Theorem successful_conversion_uploads_the_compiled_pdf :
  (forall w0, SLASH ∉ uuid4 env w0) ->
  (forall creds file w resp,
     let run := convert_to_latex_endpoint env creds file w in
     fst run = Ok resp ->
     exists user_id daily monthly pdf pdf_filename w4,
       latex_compiled env creds file w user_id daily monthly pdf pdf_filename w4 /\
       pdf <> [] /\
       BucketUpload pdf_filename pdf ∈ events_between w (snd run)) /\
  (forall resume_data creds w resp,
     let run := convert_json_to_latex_endpoint env resume_data creds w in
     fst run = Ok resp ->
     exists user_id daily monthly pdf pdf_filename w4,
       json_compiled env resume_data creds w user_id daily monthly pdf pdf_filename w4 /\
       pdf <> [] /\
       with_pdf_at (posixpath.join (getcwd env) [lit "latex_output"; pdf_filename])
         pdf w4 = w4 /\
       BucketUpload pdf_filename pdf ∈ events_between w (snd run)).
Proof.
  intros Huuid. split.
  - intros creds file w resp run Hok. subst run.
    destruct (convert_to_latex_endpoint env creds file w) as [r w'] eqn:Hrun.
    cbn [fst snd] in *. subst r.
    apply convert_to_latex_outcome in Hrun
      as [(e & [=] & _) |
          (user_id & daily & monthly & pdf & pdf_filename & w4 & public_url & wb
           & Hcompiled & Hcompleted & _ & ->)].
    destruct (latex_compiled_appends env _ _ _ _ _ _ _ _ _ Hcompiled)
      as (before & Hbefore & _).
    destruct (conversion_completed_inv _ _ _ _ _ _ _ Hcompleted)
      as (data & Hdata & _ & Htrace & _).
    exists user_id, daily, monthly, pdf, pdf_filename, w4.
    split; [exact Hcompiled |].
    destruct Hcompiled as (w1 & text & w2 & latex & w3 & _ & _ & _ & _ & Hcompile).
    destruct (compiled_pdf_is_local _ _ _ _ _ (Huuid w3) Hcompile) as (Hlocal & Hpdf & _).
    rewrite Hlocal in Hdata. injection Hdata as <-.
    split; [exact Hpdf |].
    rewrite (events_between_app w _ (before ++ [BucketUpload pdf_filename pdf;
               TableInsert (resume_record env public_url user_id
                 {| fs := fs w4; trace := trace w4 ++ [BucketUpload pdf_filename pdf] |})]
               ++ notification_mails env creds public_url (lit "resume")
               ++ [UsageUpdate user_id (daily + 1) (monthly + 1)])).
    + rewrite elem_of_app. right. left.
    + cbn [trace]. rewrite Htrace, Hbefore. now rewrite <- !app_assoc.
  - intros resume_data creds w resp run Hok. subst run.
    destruct (convert_json_to_latex_endpoint env resume_data creds w) as [r w'] eqn:Hrun.
    cbn [fst snd] in *. subst r.
    apply convert_json_to_latex_outcome in Hrun
      as [(e & [=] & _) |
          (user_id & daily & monthly & pdf & pdf_filename & w4 & public_url & wb
           & Hcompiled & Hcompleted & _ & ->)].
    destruct (json_compiled_appends env _ _ _ _ _ _ _ _ _ Hcompiled)
      as (before & Hbefore & _).
    exists user_id, daily, monthly, pdf, pdf_filename, w4.
    split; [exact Hcompiled |].
    destruct Hcompiled as (w1 & c & latex & w3 & _ & _ & _ & _ & Hcompile).
    destruct (compiled_pdf_is_local _ _ _ _ _ (Huuid w3) Hcompile) as (Hlocal & Hpdf & _).
    assert (Hsame : with_pdf_at (posixpath.join (getcwd env) [lit "latex_output"; pdf_filename])
                      pdf w4 = w4).
    { unfold with_pdf_at. rewrite Hlocal. now rewrite bool_decide_eq_true_2 by eauto. }
    rewrite Hsame in Hcompleted.
    destruct (conversion_completed_inv _ _ _ _ _ _ _ Hcompleted)
      as (data & Hdata & _ & Htrace & _).
    rewrite Hlocal in Hdata. injection Hdata as <-.
    split; [exact Hpdf |]. split; [exact Hsame |].
    rewrite (events_between_app w _ (before ++ [BucketUpload pdf_filename pdf;
               TableInsert (resume_record env public_url user_id
                 {| fs := fs w4; trace := trace w4 ++ [BucketUpload pdf_filename pdf] |})]
               ++ notification_mails env creds public_url (lit "json")
               ++ [UsageUpdate user_id (daily + 1) (monthly + 1)])).
    + rewrite elem_of_app. right. left.
    + cbn [trace]. rewrite Htrace, Hbefore. now rewrite <- !app_assoc.
Qed.

Lemma compiled_run_in_trace latex w3 pdf pdf_filename w4 :
  SLASH ∉ uuid4 env w3 ->
  convert_latex_to_pdf env latex w3 = (Ok (pdf, pdf_filename), w4) ->
  let output_dir := posixpath.join (getcwd env) [lit "latex_output"] in
  trace w4 = trace w3 ++
    [RunPdflatex
       (build_pdflatex_command (output_dir ++ [SLASH] ++ uuid4 env w3 ++ lit ".tex")
          output_dir) output_dir].
Proof.
  intros Hslash Hcompile output_dir.
  destruct (convert_latex_to_pdf_ok_paths _ _ _ _ _ Hcompile) as (_ & _ & _ & Htrace).
  now rewrite (tex_path_plain env _ Hslash) in Htrace.
Qed.

(** The two conversion handlers from the compilation on: the world [w3]
    in which the compiler is started, after calls [before3]. *)
Lemma latex_compiled_start creds file w user_id daily monthly pdf pdf_filename w4 :
  latex_compiled env creds file w user_id daily monthly pdf pdf_filename w4 ->
  exists latex w3 before3,
    convert_latex_to_pdf env latex w3 = (Ok (pdf, pdf_filename), w4) /\
    trace w3 = trace w ++ before3.
Proof.
  intros (w1 & text & w2 & latex & w3 & _ & Hquota & Hextract & Hgenerate & Hcompile).
  exists latex, w3.
  pose proof (emits_check_user_usage_limits env user_id w) as E1.
  pose proof (emits_extract_text_from_file env file w1) as E2.
  pose proof (emits_generate_latex_resume env text (latex_conversion_chain env) w2) as E3.
  rewrite Hquota in E1. rewrite Hextract in E2. rewrite Hgenerate in E3.
  cbn [snd] in *.
  destruct (appends_prefix _ _ _ (appends_trans _ _ _ _ E1 (appends_trans _ _ _ _ E2 E3)))
    as (before3 & Hbefore3).
  eauto.
Qed.

Lemma json_compiled_start resume_data creds w user_id daily monthly pdf pdf_filename w4 :
  json_compiled env resume_data creds w user_id daily monthly pdf pdf_filename w4 ->
  exists latex w3 before3,
    convert_latex_to_pdf env latex w3 = (Ok (pdf, pdf_filename), w4) /\
    trace w3 = trace w ++ before3.
Proof.
  intros (w1 & c & latex & w3 & _ & Hquota & _ & Hgenerate & Hcompile).
  exists latex, w3.
  pose proof (emits_check_user_usage_limits env user_id w) as E1.
  pose proof (emits_generate_latex_resume env (model_dump_json env resume_data)
                (Some c) w1) as E3.
  rewrite Hquota in E1. rewrite Hgenerate in E3. cbn [snd] in *.
  destruct (appends_prefix _ _ _ (appends_trans _ _ _ _ E1 E3)) as (before3 & Hbefore3).
  eauto.
Qed.

Lemma completed_conversion_is_clean creds conversion_type user_id w w3 before3 latex
    pdf pdf_filename w4 w4' public_url wb w' rest :
  (forall w0, uuid4 env w0 <> [] /\ (SLASH ∉ uuid4 env w0) /\ (DOT ∉ uuid4 env w0)) ->
  (forall p w0, os_remove env p w0 = Ok tt) ->
  trace w3 = trace w ++ before3 ->
  convert_latex_to_pdf env latex w3 = (Ok (pdf, pdf_filename), w4) ->
  trace w4' = trace w4 ->
  conversion_completed env creds conversion_type user_id pdf_filename w4' public_url wb ->
  fs w' = fs wb -> trace w' = trace wb ++ rest ->
  let output_dir := posixpath.join (getcwd env) [lit "latex_output"] in
  exists unique_id,
    RunPdflatex
      (build_pdflatex_command (output_dir ++ [SLASH] ++ unique_id ++ lit ".tex") output_dir)
      output_dir ∈ events_between w w' /\
    forall ext, ext ∈ [lit ".pdf"; lit ".tex"; lit ".aux"; lit ".log"; lit ".out"] ->
      fs w' !! (output_dir ++ [SLASH] ++ unique_id ++ ext) = None.
Proof.
  intros Huuid Hremove Hbefore3 Hcompile Hsame Hcompleted Hfs Htrace output_dir.
  destruct (Huuid w3) as (Hne & Hslash & Hdot).
  exists (uuid4 env w3).
  pose proof (compiled_run_in_trace _ _ _ _ _ Hslash Hcompile) as Hrun.
  destruct (compiled_pdf_is_local _ _ _ _ _ Hslash Hcompile) as (_ & _ & Hname).
  specialize (Hname Hne Hdot).
  destruct (conversion_completed_inv _ _ _ _ _ _ _ Hcompleted)
    as (data & _ & _ & Hb & Hgone).
  specialize (Hgone (fun p w0 _ => Hremove p w0)).
  split.
  - rewrite (events_between_app w w' (before3 ++ [RunPdflatex
               (build_pdflatex_command
                  (output_dir ++ [SLASH] ++ uuid4 env w3 ++ lit ".tex") output_dir)
               output_dir]
               ++ [BucketUpload pdf_filename data;
                   TableInsert (resume_record env public_url user_id
                     {| fs := fs w4';
                        trace := trace w4' ++ [BucketUpload pdf_filename data] |})]
               ++ notification_mails env creds public_url (lit conversion_type)
               ++ rest)).
    + rewrite !elem_of_app. right. left. left.
    + rewrite Htrace, Hb, Hsame, Hrun, Hbefore3. now rewrite <- !app_assoc.
  - intros ext Hext. rewrite Hfs. apply Hgone.
    pose proof (cleanup_paths_plain (getcwd env) _ Hne Hslash Hdot) as Hpaths.
    cbv zeta in Hpaths. rewrite Hname, Hpaths.
    apply (list_elem_of_fmap_2 (fun ext => output_dir ++ [SLASH] ++ uuid4 env w3 ++ ext)).
    exact Hext.
Qed.

(** X16: with identifiers that are not empty and hold neither a
    separator nor a dot (a UUID is one), and when no deletion is
    refused, a successful conversion leaves none of the files of its
    compiler run behind: neither the source, nor the PDF, nor the three
    by-products. (A refused deletion is only logged: the file stays
    and the request succeeds all the same.) *)
Theorem successful_conversion_leaves_no_working_file :
  (forall w0, uuid4 env w0 <> [] /\ (SLASH ∉ uuid4 env w0) /\ (DOT ∉ uuid4 env w0)) ->
  (forall p w0, os_remove env p w0 = Ok tt) ->
  let output_dir := posixpath.join (getcwd env) [lit "latex_output"] in
  (forall creds file w resp,
     let run := convert_to_latex_endpoint env creds file w in
     fst run = Ok resp ->
     exists unique_id,
       RunPdflatex
         (build_pdflatex_command (output_dir ++ [SLASH] ++ unique_id ++ lit ".tex")
            output_dir) output_dir ∈ events_between w (snd run) /\
       forall ext, ext ∈ [lit ".pdf"; lit ".tex"; lit ".aux"; lit ".log"; lit ".out"] ->
         fs (snd run) !! (output_dir ++ [SLASH] ++ unique_id ++ ext) = None) /\
  (forall resume_data creds w resp,
     let run := convert_json_to_latex_endpoint env resume_data creds w in
     fst run = Ok resp ->
     exists unique_id,
       RunPdflatex
         (build_pdflatex_command (output_dir ++ [SLASH] ++ unique_id ++ lit ".tex")
            output_dir) output_dir ∈ events_between w (snd run) /\
       forall ext, ext ∈ [lit ".pdf"; lit ".tex"; lit ".aux"; lit ".log"; lit ".out"] ->
         fs (snd run) !! (output_dir ++ [SLASH] ++ unique_id ++ ext) = None).
Proof.
  intros Huuid Hremove output_dir. split.
  - intros creds file w resp run Hok. subst run.
    destruct (convert_to_latex_endpoint env creds file w) as [r w'] eqn:Hrun.
    cbn [fst snd] in *. subst r.
    apply convert_to_latex_outcome in Hrun
      as [(e & [=] & _) |
          (user_id & daily & monthly & pdf & pdf_filename & w4 & public_url & wb
           & Hcompiled & Hcompleted & _ & ->)].
    destruct (latex_compiled_start _ _ _ _ _ _ _ _ _ Hcompiled)
      as (latex & w3 & before3 & Hcompile & Hbefore3).
    exact (completed_conversion_is_clean creds _ user_id w w3 before3 latex pdf
             pdf_filename w4 _ public_url wb
             {| fs := fs wb;
                trace := trace wb ++ [UsageUpdate user_id (daily + 1) (monthly + 1)] |} _
             Huuid Hremove Hbefore3 Hcompile eq_refl Hcompleted eq_refl eq_refl).
  - intros resume_data creds w resp run Hok. subst run.
    destruct (convert_json_to_latex_endpoint env resume_data creds w) as [r w'] eqn:Hrun.
    cbn [fst snd] in *. subst r.
    apply convert_json_to_latex_outcome in Hrun
      as [(e & [=] & _) |
          (user_id & daily & monthly & pdf & pdf_filename & w4 & public_url & wb
           & Hcompiled & Hcompleted & _ & ->)].
    destruct (json_compiled_start _ _ _ _ _ _ _ _ _ Hcompiled)
      as (latex & w3 & before3 & Hcompile & Hbefore3).
    exact (completed_conversion_is_clean creds _ user_id w w3 before3 latex pdf
             pdf_filename w4 _ public_url wb
             {| fs := fs wb;
                trace := trace wb ++ [UsageUpdate user_id (daily + 1) (monthly + 1)] |} _
             Huuid Hremove Hbefore3 Hcompile (with_pdf_at_trace _ _ _) Hcompleted
             eq_refl eq_refl).
Qed.

(** *** Steps that cannot fail a request *)

(** X17: once the last fallible step has succeeded, the request is answered:
    for the two conversions this is the insertion of the record, for
    [/tailor] the model's answer. Neither the mail, nor the clean-up,
    nor the update of the counters can turn the response into an
    error, whatever the provider and the usage store answer. *)
Theorem completed_steps_are_answered :
  (forall creds file w name user_id daily monthly pdf pdf_filename w4 public_url w6,
     filename file = Some name ->
     endswith_any (lower (unicode_lower env) name)
       [lit ".pdf"; lit ".md"; lit ".docx"; lit ".doc"] = true ->
     latex_compiled env creds file w user_id daily monthly pdf pdf_filename w4 ->
     stored env user_id pdf_filename w4 public_url w6 ->
     fst (convert_to_latex_endpoint env creds file w) = Ok (ResumeLinkResponse public_url)) /\
  (forall resume_data creds w user_id daily monthly pdf pdf_filename w4 public_url w6,
     json_compiled env resume_data creds w user_id daily monthly pdf pdf_filename w4 ->
     stored env user_id pdf_filename
       (with_pdf_at (posixpath.join (getcwd env) [lit "latex_output"; pdf_filename]) pdf w4)
       public_url w6 ->
     fst (convert_json_to_latex_endpoint env resume_data creds w) =
       Ok (JsonToLatexResponse (lit "Resume converted successfully from JSON.")
             (Some public_url) (Some pdf_filename))) /\
  (forall creds job_description file w user_id daily monthly name text tailored w3,
     tailoring_done env creds job_description file w user_id daily monthly name text
       tailored w3 ->
     fst (tailor_resume_endpoint env creds job_description file w) =
       Ok (TailoredResumeResponse name (len text) (len job_description) tailored)).
Proof.
  split; [| split].
  - intros creds file w name user_id daily monthly pdf pdf_filename w4 public_url w6
      Hname Hallowed
      (w1 & text & w2 & latex & w3 & Hauth & Hquota & Hextract & Hgenerate & Hcompile)
      (w5 & Hupload & Hinsert).
    assert (Hfile : nonempty_filename file = Some name).
    { unfold nonempty_filename. rewrite Hname.
      destruct name; [discriminate | reflexivity]. }
    unfold convert_to_latex_endpoint. unfold_monad.
    rewrite Hauth, Hquota. mstep. rewrite Hfile, Hallowed. cbn [negb].
    rewrite Hextract. mstep. rewrite Hgenerate. mstep. rewrite Hcompile. mstep.
    rewrite Hupload. mstep. rewrite Hinsert. mstep.
    rewrite notify_world. mstep.
    match goal with |- context [cleanup env ?d ?f ?wa] =>
      destruct (cleanup_world env d f wa) as (wb & -> & _) end.
    mstep. rewrite increment_user_usage_world. reflexivity.
  - intros resume_data creds w user_id daily monthly pdf pdf_filename w4 public_url w6
      (w1 & c & latex & w3 & Hauth & Hquota & Hchain & Hgenerate & Hcompile)
      (w5 & Hupload & Hinsert).
    unfold convert_json_to_latex_endpoint. unfold_monad.
    rewrite Hauth, Hquota. mstep. rewrite Hchain.
    rewrite Hgenerate. mstep. rewrite Hcompile. mstep.
    unfold path_exists. mstep.
    set (local := posixpath.join (posixpath.join (getcwd env) [lit "latex_output"])
                    [pdf_filename]).
    assert (Hfallback :
              (if bool_decide (is_Some (fs w4 !! local))
               then mret tt else write_binary local pdf) w4
              = (Ok tt, with_pdf_at local pdf w4)).
    { unfold with_pdf_at. destruct (bool_decide _); reflexivity. }
    unfold mret, M_ret, ret in Hfallback. rewrite Hfallback. mstep.
    change (posixpath.join (getcwd env) [lit "latex_output"; pdf_filename]) with local
      in Hupload.
    rewrite Hupload. mstep. rewrite Hinsert. mstep.
    rewrite notify_world. mstep.
    match goal with |- context [cleanup env ?d ?f ?wa] =>
      destruct (cleanup_world env d f wa) as (wb & -> & _) end.
    mstep. rewrite increment_user_usage_world. reflexivity.
  - intros creds job_description file w user_id daily monthly name text tailored w3
      (w1 & w2 & c & Hauth & Hquota & Hname & Hextract & Hchain & Hgenerate).
    unfold tailor_resume_endpoint. unfold_monad.
    rewrite Hauth, Hquota. mstep. rewrite Hname.
    rewrite Hextract. mstep. rewrite Hchain. rewrite Hgenerate. mstep.
    rewrite increment_user_usage_world. reflexivity.
Qed.

(** *** The allow-list of [/convert-latex] *)

(** X18: [/convert-latex] judges an upload by its name alone, before it
    reads it: a name without one of the four endings is refused with
    400 whatever the content type says, after the quota read and no
    other call. *)
Theorem convert_to_latex_refuses_other_names creds file w user_id daily monthly w1 name :
  get_user_id_from_jwt env creds = Ok user_id ->
  check_user_usage_limits env user_id w = (Ok (daily, monthly), w1) ->
  filename file = Some name ->
  endswith_any (lower (unicode_lower env) name)
    [lit ".pdf"; lit ".md"; lit ".docx"; lit ".doc"] = false ->
  convert_to_latex_endpoint env creds file w =
    (Raise (HTTPException 400
              (if bool_decide (name = []) then lit "Filename cannot be empty."
               else lit "Only PDF, Markdown (.md), DOCX, and DOC files are supported.")),
     {| fs := fs w; trace := trace w ++ [UsageSelect user_id] |}).
Proof.
  intros Hauth Hquota Hname Hother.
  pose proof (check_user_usage_limits_world env user_id w) as Hw1.
  rewrite Hquota in Hw1. cbn [snd] in Hw1. subst w1.
  unfold convert_to_latex_endpoint, nonempty_filename. unfold_monad.
  rewrite Hauth, Hquota. mstep. rewrite Hname.
  destruct name as [| ch name']; [reflexivity |].
  rewrite Hother. reflexivity.
Qed.

(** *** An upload without text *)

(** X19: an upload from which the extractor gets no text is refused by
    the first test of the chain function, a [ValueError]; [/tailor]
    has a handler for it and answers 400, [/convert-latex] has only
    the general one and answers 500 with the same kind of message. No
    model is called in either case. *)
Theorem upload_without_text_statuses creds file w user_id daily monthly w1 w2 name :
  get_user_id_from_jwt env creds = Ok user_id ->
  check_user_usage_limits env user_id w = (Ok (daily, monthly), w1) ->
  filename file = Some name -> name <> [] ->
  extract_text_from_file env file w1 = (Ok [], w2) ->
  (forall job_description c,
     resume_tailoring_chain env = Some c ->
     tailor_resume_endpoint env creds job_description file w =
       (Raise (HTTPException 400
                 (lit "Resume content and job description cannot be empty.")), w2)) /\
  (endswith_any (lower (unicode_lower env) name)
     [lit ".pdf"; lit ".md"; lit ".docx"; lit ".doc"] = true ->
   convert_to_latex_endpoint env creds file w =
     (Raise (HTTPException 500 (lit "Resume content cannot be empty")), w2)).
Proof.
  intros Hauth Hquota Hname Hne Hextract.
  assert (Hfile : nonempty_filename file = Some name).
  { unfold nonempty_filename. rewrite Hname. destruct name; [congruence | reflexivity]. }
  split.
  - intros job_description c Hchain.
    unfold tailor_resume_endpoint. unfold_monad.
    rewrite Hauth, Hquota. mstep. rewrite Hfile, Hextract. mstep. rewrite Hchain.
    reflexivity.
  - intros Hallowed.
    unfold convert_to_latex_endpoint. unfold_monad.
    rewrite Hauth, Hquota. mstep. rewrite Hfile, Hallowed. cbn [negb].
    rewrite Hextract. reflexivity.
Qed.

End Outcomes.

(** ** More on the file text extractor *)

Section ExtractionMore.
Context (env : Env).

Lemma str_of_HTTPException_400 detail :
  str_of_exn (HTTPException 400 detail) = lit "400: " ++ detail.
Proof. reflexivity. Qed.

(** X20: the extractor on an upload whose bytes have been read. It
    changes no local file, whatever it returns. An empty upload is
    refused with 400; within the size limit, a PDF that the parser
    refuses is answered 400 "Could not parse PDF file: ..." with the
    parser's error, a type that is none of the supported ones 415 with
    the content type in quotes, and a text or Markdown upload never
    fails. *)
Theorem extract_text_from_file_failures file w :
  let run := extract_text_from_file env file w in
  let kind := detect_kind env (content_type file) (filename_or_unknown file) in
  fs (snd run) = fs w /\
  (content file = [] ->
   fst run = Raise (HTTPException 400 (lit "Uploaded file is empty."))) /\
  (content file <> [] -> len (content file) <= MAX_FILE_SIZE ->
   (kind = PdfFile ->
    forall pdf_err, fitz_open env (content file) = Raise pdf_err ->
      fst run =
        Raise (HTTPException 400 (lit "Could not parse PDF file: " ++ str_of_exn pdf_err))) /\
   (kind = TextFile -> exists text, fst run = Ok text) /\
   (kind = UnsupportedFile ->
    fst run =
      Raise (HTTPException 415
               (lit "Unsupported file type: " ++ [QUOTE] ++ show_option (content_type file)
                ++ [QUOTE] ++ lit ". Please upload PDF, DOCX, MD, or TXT.")))).
Proof.
  intros run kind. subst run kind.
  split; [apply (keeps_files_extract_text_from_file env file w) |].
  unfold extract_text_from_file, extract_pdf, extract_plain. unfold_monad.
  split.
  - intros Hempty. rewrite Hempty. reflexivity.
  - intros Hcontent Hsize.
    destruct (Z.ltb_spec MAX_FILE_SIZE (len (content file))); [lia |].
    destruct (content file) as [| b bs]; [congruence |].
    split; [| split]; intros Hkind; rewrite Hkind.
    + intros pdf_err Hparse. rewrite Hparse. reflexivity.
    + destruct (decode_utf8 (b :: bs)); eexists; reflexivity.
    + reflexivity.
Qed.

(** X21: in the Word branch the outer handler catches what the inner one
    has just raised: every failure is a 400 "Could not parse Word
    file: ...", and when the fallback program fails, the detail holds
    the inner error with its own status, "400: Could not parse DOC
    file: ...". *)
Theorem extract_word_failures_are_rewrapped file w :
  len (content file) <= MAX_FILE_SIZE -> content file <> [] ->
  detect_kind env (content_type file) (filename_or_unknown file) = WordFile ->
  (forall e, fst (extract_text_from_file env file w) = Raise e ->
     exists cause,
       e = HTTPException 400 (lit "Could not parse Word file: " ++ str_of_exn cause)) /\
  (forall import_err antiword_err,
     endswith (lower (unicode_lower env) (filename_or_unknown file)) (lit ".docx") = false ->
     textract_process env (content file) = Raise import_err ->
     isinstance import_err ImportError = true ->
     antiword env (content file) w = Raise antiword_err ->
     fst (extract_text_from_file env file w) =
       Raise (HTTPException 400
                (lit "Could not parse Word file: 400: Could not parse DOC file: "
                 ++ str_of_exn antiword_err))).
Proof.
  intros Hsize Hcontent Hkind.
  unfold extract_text_from_file, extract_word. unfold_monad.
  destruct (Z.ltb_spec MAX_FILE_SIZE (len (content file))); [lia |].
  destruct (content file) as [| b bs]; [congruence |].
  rewrite Hkind. split.
  - intros e.
    destruct (endswith _ (lit ".docx")).
    + destruct (docx_paragraphs env (b :: bs)) as [? | e0]; mstep; [discriminate |].
      intros He. exists e0. congruence.
    + destruct (textract_process env (b :: bs)) as [extracted | e0]; mstep;
        [discriminate |].
      destruct (isinstance e0 ImportError); mstep.
      * destruct (antiword env (b :: bs) w) as [? | e1]; mstep; [discriminate |].
        intros He.
        exists (HTTPException 400 (lit "Could not parse DOC file: " ++ str_of_exn e1)).
        congruence.
      * intros He. exists e0. congruence.
  - intros import_err antiword_err Hdoc Htextract Himport Hantiword.
    rewrite Hdoc, Htextract. mstep. rewrite Himport. mstep. rewrite Hantiword. mstep.
    rewrite str_of_HTTPException_400. reflexivity.
Qed.

End ExtractionMore.

(** ** The codec round trip *)

Ltac nlia := zify; Z.to_euclidean_division_equations; lia.

Lemma in_range_true lo hi b : (lo <= b)%N -> (b <= hi)%N -> in_range lo hi b = true.
Proof.
  intros Hlo Hhi. unfold in_range.
  now rewrite (proj2 (N.leb_le _ _) Hlo), (proj2 (N.leb_le _ _) Hhi).
Qed.

Lemma is_cont_low6 x : is_cont (128 + x mod 64) = true.
Proof. apply in_range_true; nlia. Qed.

Lemma decode_utf8_N_1 b0 r :
  (b0 < 128)%N -> decode_utf8_N (b0 :: r) = cons b0 <$> decode_utf8_N r.
Proof.
  intros H. cbn -[N.ltb N.leb N.eqb N.div N.modulo N.add N.mul N.sub].
  now rewrite (proj2 (N.ltb_lt _ _) H).
Qed.

Lemma decode_utf8_N_2 b0 b1 r :
  (194 <= b0)%N -> (b0 <= 223)%N -> is_cont b1 = true ->
  decode_utf8_N (b0 :: b1 :: r) =
    cons ((b0 - 192) * 64 + (b1 - 128))%N <$> decode_utf8_N r.
Proof.
  intros Hlo Hhi H1. cbn -[N.ltb N.leb N.eqb N.div N.modulo N.add N.mul N.sub is_cont in_range].
  rewrite (proj2 (N.ltb_ge _ _)) by lia.
  now rewrite in_range_true, H1.
Qed.

Lemma decode_utf8_N_3 b0 b1 b2 r :
  (224 <= b0)%N -> (b0 <= 239)%N ->
  (if (b0 =? 224)%N then in_range 160 191 b1
   else if (b0 =? 237)%N then in_range 128 159 b1 else is_cont b1) = true ->
  is_cont b2 = true ->
  decode_utf8_N (b0 :: b1 :: b2 :: r) =
    cons ((b0 - 224) * 4096 + (b1 - 128) * 64 + (b2 - 128))%N <$> decode_utf8_N r.
Proof.
  intros Hlo Hhi H1 H2.
  cbn -[N.ltb N.leb N.eqb N.div N.modulo N.add N.mul N.sub is_cont in_range].
  rewrite (proj2 (N.ltb_ge _ _)) by lia.
  unfold in_range at 1. rewrite (proj2 (N.leb_gt b0 223)) by lia. rewrite andb_false_r.
  rewrite (in_range_true 224 239) by assumption.
  now rewrite H1, H2.
Qed.

Lemma decode_utf8_N_4 b0 b1 b2 b3 r :
  (240 <= b0)%N -> (b0 <= 244)%N ->
  (if (b0 =? 240)%N then in_range 144 191 b1
   else if (b0 =? 244)%N then in_range 128 143 b1 else is_cont b1) = true ->
  is_cont b2 = true -> is_cont b3 = true ->
  decode_utf8_N (b0 :: b1 :: b2 :: b3 :: r) =
    cons ((b0 - 240) * 262144 + (b1 - 128) * 4096 + (b2 - 128) * 64 + (b3 - 128))%N
      <$> decode_utf8_N r.
Proof.
  intros Hlo Hhi H1 H2 H3.
  cbn -[N.ltb N.leb N.eqb N.div N.modulo N.add N.mul N.sub is_cont in_range].
  rewrite (proj2 (N.ltb_ge _ _)) by lia.
  unfold in_range at 1. rewrite (proj2 (N.leb_gt b0 223)) by lia. rewrite andb_false_r.
  unfold in_range at 1. rewrite (proj2 (N.leb_gt b0 239)) by lia. rewrite andb_false_r.
  rewrite (in_range_true 240 244) by assumption.
  now rewrite H1, H2, H3.
Qed.

Lemma decode_encode_codepoint c enc rest :
  encode_codepoint c = Some enc ->
  decode_utf8_N (enc ++ rest) = cons c <$> decode_utf8_N rest.
Proof.
  unfold encode_codepoint.
  destruct (N.ltb_spec c 128).
  { intros [= <-]. now apply decode_utf8_N_1. }
  destruct (N.ltb_spec c 2048).
  { intros [= <-]. cbn [List.app].
    rewrite decode_utf8_N_2; [| nlia | nlia | apply is_cont_low6].
    do 2 f_equal. nlia. }
  destruct (N.ltb_spec c 65536).
  { destruct (in_range 55296 57343 c) eqn:Hsurrogate; [discriminate |].
    intros [= <-]. cbn [List.app].
    rewrite decode_utf8_N_3; [| nlia | nlia | | apply is_cont_low6].
    - do 2 f_equal. nlia.
    - destruct (N.eqb_spec (224 + c / 4096) 224);
        [apply in_range_true; nlia |].
      destruct (N.eqb_spec (224 + c / 4096) 237); [| apply is_cont_low6].
      apply in_range_true; [nlia |].
      unfold in_range in Hsurrogate.
      destruct (N.leb_spec 55296 c); [| nlia].
      destruct (N.leb_spec c 57343); [discriminate | nlia]. }
  destruct (N.ltb_spec c 1114112); [| discriminate].
  intros [= <-]. cbn [List.app].
  rewrite decode_utf8_N_4; [| nlia | nlia | | apply is_cont_low6 ..].
  - do 2 f_equal. nlia.
  - destruct (N.eqb_spec (240 + c / 262144) 240);
      [apply in_range_true; nlia |].
    destruct (N.eqb_spec (240 + c / 262144) 244); [| apply is_cont_low6].
    apply in_range_true; nlia.
Qed.

Lemma decode_encode_codepoints s ns :
  mapM encode_codepoint s = Some ns -> decode_utf8_N (concat ns) = Some s.
Proof.
  rewrite mapM_Some. induction 1 as [| c enc s ns Henc _ IH]; [reflexivity |].
  cbn [concat]. rewrite (decode_encode_codepoint _ _ _ Henc), IH. reflexivity.
Qed.

Lemma to_N_of_N ns b : mapM Byte.of_N ns = Some b -> map Byte.to_N b = ns.
Proof.
  rewrite mapM_Some. induction 1 as [| n x ns b Hx _ IH]; [reflexivity |].
  cbn [map]. rewrite IH. f_equal. now apply Byte.to_of_N.
Qed.

(** What [str.encode('utf-8')] gives, [bytes.decode('utf-8')] reads back. *)
Lemma decode_encode_utf8 s data : encode_utf8 s = Some data -> decode_utf8 data = Some s.
Proof.
  unfold encode_utf8, decode_utf8.
  destruct (mapM encode_codepoint s) as [ns |] eqn:Hns; [| discriminate].
  cbn. intros Hdata. rewrite (to_N_of_N _ _ Hdata). now apply decode_encode_codepoints.
Qed.

Section CompilerMore.
Context (env : Env).

(** X22: the compiler is started once, in the output directory, on the
    file that holds the UTF-8 encoding of the given text and nothing
    else, and the files it leaves are the files after the call, whether
    a PDF is among them or not. A text that cannot be encoded (it holds
    a surrogate) is answered with 500 before any compiler run, and
    leaves the empty source file behind. *)
Theorem convert_latex_to_pdf_compiles_the_text latex_content w :
  let output_dir := posixpath.join (getcwd env) [lit "latex_output"] in
  let tex_path := posixpath.join output_dir [uuid4 env w ++ lit ".tex"] in
  let cmd := build_pdflatex_command tex_path output_dir in
  (forall data, encode_utf8 latex_content = Some data ->
     let w1 := {| fs := <[tex_path := data]> (fs w); trace := trace w |} in
     decode_utf8 data = Some latex_content /\
     snd (convert_latex_to_pdf env latex_content w) =
       {| fs := snd (pdflatex env cmd output_dir w1);
          trace := trace w ++ [RunPdflatex cmd output_dir] |}) /\
  (encode_utf8 latex_content = None ->
   convert_latex_to_pdf env latex_content w =
     (Raise (HTTPException 500
               (lit "Failed to convert LaTeX to PDF: " ++ codec_error env latex_content)),
      {| fs := <[tex_path := []]> (fs w); trace := trace w |})).
Proof.
  intros output_dir tex_path cmd. split.
  - intros data Hdata w1. split; [now apply decode_encode_utf8 |].
    unfold convert_latex_to_pdf, write_latex_to_file, write_binary, run_pdflatex_command.
    unfold_monad. fold output_dir. fold tex_path. rewrite Hdata. mstep.
    destruct (get_pdf_and_tex_filenames tex_path) as [pdf_filename pdf_path].
    cbn [fs trace]. rewrite insert_insert_eq. fold cmd. fold w1.
    destruct (pdflatex env cmd output_dir w1) as [[process | e] files]; mstep.
    + unfold path_exists, getsize, read_pdf_file, read_binary. cbn [fs trace].
      destruct (files !! pdf_path) as [content |] eqn:Hfile.
      * rewrite bool_decide_eq_true_2 by eauto. mstep. cbn [fs trace]. rewrite Hfile.
        mstep. destruct (0 <? len content); mstep; [| reflexivity].
        cbn [fs trace]. rewrite Hfile. reflexivity.
      * rewrite bool_decide_eq_false_2 by (intros [x Hx]; discriminate). reflexivity.
    + destruct (is_HTTPException e); reflexivity.
  - intros Hnone.
    unfold convert_latex_to_pdf, write_latex_to_file, write_binary.
    unfold_monad. fold output_dir. fold tex_path. rewrite Hnone. reflexivity.
Qed.

End CompilerMore.

(** ** The quota gate in the handlers *)

Section GateFirst.
Context (env : Env).

(** X23: a request that the quota gate refuses, for a reached limit or a
    failed read, ends there in all three handlers: the error is the
    gate's, the only call made is the read of the counters, and the
    upload is not even looked at. *)
Theorem refused_by_quota_gate_makes_no_other_call creds user_id w e w1 :
  get_user_id_from_jwt env creds = Ok user_id ->
  check_user_usage_limits env user_id w = (Raise e, w1) ->
  let refused : result Response * World :=
    (Raise e, {| fs := fs w; trace := trace w ++ [UsageSelect user_id] |}) in
  (forall job_description file,
     tailor_resume_endpoint env creds job_description file w = refused) /\
  (forall file, convert_to_latex_endpoint env creds file w = refused) /\
  (forall resume_data, convert_json_to_latex_endpoint env resume_data creds w = refused).
Proof.
  intros Hauth Hquota refused. subst refused.
  assert (Hw1 : w1 = {| fs := fs w; trace := trace w ++ [UsageSelect user_id] |}).
  { unfold check_user_usage_limits, call in Hquota. unfold_monad_in Hquota.
    destruct (usage_select env user_id w) as [usage_data | e0]; mstep_in Hquota.
    - destruct (counter _ (lit "daily_conversions")) as [d | e1]; mstep_in Hquota.
      + destruct (3 <=? d); mstep_in Hquota; [now injection Hquota as _ <- |].
        destruct (counter _ (lit "monthly_conversions")) as [m | e2]; mstep_in Hquota.
        * destruct (30 <=? m); mstep_in Hquota; [now injection Hquota as _ <- | discriminate].
        * destruct (is_HTTPException e2); now injection Hquota as _ <-.
      + destruct (is_HTTPException e1); now injection Hquota as _ <-.
    - destruct (is_HTTPException e0); now injection Hquota as _ <-. }
  subst w1.
  repeat split; intros;
    [unfold tailor_resume_endpoint | unfold convert_to_latex_endpoint
     | unfold convert_json_to_latex_endpoint];
    unfold_monad; rewrite Hauth, Hquota; reflexivity.
Qed.

End GateFirst.

(** ** The payment webhook *)

(** X24: the webhook handler is closed as shipped: with either constant
    unset it answers 503 without looking at the request. Configured, it
    answers "received" exactly for an event that has a type, and each
    failure of the verification with 400 or 500. *)
Theorem handle_stripe_webhook_outcomes api_key endpoint_secret construct_event
    payload stripe_signature :
  let run := handle_stripe_webhook api_key endpoint_secret construct_event
               payload stripe_signature in
  (truthy api_key = false \/ truthy endpoint_secret = false ->
   run = Raise (HTTPException 503 (lit "Payment system not configured."))) /\
  (forall answer,
     run = Ok answer <->
     answer = [(lit "message", lit "Webhook received successfully.")] /\
     truthy api_key = true /\
     exists secret type,
       endpoint_secret = Some secret /\ secret <> [] /\
       construct_event payload stripe_signature secret = StripeEvent (Some type)) /\
  (forall e, run = Raise e ->
     exists status detail,
       e = HTTPException status detail /\ (status = 503 \/ status = 400 \/ status = 500)).
Proof.
  intros run. subst run.
  unfold handle_stripe_webhook, truthy, HTTP_400_BAD_REQUEST,
    HTTP_500_INTERNAL_SERVER_ERROR, HTTP_503_SERVICE_UNAVAILABLE.
  destruct api_key as [[| k ks] |].
  1, 3: (split; [reflexivity |]; split;
         [intros answer; split; [discriminate | intros (_ & [=] & _)]
         | intros e He; do 2 eexists; split; [symmetry; injection He as He; exact He | lia]]).
  destruct endpoint_secret as [[| c s] |].
  1, 3: (split; [reflexivity |]; split;
         [intros answer; split;
            [discriminate | intros (_ & _ & secret & type & [=] & Hne & _); congruence]
         | intros e He; do 2 eexists; split; [symmetry; injection He as He; exact He | lia]]).
  split; [intros [[=] | [=]] |].
  destruct (construct_event payload stripe_signature (c :: s)) as [[type |] | | |] eqn:Hevent.
  all: split;
    [intros answer; split;
       [try discriminate
       | intros (-> & _ & secret & type' & [= <-] & _ & Hevent');
         first [reflexivity | congruence]]
    | intros e' He;
      first [discriminate
            | do 2 eexists; split; [symmetry; injection He as He; exact He | lia]]].
  intros [= <-]. repeat split. exists (c :: s), type. repeat split; [discriminate | exact Hevent].
Qed.

(** ** The further properties on the sample deployment *)

Lemma check_user_usage_limits_admits_under_limits_witness :
  2 < 3 /\ 5 < 30 /\
  (exists usage_data,
     usage_select Sample.working (lit "u1") Sample.empty_world = Ok usage_data /\
     counter (usage_row usage_data) (lit "daily_conversions") = Ok 2 /\
     counter (usage_row usage_data) (lit "monthly_conversions") = Ok 5) /\
  {| fs := ∅; trace := [UsageSelect (lit "u1")] |} =
    {| fs := fs Sample.empty_world;
       trace := trace Sample.empty_world ++ [UsageSelect (lit "u1")] |}.
Proof.
  apply (check_user_usage_limits_admits_under_limits Sample.working (lit "u1")
           Sample.empty_world 2 5 {| fs := ∅; trace := [UsageSelect (lit "u1")] |}).
  vm_compute. reflexivity.
Defined.

Lemma check_user_usage_limits_wraps_failures_witness :
  let env := Sample.env (Some (lit "s3cret"))
               (Raise (Error OtherError (lit "connection refused")))
               Sample.compiler_with_warnings (Ok tt) in
  fst (check_user_usage_limits env (lit "u1") Sample.empty_world) =
    Raise (HTTPException 500 (lit "Usage check failed: connection refused")).
Proof.
  intros env.
  apply (proj1 (check_user_usage_limits_wraps_failures env (lit "u1") Sample.empty_world)
           (Error OtherError (lit "connection refused"))); reflexivity.
Defined.

Lemma get_user_id_from_jwt_configured_witness :
  get_user_id_from_jwt Sample.working Sample.bearer = Ok (lit "u1").
Proof.
  apply (proj1 (get_user_id_from_jwt_configured Sample.working Sample.bearer
                  (lit "s3cret") eq_refl ltac:(discriminate))).
  split; [discriminate |]. exists Sample.claims. split; vm_compute; reflexivity.
Defined.

Lemma send_resume_conversion_notification_sent_witness :
  fst (send_resume_conversion_notification Sample.working Sample.bearer
         (lit "https://bucket.example.org/cv.pdf") (lit "resume") Sample.empty_world)
  = Ok true.
Proof.
  apply (proj1 (send_resume_conversion_notification_sent Sample.working Sample.bearer
                  (lit "https://bucket.example.org/cv.pdf") (lit "resume")
                  Sample.empty_world)).
  exists (lit "u1@example.org"). split; vm_compute; reflexivity.
Defined.

Lemma format_pdflatex_error_counts_witness :
  format_pdflatex_error (Sample.diagnostics 3) 0 =
    Py.join [LF] (splitlines (Sample.diagnostics 3)).
Proof.
  apply (format_pdflatex_error_counts (Sample.diagnostics 3) 0);
    [discriminate | reflexivity].
Defined.

Lemma generate_latex_resume_outcomes_witness :
  exists c0 output,
    Some LatexChain = Some c0 /\
    chain_ainvoke Sample.working c0
      [(lit "resume_content", lit "John Doe");
       (lit "latex_template", LATEX_TEMPLATE Sample.working)] Sample.empty_world
    = Ok output /\
    LF :: lit "\documentclass{article}" = strip_code_fences output /\
    snd (generate_latex_resume Sample.working (lit "John Doe") (Some LatexChain)
           Sample.empty_world) =
      {| fs := fs Sample.empty_world;
         trace := trace Sample.empty_world ++
           [ChainInvoke c0 [(lit "resume_content", lit "John Doe");
                            (lit "latex_template", LATEX_TEMPLATE Sample.working)]] |}.
Proof.
  apply (generate_latex_resume_outcomes Sample.working (lit "John Doe") (Some LatexChain)
           Sample.empty_world).
  vm_compute. reflexivity.
Defined.

Lemma generate_tailored_resume_outcomes_witness :
  generate_tailored_resume Sample.working [] (lit "Senior engineer") ResumeChain
    Sample.empty_world =
  (Raise (Error ValueError (lit "Resume content and job description cannot be empty.")),
   Sample.empty_world).
Proof.
  apply (generate_tailored_resume_outcomes Sample.working [] (lit "Senior engineer")
           ResumeChain Sample.empty_world).
  left. reflexivity.
Defined.

Lemma working_file_paths_witness :
  let output_dir := posixpath.join (getcwd Sample.working) [lit "latex_output"] in
  let tex_path := posixpath.join output_dir [Sample.unique_id ++ lit ".tex"] in
  let pdf_filename := fst (get_pdf_and_tex_filenames tex_path) in
  let pdf_path := snd (get_pdf_and_tex_filenames tex_path) in
  tex_path = output_dir ++ [SLASH] ++ Sample.unique_id ++ lit ".tex" /\
  pdf_path = posixpath.join (getcwd Sample.working) [lit "latex_output"; pdf_filename] /\
  pdf_path = output_dir ++ [SLASH] ++ pdf_filename /\
  (Sample.unique_id <> [] -> DOT ∉ Sample.unique_id ->
   pdf_filename = Sample.unique_id ++ lit ".pdf").
Proof.
  apply (working_file_paths Sample.working Sample.unique_id).
  apply (proj1 (bool_decide_eq_false _)). vm_compute. reflexivity.
Defined.

Lemma failed_requests_raise_http_and_are_not_counted_witness :
  let env := Sample.env (Some (lit "s3cret")) (Ok (Sample.usage 3 5))
               Sample.compiler_with_warnings (Ok tt) in
  let run := convert_to_latex_endpoint env Sample.bearer Sample.cv Sample.empty_world in
  is_HTTPException (HTTPException 429 (lit "Daily conversion limit reached.")) = true /\
  existsb is_usage_update (events_between Sample.empty_world (snd run)) = false.
Proof.
  intros env run.
  apply (proj1 (proj2 (failed_requests_raise_http_and_are_not_counted env))
           Sample.bearer Sample.cv Sample.empty_world).
  vm_compute. reflexivity.
Defined.

Lemma convert_to_latex_success_calls_witness :
  let run := convert_to_latex_endpoint Sample.degraded Sample.bearer Sample.cv
               Sample.empty_world in
  fst run =
    Ok (ResumeLinkResponse
          (lit "https://bucket.example.org/7d1f0007-63e1-4e1a-b22b-54c4d836d628.pdf")) /\
  exists pdf_filename public_url data before w5,
    get_public_url Sample.degraded pdf_filename w5 = Ok public_url /\
    forallb before_storage before = true /\
    events_between Sample.empty_world (snd run) =
      before
      ++ [BucketUpload pdf_filename data;
          TableInsert (resume_record Sample.degraded public_url (lit "u1") w5)]
      ++ notification_mails Sample.degraded Sample.bearer public_url (lit "resume")
      ++ [UsageUpdate (lit "u1") 3 6].
Proof.
  intros run.
  assert (Hok : fst run =
            Ok (ResumeLinkResponse
                  (lit "https://bucket.example.org/7d1f0007-63e1-4e1a-b22b-54c4d836d628.pdf")))
    by (vm_compute; reflexivity).
  split; [exact Hok |].
  pose proof (convert_to_latex_success_calls Sample.degraded Sample.bearer Sample.cv
                Sample.empty_world _ Hok) as Hcalls.
  cbv zeta in Hcalls.
  destruct Hcalls as (user_id & daily & monthly & pdf & pdf_filename & w4 & public_url
                      & data & before & Hauth & Hquota & _ & Hurl & _ & _ & _
                      & Hquiet & Hevents).
  vm_compute in Hauth. injection Hauth as <-.
  vm_compute in Hquota. injection Hquota as <- <-.
  exists pdf_filename, public_url, data, before.
  eexists. split; [exact Hurl |]. split; [exact Hquiet | exact Hevents].
Defined.

Lemma convert_json_to_latex_success_calls_witness :
  let run := convert_json_to_latex_endpoint Sample.degraded Sample.resume Sample.bearer
               Sample.empty_world in
  fst run =
    Ok (JsonToLatexResponse (lit "Resume converted successfully from JSON.")
          (Some (lit "https://bucket.example.org/7d1f0007-63e1-4e1a-b22b-54c4d836d628.pdf"))
          (Some (lit "7d1f0007-63e1-4e1a-b22b-54c4d836d628.pdf"))) /\
  exists pdf_filename public_url data before w5,
    get_public_url Sample.degraded pdf_filename w5 = Ok public_url /\
    forallb before_storage before = true /\
    events_between Sample.empty_world (snd run) =
      before
      ++ [BucketUpload pdf_filename data;
          TableInsert (resume_record Sample.degraded public_url (lit "u1") w5)]
      ++ notification_mails Sample.degraded Sample.bearer public_url (lit "json")
      ++ [UsageUpdate (lit "u1") 3 6].
Proof.
  intros run.
  assert (Hok : fst run =
            Ok (JsonToLatexResponse (lit "Resume converted successfully from JSON.")
                  (Some (lit "https://bucket.example.org/7d1f0007-63e1-4e1a-b22b-54c4d836d628.pdf"))
                  (Some (lit "7d1f0007-63e1-4e1a-b22b-54c4d836d628.pdf"))))
    by (vm_compute; reflexivity).
  split; [exact Hok |].
  pose proof (convert_json_to_latex_success_calls Sample.degraded Sample.resume
                Sample.bearer Sample.empty_world _ Hok) as Hcalls.
  cbv zeta in Hcalls.
  destruct Hcalls as (user_id & daily & monthly & pdf & pdf_filename & w4 & public_url
                      & data & before & Hauth & Hquota & _ & Hurl & _ & _ & _
                      & Hquiet & Hevents).
  vm_compute in Hauth. injection Hauth as <-.
  vm_compute in Hquota. injection Hquota as <- <-.
  exists pdf_filename, public_url, data, before.
  eexists. split; [exact Hurl |]. split; [exact Hquiet | exact Hevents].
Defined.


Lemma sample_identifier_is_plain e antiword_run update removal w0 :
  let env := Sample.with_answers e Sample.unique_id antiword_run update removal in
  uuid4 env w0 <> [] /\ (SLASH ∉ uuid4 env w0) /\ (DOT ∉ uuid4 env w0).
Proof.
  intros env. change (uuid4 env w0) with Sample.unique_id.
  split; [discriminate |].
  split; apply (proj1 (bool_decide_eq_false _)); vm_compute; reflexivity.
Qed.

Lemma successful_conversion_uploads_the_compiled_pdf_witness :
  let run := convert_to_latex_endpoint Sample.degraded Sample.bearer Sample.cv
               Sample.empty_world in
  exists user_id daily monthly pdf pdf_filename w4,
    latex_compiled Sample.degraded Sample.bearer Sample.cv Sample.empty_world
      user_id daily monthly pdf pdf_filename w4 /\
    pdf <> [] /\
    BucketUpload pdf_filename pdf ∈ events_between Sample.empty_world (snd run).
Proof.
  intros run.
  apply (proj1 (successful_conversion_uploads_the_compiled_pdf Sample.degraded
                  (fun w0 => proj1 (proj2 (sample_identifier_is_plain _ _ _ _ w0))))
           Sample.bearer Sample.cv Sample.empty_world
           (ResumeLinkResponse
              (lit "https://bucket.example.org/7d1f0007-63e1-4e1a-b22b-54c4d836d628.pdf"))).
  vm_compute. reflexivity.
Defined.

Lemma successful_conversion_leaves_no_working_file_witness :
  let output_dir := posixpath.join (getcwd Sample.tidy) [lit "latex_output"] in
  let run := convert_json_to_latex_endpoint Sample.tidy Sample.resume Sample.bearer
               Sample.empty_world in
  exists unique_id,
    RunPdflatex
      (build_pdflatex_command (output_dir ++ [SLASH] ++ unique_id ++ lit ".tex") output_dir)
      output_dir ∈ events_between Sample.empty_world (snd run) /\
    forall ext, ext ∈ [lit ".pdf"; lit ".tex"; lit ".aux"; lit ".log"; lit ".out"] ->
      fs (snd run) !! (output_dir ++ [SLASH] ++ unique_id ++ ext) = None.
Proof.
  intros output_dir run.
  apply (proj2 (successful_conversion_leaves_no_working_file Sample.tidy
                  (sample_identifier_is_plain _ _ _ _) (fun _ _ => eq_refl))
           Sample.resume Sample.bearer Sample.empty_world
           (JsonToLatexResponse (lit "Resume converted successfully from JSON.")
              (Some (lit "https://bucket.example.org/7d1f0007-63e1-4e1a-b22b-54c4d836d628.pdf"))
              (Some (lit "7d1f0007-63e1-4e1a-b22b-54c4d836d628.pdf")))).
  vm_compute. reflexivity.
Defined.

Lemma run_split {A} (m : M A) (w : World) (r : result A) :
  fst (m w) = r -> m w = (r, snd (m w)).
Proof. intros <-. now destruct (m w). Qed.

Lemma completed_steps_are_answered_witness :
  fst (convert_to_latex_endpoint Sample.degraded Sample.bearer Sample.cv Sample.empty_world)
  = Ok (ResumeLinkResponse
          (lit "https://bucket.example.org/7d1f0007-63e1-4e1a-b22b-54c4d836d628.pdf")).
Proof.
  eapply (proj1 (completed_steps_are_answered Sample.degraded)
            Sample.bearer Sample.cv Sample.empty_world (lit "cv.md") (lit "u1") 2 5
            Sample.pdf_magic (lit "7d1f0007-63e1-4e1a-b22b-54c4d836d628.pdf")).
  - reflexivity.
  - vm_compute. reflexivity.
  - exists (snd (check_user_usage_limits Sample.degraded (lit "u1") Sample.empty_world)),
      [82; 233; 115; 117; 109; 233]%N.
    eexists. exists (LF :: lit "\documentclass{article}"). eexists.
    split; [vm_compute; reflexivity |].
    split; [apply run_split; vm_compute; reflexivity |].
    split; [apply run_split; vm_compute; reflexivity |].
    split; apply run_split; vm_compute; reflexivity.
  - eexists. split; apply run_split; vm_compute; reflexivity.
Defined.

Lemma convert_to_latex_refuses_other_names_witness :
  convert_to_latex_endpoint Sample.working Sample.bearer
    (Sample.text_file "cv.txt" [x52; x65; x73; x75; x6d; x65]) Sample.empty_world =
  (Raise (HTTPException 400
            (if bool_decide (lit "cv.txt" = [])
             then lit "Filename cannot be empty."
             else lit "Only PDF, Markdown (.md), DOCX, and DOC files are supported.")),
   {| fs := fs Sample.empty_world;
      trace := trace Sample.empty_world ++ [UsageSelect (lit "u1")] |}).
Proof.
  apply (convert_to_latex_refuses_other_names Sample.working Sample.bearer
           (Sample.text_file "cv.txt" [x52; x65; x73; x75; x6d; x65]) Sample.empty_world
           (lit "u1") 2 5 {| fs := ∅; trace := [UsageSelect (lit "u1")] |} (lit "cv.txt"));
    vm_compute; reflexivity.
Defined.

Lemma extract_text_from_file_failures_witness :
  let file := {| filename := Some (lit "cv.odt");
                 content_type := Some (lit "application/vnd.oasis.opendocument.text");
                 content := [x50; x4b] |} in
  fst (extract_text_from_file Sample.working file Sample.empty_world) =
    Raise (HTTPException 415
             (lit "Unsupported file type: 'application/vnd.oasis.opendocument.text'. Please upload PDF, DOCX, MD, or TXT.")).
Proof.
  intros file.
  pose proof (extract_text_from_file_failures Sample.working file Sample.empty_world)
    as Hfailures.
  cbv zeta in Hfailures. destruct Hfailures as (_ & _ & Hkinds).
  destruct (Hkinds ltac:(discriminate) ltac:(vm_compute; discriminate))
    as (_ & _ & Hunsupported).
  exact (Hunsupported ltac:(vm_compute; reflexivity)).
Defined.

Lemma extract_word_failures_are_rewrapped_witness :
  fst (extract_text_from_file Sample.degraded Sample.word_file Sample.empty_world) =
    Raise (HTTPException 400
             (lit "Could not parse Word file: 400: Could not parse DOC file: "
              ++ str_of_exn (Error OtherError (lit "antiword: not found")))).
Proof.
  apply (proj2 (extract_word_failures_are_rewrapped Sample.degraded Sample.word_file
                  Sample.empty_world ltac:(vm_compute; discriminate) ltac:(discriminate)
                  ltac:(vm_compute; reflexivity))
           (Error ImportError (lit "No module named 'textract'"))
           (Error OtherError (lit "antiword: not found")));
    vm_compute; reflexivity.
Defined.

Lemma convert_latex_to_pdf_compiles_the_text_witness :
  let output_dir := posixpath.join (getcwd Sample.working) [lit "latex_output"] in
  let tex_path :=
    posixpath.join output_dir [uuid4 Sample.working Sample.empty_world ++ lit ".tex"] in
  convert_latex_to_pdf Sample.working [92; 55296]%N Sample.empty_world =
    (Raise (HTTPException 500
              (lit "Failed to convert LaTeX to PDF: "
               ++ codec_error Sample.working [92; 55296]%N)),
     {| fs := <[tex_path := []]> (fs Sample.empty_world);
        trace := trace Sample.empty_world |}).
Proof.
  intros output_dir tex_path.
  apply (proj2 (convert_latex_to_pdf_compiles_the_text Sample.working [92; 55296]%N
                  Sample.empty_world)).
  vm_compute. reflexivity.
Defined.

Lemma refused_by_quota_gate_makes_no_other_call_witness :
  let env := Sample.env (Some (lit "s3cret")) (Ok (Sample.usage 1 30))
               Sample.compiler_with_warnings (Ok tt) in
  let refused : result Response * World :=
    (Raise (HTTPException 429 (lit "Monthly conversion limit reached.")),
     {| fs := fs Sample.empty_world;
        trace := trace Sample.empty_world ++ [UsageSelect (lit "u1")] |}) in
  (forall job_description file,
     tailor_resume_endpoint env Sample.bearer job_description file Sample.empty_world
     = refused) /\
  (forall file, convert_to_latex_endpoint env Sample.bearer file Sample.empty_world
                = refused) /\
  (forall resume_data,
     convert_json_to_latex_endpoint env resume_data Sample.bearer Sample.empty_world
     = refused).
Proof.
  intros env.
  apply (refused_by_quota_gate_makes_no_other_call env Sample.bearer (lit "u1")
           Sample.empty_world
           (HTTPException 429 (lit "Monthly conversion limit reached."))
           {| fs := ∅; trace := [UsageSelect (lit "u1")] |});
    vm_compute; reflexivity.
Defined.

Lemma handle_stripe_webhook_outcomes_witness :
  handle_stripe_webhook None None
    (fun _ _ _ => StripeEvent (Some (lit "checkout.session.completed")))
    [x7b; x7d] (Some (lit "t=1,v1=abc"))
  = Raise (HTTPException 503 (lit "Payment system not configured.")).
Proof.
  apply (proj1 (handle_stripe_webhook_outcomes None None
                  (fun _ _ _ => StripeEvent (Some (lit "checkout.session.completed")))
                  [x7b; x7d] (Some (lit "t=1,v1=abc")))).
  left. reflexivity.
Defined.

Lemma upload_without_text_statuses_witness :
  (forall job_description c,
     resume_tailoring_chain Sample.working = Some c ->
     tailor_resume_endpoint Sample.working Sample.bearer job_description Sample.blank_pdf
       Sample.empty_world =
       (Raise (HTTPException 400
                 (lit "Resume content and job description cannot be empty.")),
        {| fs := ∅; trace := [UsageSelect (lit "u1")] |})) /\
  (endswith_any (lower (unicode_lower Sample.working) (lit "cv.pdf"))
     [lit ".pdf"; lit ".md"; lit ".docx"; lit ".doc"] = true ->
   convert_to_latex_endpoint Sample.working Sample.bearer Sample.blank_pdf
     Sample.empty_world =
     (Raise (HTTPException 500 (lit "Resume content cannot be empty")),
      {| fs := ∅; trace := [UsageSelect (lit "u1")] |})).
Proof.
  apply (upload_without_text_statuses Sample.working Sample.bearer Sample.blank_pdf
           Sample.empty_world (lit "u1") 2 5
           {| fs := ∅; trace := [UsageSelect (lit "u1")] |}
           {| fs := ∅; trace := [UsageSelect (lit "u1")] |} (lit "cv.pdf"));
    first [discriminate | vm_compute; reflexivity].
Defined.

Lemma cleanup_removes_working_files_witness :
  let latex_output_dir := lit "/srv/app/latex_output" in
  let w := {| fs := <[lit "/srv/app/latex_output/job.log" := [x61]]> ∅; trace := [] |} in
  exists w',
    cleanup Sample.tidy latex_output_dir (lit "job.pdf") w = (Ok tt, w') /\
    trace w' = trace w /\
    fs w' !! lit "/srv/app/latex_output/job.log" = None.
Proof.
  intros latex_output_dir w.
  destruct (cleanup_removes_working_files Sample.tidy latex_output_dir (lit "job.pdf") w)
    as (w' & Hrun & Htrace & _ & _ & Hgone).
  exists w'. split; [exact Hrun |]. split; [exact Htrace |].
  apply Hgone; [intros; reflexivity |].
  apply (proj1 (bool_decide_eq_true _)). vm_compute. reflexivity.
Defined.
